(** * Node-group provisioning of pulumi-eks

    A shallow embedding of [nodejs/eks/nodegroup.ts]: the option records,
    the bootstrap payload generator, the subnet classifier and the three
    provisioners ([createNodeGroupInternal], [createNodeGroupV2Internal],
    [createManagedNodeGroupInternal]).

    JavaScript strings are modelled as [string] (sequences of bytes),
    optional properties as [option], objects used as dictionaries as
    association lists in [Object.keys] order, thrown errors as the left
    summand of a result, and resource registrations as a trace of events
    threaded through a small monad. *)

From Stdlib Require Import String Ascii List ZArith NArith Bool Lia.
From Stdlib Require Import DecimalString DecimalPos DecimalN DecimalZ.
Import ListNotations.
Open Scope string_scope.

(* ================================================================= *)
(** ** JavaScript values used by the source *)

Module Js.

(** The characters the source and the bootstrap script need. *)
Definition space : ascii := " "%char.
Definition tab : ascii := ascii_of_nat 9.
Definition lf : ascii := ascii_of_nat 10.
Definition dquote : ascii := ascii_of_nat 34.

Definition nl : string := String lf EmptyString.
Definition dq : string := String dquote EmptyString.

(** Truthiness of a string: every string but the empty one. *)
Definition truthy (s : string) : bool :=
  match s with EmptyString => false | String _ _ => true end.

(** Truthiness of an optional string property ([undefined] is falsy). *)
Definition truthy_opt (o : option string) : bool :=
  match o with Some s => truthy s | None => false end.

(** Truthiness of an optional object property: every object is truthy. *)
Definition defined {A : Type} (o : option A) : bool :=
  match o with Some _ => true | None => false end.

(** Truthiness of an optional boolean. *)
Definition truthy_bool (o : option bool) : bool :=
  match o with Some b => b | None => false end.

(** [a ?? b] *)
Definition nullish {A : Type} (a : option A) (b : A) : A :=
  match a with Some x => x | None => b end.

(** [s.split(sep)] for a one-character separator, generalised to a
    class of separator characters: every separator character ends a
    token, so [n] separators give [n + 1] tokens, empty ones included. *)
Fixpoint split_on (is_sep : ascii -> bool) (s : string) : list string :=
  match s with
  | EmptyString => [EmptyString]
  | String c r =>
      if is_sep c then EmptyString :: split_on is_sep r
      else match split_on is_sep r with
           | [] => [String c EmptyString]
           | t :: ts => String c t :: ts
           end
  end.

(** [s.split(" ")] *)
Definition split_space (s : string) : list string :=
  split_on (Ascii.eqb space) s.

(** Whether a character of the class occurs in the string. *)
Fixpoint has_char (f : ascii -> bool) (s : string) : bool :=
  match s with
  | EmptyString => false
  | String c r => (f c || has_char f r)%bool
  end.

(** [parts.join(sep)] *)
Definition join (sep : string) (parts : list string) : string :=
  String.concat sep parts.

(** The characters of the regular-expression class [\s] below U+0080. *)
Definition is_whitespace (c : ascii) : bool :=
  let n := nat_of_ascii c in
  (Nat.eqb n 32 || (Nat.leb 9 n && Nat.leb n 13))%bool.

(** A dictionary object: its own enumerable properties, in the order
    [Object.keys] lists them.  Iterating the keys and reading
    [o[key]] visits these entries in order. *)
Definition Dict (V : Type) : Type := list (string * V).

(** [d[k]] *)
Fixpoint lookup {V : Type} (k : string) (d : Dict V) : option V :=
  match d with
  | [] => None
  | (k', v) :: r => if String.eqb k k' then Some v else lookup k r
  end.

(** [k in d] *)
Definition has_key {V : Type} (d : Dict V) (k : string) : bool :=
  defined (lookup k d).

(** [{...a, ...b}]: the keys of [a] in their order, with the value of
    [b] where [b] has the key, then the keys only [b] has.  (This is
    the order of the properties for keys that are not integers, which
    is what tag names are; an object lists integer keys first.) *)
Definition spread {V : Type} (a b : Dict V) : Dict V :=
  (map (fun kv => (fst kv, nullish (lookup (fst kv) b) (snd kv))) a
   ++ filter (fun kv => negb (has_key a (fst kv))) b)%list.

(** *** Numbers

    A JavaScript number, by the way it prints: an integer, a value
    with a fractional part (printed [whole.000ddd]), [NaN] or an
    infinity.  Numbers large or small enough to print in exponent
    notation are left out. *)
Inductive Number : Type :=
| Int (z : Z)
| Frac (negative : bool) (whole : N) (zeros : nat) (digits : positive)
| NaN
| Infinity (negative : bool).

(** A number is falsy when it is [0] or [NaN]. *)
Definition truthy_num (n : Number) : bool :=
  match n with
  | Int z => negb (Z.eqb z 0)
  | Frac _ _ _ _ => true
  | NaN => false
  | Infinity _ => true
  end.

Definition truthy_num_opt (o : option Number) : bool :=
  match o with Some n => truthy_num n | None => false end.

Definition string_of_N (n : N) : string :=
  NilEmpty.string_of_uint (N.to_uint n).

Fixpoint repeat0 (k : nat) : string :=
  match k with O => EmptyString | S k' => String "0"%char (repeat0 k') end.

Definition sign (negative : bool) : string :=
  if negative then "-" else EmptyString.

(** [n.toString()] *)
Definition toString (n : Number) : string :=
  match n with
  | Int z => sign (Z.ltb z 0) ++ string_of_N (Z.abs_N z)
  | Frac neg w z d =>
      sign neg ++ string_of_N w ++ "." ++ repeat0 z ++ string_of_N (Npos d)
  | NaN => "NaN"
  | Infinity neg => sign neg ++ "Infinity"
  end.

Definition is_integer (n : Number) : bool :=
  match n with Int _ => true | _ => false end.

(** *** [new RegExp("^\d+$")]

    In a string literal the escape [\d] is the letter [d], so the
    pattern handed to [RegExp] is [^d+$]: one or more letters [d],
    anchored at both ends. *)
Fixpoint all_d (s : string) : bool :=
  match s with
  | EmptyString => true
  | String c r => (Ascii.eqb c "d"%char && all_d r)%bool
  end.

Definition numeric_test (s : string) : bool :=
  (truthy s && all_d s)%bool.

End Js.

(* ================================================================= *)
(** ** The option records *)

Inductive TaintEffect : Type := NoSchedule | NoExecute | PreferNoSchedule.

Definition TaintEffect_text (e : TaintEffect) : string :=
  match e with
  | NoSchedule => "NoSchedule"
  | NoExecute => "NoExecute"
  | PreferNoSchedule => "PreferNoSchedule"
  end.

Record Taint : Type := { value : string; effect : TaintEffect }.

Inductive VolumeType : Type := standard | gp2 | gp3 | st1 | sc1 | io1.

Definition VolumeType_text (t : VolumeType) : string :=
  match t with
  | standard => "standard" | gp2 => "gp2" | gp3 => "gp3"
  | st1 => "st1" | sc1 => "sc1" | io1 => "io1"
  end.

Definition VolumeType_eqb (a b : VolumeType) : bool :=
  String.eqb (VolumeType_text a) (VolumeType_text b).

(** [args.nodeRootVolumeType === t] *)
Definition type_is (o : option VolumeType) (t : VolumeType) : bool :=
  match o with Some t' => VolumeType_eqb t' t | None => false end.

Definition Tags : Type := Js.Dict string.

(** Handles of resources that already exist.  A security group is a
    resource object of the program: [sg_urn] names the object (two
    handles are the same object exactly when they have the same URN),
    [sg_id] is the identifier of the group in the cloud, which two
    objects may share. *)
Record SecurityGroup : Type := { sg_id : string; sg_urn : string }.
Record SecurityGroupRule : Type := { rule_id : string }.
Record InstanceProfile : Type := { profile_arn : string }.
Record Role : Type := { role_arn : string }.

(** [NodeGroupBaseOptions], with [minRefreshPercentage] of
    [NodeGroupV2Options]. *)
Record NodeGroupOptions : Type := {
  nodeSubnetIds : option (list string);
  instanceType : option string;
  spotPrice : option string;
  nodeSecurityGroup : option SecurityGroup;
  clusterIngressRule : option SecurityGroupRule;
  extraNodeSecurityGroups : option (list SecurityGroup);
  encryptRootBockDevice : option bool;
  encryptRootBlockDevice : option bool;
  nodePublicKey : option string;
  keyName : option string;
  nodeRootVolumeSize : option Js.Number;
  nodeRootVolumeDeleteOnTermination : option bool;
  nodeRootVolumeEncrypted : option bool;
  nodeRootVolumeIops : option Js.Number;
  nodeRootVolumeThroughput : option Js.Number;
  nodeRootVolumeType : option VolumeType;
  nodeUserData : option string;
  nodeUserDataOverride : option string;
  desiredCapacity : option Js.Number;
  minSize : option Js.Number;
  maxSize : option Js.Number;
  amiType : option string;
  amiId : option string;
  gpu : option bool;
  labels : option (Js.Dict string);
  taints : option (Js.Dict Taint);
  kubeletExtraArgs : option string;
  bootstrapExtraArgs : option string;
  nodeAssociatePublicIpAddress : option bool;
  version : option string;
  instanceProfile : option InstanceProfile;
  autoScalingGroupTags : option Tags;
  cloudFormationTags : option Tags;
  minRefreshPercentage : option Js.Number
}.

(** The option set with every property [undefined]. *)
Definition noOptions : NodeGroupOptions := {|
  nodeSubnetIds := None; instanceType := None; spotPrice := None;
  nodeSecurityGroup := None; clusterIngressRule := None;
  extraNodeSecurityGroups := None; encryptRootBockDevice := None;
  encryptRootBlockDevice := None; nodePublicKey := None; keyName := None;
  nodeRootVolumeSize := None; nodeRootVolumeDeleteOnTermination := None;
  nodeRootVolumeEncrypted := None; nodeRootVolumeIops := None;
  nodeRootVolumeThroughput := None; nodeRootVolumeType := None;
  nodeUserData := None; nodeUserDataOverride := None;
  desiredCapacity := None; minSize := None; maxSize := None;
  amiType := None; amiId := None; gpu := None; labels := None;
  taints := None; kubeletExtraArgs := None; bootstrapExtraArgs := None;
  nodeAssociatePublicIpAddress := None; version := None;
  instanceProfile := None; autoScalingGroupTags := None;
  cloudFormationTags := None; minRefreshPercentage := None
|}.


(** Functional updates of one property of an option set. *)
Definition set_nodeUserDataOverride (v : option string) (args : NodeGroupOptions)
  : NodeGroupOptions := {|
  nodeSubnetIds := nodeSubnetIds args; instanceType := instanceType args;
  spotPrice := spotPrice args; nodeSecurityGroup := nodeSecurityGroup args;
  clusterIngressRule := clusterIngressRule args;
  extraNodeSecurityGroups := extraNodeSecurityGroups args;
  encryptRootBockDevice := encryptRootBockDevice args;
  encryptRootBlockDevice := encryptRootBlockDevice args;
  nodePublicKey := nodePublicKey args; keyName := keyName args;
  nodeRootVolumeSize := nodeRootVolumeSize args;
  nodeRootVolumeDeleteOnTermination := nodeRootVolumeDeleteOnTermination args;
  nodeRootVolumeEncrypted := nodeRootVolumeEncrypted args;
  nodeRootVolumeIops := nodeRootVolumeIops args;
  nodeRootVolumeThroughput := nodeRootVolumeThroughput args;
  nodeRootVolumeType := nodeRootVolumeType args;
  nodeUserData := nodeUserData args; nodeUserDataOverride := v;
  desiredCapacity := desiredCapacity args; minSize := minSize args;
  maxSize := maxSize args; amiType := amiType args; amiId := amiId args;
  gpu := gpu args; labels := labels args; taints := taints args;
  kubeletExtraArgs := kubeletExtraArgs args;
  bootstrapExtraArgs := bootstrapExtraArgs args;
  nodeAssociatePublicIpAddress := nodeAssociatePublicIpAddress args;
  version := version args; instanceProfile := instanceProfile args;
  autoScalingGroupTags := autoScalingGroupTags args;
  cloudFormationTags := cloudFormationTags args;
  minRefreshPercentage := minRefreshPercentage args
|}.

Definition set_labels (v : option (Js.Dict string)) (args : NodeGroupOptions)
  : NodeGroupOptions := {|
  nodeSubnetIds := nodeSubnetIds args; instanceType := instanceType args;
  spotPrice := spotPrice args; nodeSecurityGroup := nodeSecurityGroup args;
  clusterIngressRule := clusterIngressRule args;
  extraNodeSecurityGroups := extraNodeSecurityGroups args;
  encryptRootBockDevice := encryptRootBockDevice args;
  encryptRootBlockDevice := encryptRootBlockDevice args;
  nodePublicKey := nodePublicKey args; keyName := keyName args;
  nodeRootVolumeSize := nodeRootVolumeSize args;
  nodeRootVolumeDeleteOnTermination := nodeRootVolumeDeleteOnTermination args;
  nodeRootVolumeEncrypted := nodeRootVolumeEncrypted args;
  nodeRootVolumeIops := nodeRootVolumeIops args;
  nodeRootVolumeThroughput := nodeRootVolumeThroughput args;
  nodeRootVolumeType := nodeRootVolumeType args;
  nodeUserData := nodeUserData args;
  nodeUserDataOverride := nodeUserDataOverride args;
  desiredCapacity := desiredCapacity args; minSize := minSize args;
  maxSize := maxSize args; amiType := amiType args; amiId := amiId args;
  gpu := gpu args; labels := v; taints := taints args;
  kubeletExtraArgs := kubeletExtraArgs args;
  bootstrapExtraArgs := bootstrapExtraArgs args;
  nodeAssociatePublicIpAddress := nodeAssociatePublicIpAddress args;
  version := version args; instanceProfile := instanceProfile args;
  autoScalingGroupTags := autoScalingGroupTags args;
  cloudFormationTags := cloudFormationTags args;
  minRefreshPercentage := minRefreshPercentage args
|}.

Definition set_spotPrice (v : option string) (args : NodeGroupOptions)
  : NodeGroupOptions := {|
  nodeSubnetIds := nodeSubnetIds args; instanceType := instanceType args;
  spotPrice := v; nodeSecurityGroup := nodeSecurityGroup args;
  clusterIngressRule := clusterIngressRule args;
  extraNodeSecurityGroups := extraNodeSecurityGroups args;
  encryptRootBockDevice := encryptRootBockDevice args;
  encryptRootBlockDevice := encryptRootBlockDevice args;
  nodePublicKey := nodePublicKey args; keyName := keyName args;
  nodeRootVolumeSize := nodeRootVolumeSize args;
  nodeRootVolumeDeleteOnTermination := nodeRootVolumeDeleteOnTermination args;
  nodeRootVolumeEncrypted := nodeRootVolumeEncrypted args;
  nodeRootVolumeIops := nodeRootVolumeIops args;
  nodeRootVolumeThroughput := nodeRootVolumeThroughput args;
  nodeRootVolumeType := nodeRootVolumeType args;
  nodeUserData := nodeUserData args;
  nodeUserDataOverride := nodeUserDataOverride args;
  desiredCapacity := desiredCapacity args; minSize := minSize args;
  maxSize := maxSize args; amiType := amiType args; amiId := amiId args;
  gpu := gpu args; labels := labels args; taints := taints args;
  kubeletExtraArgs := kubeletExtraArgs args;
  bootstrapExtraArgs := bootstrapExtraArgs args;
  nodeAssociatePublicIpAddress := nodeAssociatePublicIpAddress args;
  version := version args; instanceProfile := instanceProfile args;
  autoScalingGroupTags := autoScalingGroupTags args;
  cloudFormationTags := cloudFormationTags args;
  minRefreshPercentage := minRefreshPercentage args
|}.

Definition set_nodePublicKey (v : option string) (args : NodeGroupOptions)
  : NodeGroupOptions := {|
  nodeSubnetIds := nodeSubnetIds args; instanceType := instanceType args;
  spotPrice := spotPrice args; nodeSecurityGroup := nodeSecurityGroup args;
  clusterIngressRule := clusterIngressRule args;
  extraNodeSecurityGroups := extraNodeSecurityGroups args;
  encryptRootBockDevice := encryptRootBockDevice args;
  encryptRootBlockDevice := encryptRootBlockDevice args; nodePublicKey := v;
  keyName := keyName args; nodeRootVolumeSize := nodeRootVolumeSize args;
  nodeRootVolumeDeleteOnTermination := nodeRootVolumeDeleteOnTermination args;
  nodeRootVolumeEncrypted := nodeRootVolumeEncrypted args;
  nodeRootVolumeIops := nodeRootVolumeIops args;
  nodeRootVolumeThroughput := nodeRootVolumeThroughput args;
  nodeRootVolumeType := nodeRootVolumeType args;
  nodeUserData := nodeUserData args;
  nodeUserDataOverride := nodeUserDataOverride args;
  desiredCapacity := desiredCapacity args; minSize := minSize args;
  maxSize := maxSize args; amiType := amiType args; amiId := amiId args;
  gpu := gpu args; labels := labels args; taints := taints args;
  kubeletExtraArgs := kubeletExtraArgs args;
  bootstrapExtraArgs := bootstrapExtraArgs args;
  nodeAssociatePublicIpAddress := nodeAssociatePublicIpAddress args;
  version := version args; instanceProfile := instanceProfile args;
  autoScalingGroupTags := autoScalingGroupTags args;
  cloudFormationTags := cloudFormationTags args;
  minRefreshPercentage := minRefreshPercentage args
|}.

Definition set_nodeRootVolumeIops (v : option Js.Number) (args : NodeGroupOptions)
  : NodeGroupOptions := {|
  nodeSubnetIds := nodeSubnetIds args; instanceType := instanceType args;
  spotPrice := spotPrice args; nodeSecurityGroup := nodeSecurityGroup args;
  clusterIngressRule := clusterIngressRule args;
  extraNodeSecurityGroups := extraNodeSecurityGroups args;
  encryptRootBockDevice := encryptRootBockDevice args;
  encryptRootBlockDevice := encryptRootBlockDevice args;
  nodePublicKey := nodePublicKey args; keyName := keyName args;
  nodeRootVolumeSize := nodeRootVolumeSize args;
  nodeRootVolumeDeleteOnTermination := nodeRootVolumeDeleteOnTermination args;
  nodeRootVolumeEncrypted := nodeRootVolumeEncrypted args;
  nodeRootVolumeIops := v;
  nodeRootVolumeThroughput := nodeRootVolumeThroughput args;
  nodeRootVolumeType := nodeRootVolumeType args;
  nodeUserData := nodeUserData args;
  nodeUserDataOverride := nodeUserDataOverride args;
  desiredCapacity := desiredCapacity args; minSize := minSize args;
  maxSize := maxSize args; amiType := amiType args; amiId := amiId args;
  gpu := gpu args; labels := labels args; taints := taints args;
  kubeletExtraArgs := kubeletExtraArgs args;
  bootstrapExtraArgs := bootstrapExtraArgs args;
  nodeAssociatePublicIpAddress := nodeAssociatePublicIpAddress args;
  version := version args; instanceProfile := instanceProfile args;
  autoScalingGroupTags := autoScalingGroupTags args;
  cloudFormationTags := cloudFormationTags args;
  minRefreshPercentage := minRefreshPercentage args
|}.

Definition set_nodeRootVolumeType (v : option VolumeType) (args : NodeGroupOptions)
  : NodeGroupOptions := {|
  nodeSubnetIds := nodeSubnetIds args; instanceType := instanceType args;
  spotPrice := spotPrice args; nodeSecurityGroup := nodeSecurityGroup args;
  clusterIngressRule := clusterIngressRule args;
  extraNodeSecurityGroups := extraNodeSecurityGroups args;
  encryptRootBockDevice := encryptRootBockDevice args;
  encryptRootBlockDevice := encryptRootBlockDevice args;
  nodePublicKey := nodePublicKey args; keyName := keyName args;
  nodeRootVolumeSize := nodeRootVolumeSize args;
  nodeRootVolumeDeleteOnTermination := nodeRootVolumeDeleteOnTermination args;
  nodeRootVolumeEncrypted := nodeRootVolumeEncrypted args;
  nodeRootVolumeIops := nodeRootVolumeIops args;
  nodeRootVolumeThroughput := nodeRootVolumeThroughput args;
  nodeRootVolumeType := v; nodeUserData := nodeUserData args;
  nodeUserDataOverride := nodeUserDataOverride args;
  desiredCapacity := desiredCapacity args; minSize := minSize args;
  maxSize := maxSize args; amiType := amiType args; amiId := amiId args;
  gpu := gpu args; labels := labels args; taints := taints args;
  kubeletExtraArgs := kubeletExtraArgs args;
  bootstrapExtraArgs := bootstrapExtraArgs args;
  nodeAssociatePublicIpAddress := nodeAssociatePublicIpAddress args;
  version := version args; instanceProfile := instanceProfile args;
  autoScalingGroupTags := autoScalingGroupTags args;
  cloudFormationTags := cloudFormationTags args;
  minRefreshPercentage := minRefreshPercentage args
|}.

Definition set_amiType (v : option string) (args : NodeGroupOptions)
  : NodeGroupOptions := {|
  nodeSubnetIds := nodeSubnetIds args; instanceType := instanceType args;
  spotPrice := spotPrice args; nodeSecurityGroup := nodeSecurityGroup args;
  clusterIngressRule := clusterIngressRule args;
  extraNodeSecurityGroups := extraNodeSecurityGroups args;
  encryptRootBockDevice := encryptRootBockDevice args;
  encryptRootBlockDevice := encryptRootBlockDevice args;
  nodePublicKey := nodePublicKey args; keyName := keyName args;
  nodeRootVolumeSize := nodeRootVolumeSize args;
  nodeRootVolumeDeleteOnTermination := nodeRootVolumeDeleteOnTermination args;
  nodeRootVolumeEncrypted := nodeRootVolumeEncrypted args;
  nodeRootVolumeIops := nodeRootVolumeIops args;
  nodeRootVolumeThroughput := nodeRootVolumeThroughput args;
  nodeRootVolumeType := nodeRootVolumeType args;
  nodeUserData := nodeUserData args;
  nodeUserDataOverride := nodeUserDataOverride args;
  desiredCapacity := desiredCapacity args; minSize := minSize args;
  maxSize := maxSize args; amiType := v; amiId := amiId args;
  gpu := gpu args; labels := labels args; taints := taints args;
  kubeletExtraArgs := kubeletExtraArgs args;
  bootstrapExtraArgs := bootstrapExtraArgs args;
  nodeAssociatePublicIpAddress := nodeAssociatePublicIpAddress args;
  version := version args; instanceProfile := instanceProfile args;
  autoScalingGroupTags := autoScalingGroupTags args;
  cloudFormationTags := cloudFormationTags args;
  minRefreshPercentage := minRefreshPercentage args
|}.

(* ================================================================= *)
(** ** Bootstrap payload: the kubelet arguments *)

Module Bootstrap.

(** [key + "=" + args.labels[key]] for every key *)
Definition label_parts (l : Js.Dict string) : list string :=
  map (fun kv => fst kv ++ "=" ++ snd kv) l.

(** [key + "=" + taint.value + ":" + taint.effect] for every key *)
Definition taint_parts (t : Js.Dict Taint) : list string :=
  map (fun kv => fst kv ++ "=" ++ value (snd kv) ++ ":"
                 ++ TaintEffect_text (effect (snd kv))) t.

(** [parts.length > 0] guards the push. *)
Definition push_parts (flag : string) (parts : list string)
           (acc : list string) : list string :=
  if Nat.ltb 0 (List.length parts)
  then (acc ++ [(flag ++ Js.join "," parts)%string])%list
  else acc.

(** The token list [kubeletExtraArgs], parameterised by the splitter
    of the explicit argument string. *)
Definition kubelet_tokens_with (split : string -> list string)
           (kea : option string) (lbls : option (Js.Dict string))
           (tnts : option (Js.Dict Taint)) : list string :=
  let toks :=
    match kea with
    | Some s => if Js.truthy s then split s else []
    | None => []
    end in
  let toks :=
    match lbls with
    | Some l => push_parts "--node-labels=" (label_parts l) toks
    | None => toks
    end in
  match tnts with
  | Some t => push_parts "--register-with-taints=" (taint_parts t) toks
  | None => toks
  end.

(** The source: [args.kubeletExtraArgs.split(" ")]. *)
Definition kubelet_tokens := kubelet_tokens_with Js.split_space.

(** The text appended to [bootstrapExtraArgs] for a token list. *)
Definition kubelet_flag (toks : list string) : string :=
  if Nat.eqb (List.length toks) 1 then
    " --kubelet-extra-args " ++ nth 0 toks EmptyString
  else if Nat.ltb 1 (List.length toks) then
    " --kubelet-extra-args '" ++ Js.join " " toks ++ "'"
  else EmptyString.

Definition bootstrapExtraArgs_of (args : NodeGroupOptions) : string :=
  (if Js.truthy_opt (bootstrapExtraArgs args)
   then " " ++ Js.nullish (bootstrapExtraArgs args) EmptyString
   else EmptyString)
  ++ kubelet_flag (kubelet_tokens (kubeletExtraArgs args) (labels args)
                                  (taints args)).

(** The token list as the specification words it: the explicit
    argument string split on whitespace. *)
Definition spec_kubelet_tokens :=
  kubelet_tokens_with (Js.split_on Js.is_whitespace).

End Bootstrap.

(* ================================================================= *)
(** ** Errors, deferred values and the registration trace *)

(** One constructor per [throw] of the source, one for a provider
    lookup that fails, and the two errors the constructor of a
    [Netmask] throws. *)
Inductive Error : Type :=
| InstanceProfileRequired
| NodeSecurityGroupTagsExclusive
| PublicKeyKeyNameExclusive
| AmiIdGpuExclusive
| UserDataOverrideExclusive
| ClusterIngressRuleRequired (name : string)
| IopsOnNonIo1
| IopsNotInteger
| ThroughputOnNonGp3
| ThroughputNotInteger
| StackOutputMissing
| RoleRequired
| RoleExclusive
| RoleUndefined
| RoleNotInInstanceRoles
| LookupFailed (what : string)
| InvalidNetAddress (net : string)
| InvalidMask (mask : Z).

Definition message (e : Error) : string :=
  match e with
  | InstanceProfileRequired => "an instanceProfile is required"
  | NodeSecurityGroupTagsExclusive =>
      "The NodeGroup's nodeSecurityGroup and the cluster option nodeSecurityGroupTags are mutually exclusive. Choose a single approach"
  | PublicKeyKeyNameExclusive =>
      "nodePublicKey and keyName are mutually exclusive. Choose a single approach"
  | AmiIdGpuExclusive => "amiId and gpu are mutually exclusive."
  | UserDataOverrideExclusive =>
      "nodeUserDataOverride and any combination of {nodeUserData, labels, taints, kubeletExtraArgs, or bootstrapExtraArgs} is mutually exclusive."
  | ClusterIngressRuleRequired name =>
      "invalid args for node group " ++ name
      ++ ", clusterIngressRule is required when nodeSecurityGroup is manually specified"
  | IopsOnNonIo1 =>
      "Cannot create a cluster node root volume of non-io1 type with provisioned IOPS (nodeRootVolumeIops)."
  | IopsNotInteger =>
      "Cannot create a cluster node root volume of io1 type without provisioned IOPS (nodeRootVolumeIops) as integer value."
  | ThroughputOnNonGp3 =>
      "Cannot create a cluster node root volume of non-gp3 type with provisioned throughput (nodeRootVolumeThroughput)."
  | ThroughputNotInteger =>
      "Cannot create a cluster node root volume of gp3 type without provisioned throughput (nodeRootVolumeThroughput) as integer value."
  | StackOutputMissing =>
      "CloudFormation stack is not ready. Stack output key 'NodeGroup' does not exist."
  | RoleRequired =>
      "An IAM role, or role ARN must be provided to create a managed node group"
  | RoleExclusive =>
      "nodeRole and nodeRoleArn are mutually exclusive to create a managed node group"
  | RoleUndefined => "The managed node group role provided is undefined"
  | RoleNotInInstanceRoles =>
      "A managed node group cannot be created without first setting its role in the cluster's instanceRoles"
  | LookupFailed what => what
  | InvalidNetAddress net => "Invalid net address: " ++ net
  | InvalidMask mask => "Invalid mask for ip4: " ++ Js.toString (Js.Int mask)
  end.

(** A synchronous computation: a value, or the error thrown. *)
Definition Result (A : Type) : Type := (Error + A)%type.

(** A [pulumi.Output]: the value it resolves to, or the error it is
    rejected with. *)
Definition Output (A : Type) : Type := (Error + A)%type.

Definition Output_map {A B : Type} (f : A -> B) (o : Output A) : Output B :=
  match o with inl e => inl e | inr a => inr (f a) end.

(** [pulumi.Input<string>]: a plain string, or the output of a lookup
    (kept with the name that was looked up). *)
Inductive ImageId : Type :=
| PlainId (id : string)
| ParameterLookup (parameterName : string) (value : Output string).

(* ================================================================= *)
(** ** Subnet classification *)

Module Netmask.

(** Modelled from the spec: the [netmask] package is a dependency that
    is not part of the sources.  A block is the pair of a 32-bit
    address and a prefix length; [contains] of a block asks that its
    first and its last address both match the network under the
    mask, which is what "the destination CIDR is inside the range"
    comes to. *)
Record Cidr : Type := { ip : Z; bits : Z }.

Definition wf (c : Cidr) : Prop :=
  (0 <= ip c < 2 ^ 32 /\ 0 <= bits c <= 32)%Z.

(** [(0xffffffff << (32 - bitmask)) >>> 0], and [0] for a [/0]. *)
Definition maskLong (c : Cidr) : Z :=
  if (0 <? bits c)%Z
  then Z.land (Z.shiftl 4294967295 (32 - bits c)) 4294967295
  else 0%Z.

(** [(ip2long(net) & maskLong) >>> 0] *)
Definition netLong (c : Cidr) : Z := Z.land (ip c) (maskLong c).

(** [Math.pow(2, 32 - bitmask)] *)
Definition size (c : Cidr) : Z := (2 ^ (32 - bits c))%Z.

(** The address of [broadcast || last]. *)
Definition lastLong (c : Cidr) : Z := (netLong c + size c - 1)%Z.

(** [contains] of a single address. *)
Definition contains_ip (net : Cidr) (a : Z) : bool :=
  Z.eqb (Z.land a (maskLong net)) (Z.land (netLong net) (maskLong net)).

(** [contains] of a block. *)
Definition contains (net c : Cidr) : bool :=
  (contains_ip net (netLong c) && contains_ip net (lastLong c))%bool.

(** [a.b.c.d/n] *)
Definition cidr (a b c d n : Z) : Cidr :=
  {| ip := ((a * 256 + b) * 256 + c) * 256 + d; bits := n |}%Z.

(** The addresses of a block, as an interval, and inclusion of
    blocks: every address of [c] is an address of [net]. *)
Definition first_address (c : Cidr) : Z :=
  (2 ^ (32 - bits c) * (ip c / 2 ^ (32 - bits c)))%Z.

Definition last_address (c : Cidr) : Z :=
  (first_address c + 2 ^ (32 - bits c) - 1)%Z.

Definition inside (c net : Cidr) : Prop :=
  forall a : Z,
    (first_address c <= a <= last_address c)%Z ->
    (first_address net <= a <= last_address net)%Z.

(** Modelled from the spec: the text of a destination as the
    constructor of the package reads it.  It is an IPv4 block, or a
    text that is none: the [cidrBlock] of a route to an IPv6 block is
    the empty string. *)
Inductive Destination : Type :=
| Block (c : Cidr)
| Unparsable (text : string).

(** [new Netmask(text)]: it throws on a text that is no IPv4 address,
    and on a prefix longer than 32 bits. *)
Definition make (d : Destination) : Result Cidr :=
  match d with
  | Unparsable text => inl (InvalidNetAddress text)
  | Block c =>
      if (bits c <=? 32)%Z then inr c else inl (InvalidMask (bits c))
  end.

(** The destinations the constructor takes: the blocks of a 32-bit
    address with a prefix of at most 32 bits. *)
Definition valid (d : Destination) : Prop :=
  exists c, d = Block c /\ wf c.

End Netmask.

Definition privateA : Netmask.Cidr := Netmask.cidr 10 0 0 0 8.
Definition privateB : Netmask.Cidr := Netmask.cidr 172 16 0 0 12.
Definition privateC : Netmask.Cidr := Netmask.cidr 192 168 0 0 16.

(** [contains] is given the text of the block and builds a [Netmask]
    of it, which throws when the text is no IPv4 block. *)
Definition isPrivateCIDRBlock (cidrBlock : Netmask.Destination) : Result bool :=
  match Netmask.make cidrBlock with
  | inl e => inl e
  | inr c =>
      inr (Netmask.contains privateA c
           || Netmask.contains privateB c
           || Netmask.contains privateC c)%bool
  end.

Record Route : Type := { gatewayId : string; cidrBlock : Netmask.Destination }.
Record RouteTable : Type := { routes : list Route }.

(** The provider: the lookups ([aws.ec2.getRouteTable] by subnet and by
    route-table id, [getSubnet], [getRouteTables] of the main
    association, [aws.ssm.getParameter], [aws.ec2.getAmi], [getRegion]),
    the outputs a finished stack declares, the suffixed name
    [randomSuffix] produces and the identifier a registered resource
    receives. *)
Record Aws : Type := {
  getRouteTable_bySubnet : string -> Result RouteTable;
  getSubnet_vpcId : string -> Result string;
  getRouteTables_main : string -> Result (list string);
  getRouteTable_byId : option string -> Result RouteTable;
  ssm_getParameter : string -> Output string;
  getAmi_deviceName : ImageId -> Output string;
  region_name : string;
  stack_outputs : string -> Js.Dict string;
  randomSuffix : string -> string -> string;
  physical_id : string -> string
}.

(** The explicit route table of the subnet, and in the [catch] branch
    the main route table of the subnet's VPC. *)
Definition getRouteTableAsync (aws : Aws) (subnetId : string)
  : Result RouteTable :=
  match getRouteTable_bySubnet aws subnetId with
  | inr rt => inr rt
  | inl _ =>
      match getSubnet_vpcId aws subnetId with
      | inl e => inl e
      | inr vpc =>
          match getRouteTables_main aws vpc with
          | inl e => inl e
          | inr ids => getRouteTable_byId aws (nth_error ids 0)
          end
      end
  end.

(** [routes.find(r => !!r.gatewayId && !isPrivateCIDRBlock(r.cidrBlock))]:
    the callback is run on the routes in their order until it answers
    true; [&&] does not look at the destination of a route without a
    gateway id, and an error the callback throws ends the search. *)
Fixpoint find_route (rs : list Route) : Result (option Route) :=
  match rs with
  | [] => inr None
  | r :: rest =>
      if Js.truthy (gatewayId r)
      then match isPrivateCIDRBlock (cidrBlock r) with
           | inl e => inl e
           | inr true => find_route rest
           | inr false => inr (Some r)
           end
      else find_route rest
  end.

(** [routes.find(...) !== undefined] *)
Definition hasInternetGatewayRoute (rt : RouteTable) : Result bool :=
  match find_route (routes rt) with
  | inl e => inl e
  | inr (Some _) => inr true
  | inr None => inr false
  end.

(** The answer of the test on a route table it does not throw on. *)
Definition publicTable (rt : RouteTable) : bool :=
  match hasInternetGatewayRoute rt with
  | inr b => b
  | inl _ => false
  end.

(** A destination that is an IPv4 block inside none of the three
    private ranges. *)
Definition outside_private (d : Netmask.Destination) : Prop :=
  exists c, d = Netmask.Block c
            /\ ~ Netmask.inside c privateA
            /\ ~ Netmask.inside c privateB
            /\ ~ Netmask.inside c privateC.




(** The same with any gateway for target: an internet gateway, a
    virtual private gateway and the [local] target all fill in
    [gatewayId]. *)
Definition gateway_route (r : Route) : Prop :=
  gatewayId r <> EmptyString /\ outside_private (cidrBlock r).

Definition has_gateway_route (rt : RouteTable) : Prop :=
  exists r, In r (routes rt) /\ gateway_route r.

(** A route table whose gateway routes all have a destination the
    constructor of a [Netmask] takes. *)
Definition readable (rt : RouteTable) : Prop :=
  forall r, In r (routes rt) -> gatewayId r <> EmptyString ->
            Netmask.valid (cidrBlock r).


(** The loop of [computeWorkerSubnets], with its two accumulators. *)
Fixpoint classify (aws : Aws) (subnetIds publicSubnets privateSubnets : list string)
  : Result (list string * list string) :=
  match subnetIds with
  | [] => inr (publicSubnets, privateSubnets)
  | subnetId :: rest =>
      match getRouteTableAsync aws subnetId with
      | inl e => inl e
      | inr routeTable =>
          match hasInternetGatewayRoute routeTable with
          | inl e => inl e
          | inr true =>
              classify aws rest (publicSubnets ++ [subnetId]) privateSubnets
          | inr false =>
              classify aws rest publicSubnets (privateSubnets ++ [subnetId])
          end
      end
  end.

Definition computeWorkerSubnets (aws : Aws) (subnetIds : list string)
  : Result (list string) :=
  match classify aws subnetIds [] [] with
  | inl e => inl e
  | inr (publicSubnets, privateSubnets) =>
      inr (if Nat.eqb (List.length privateSubnets) 0
           then publicSubnets else privateSubnets)
  end.

(* ================================================================= *)
(** ** The cluster descriptor and the resources a provisioner registers *)

Record Cluster : Type := {
  cluster_name : string;
  cluster_endpoint : string;
  certificateAuthority_data : string;
  cluster_version : string
}.

Record ClusterNodeGroupOptions : Type := {
  cluster_instanceProfile : option InstanceProfile;
  cluster_nodeSecurityGroup : option SecurityGroup
}.

(** [CoreData], resolved.  [vpcCni] and [eksNodeAccess] are the names of
    the resources a fleet has to wait for. *)
Record CoreData : Type := {
  cluster : Cluster;
  vpcId : string;
  subnetIds : list string;
  privateSubnetIds : option (list string);
  publicSubnetIds : option (list string);
  clusterSecurityGroup : SecurityGroup;
  nodeGroupOptions : ClusterNodeGroupOptions;
  nodeSecurityGroupTags : option Tags;
  tags : option Tags;
  vpcCni : option string;
  eksNodeAccess : option string;
  instanceRoles : list Role
}.

Record RootBlockDevice : Type := {
  rbd_encrypted : bool;
  rbd_volumeSize : Js.Number;
  rbd_volumeType : VolumeType;
  rbd_iops : option Js.Number;
  rbd_throughput : option Js.Number;
  rbd_deleteOnTermination : bool
}.

Record LaunchConfigurationArgs : Type := {
  lc_associatePublicIpAddress : bool;
  lc_imageId : ImageId;
  lc_instanceType : string;
  lc_iamInstanceProfile : Output InstanceProfile;
  lc_keyName : option string;
  lc_securityGroups : list string;
  lc_spotPrice : option string;
  lc_rootBlockDevice : RootBlockDevice;
  lc_userData : string
}.

(** The body of the stack template, by its fields. *)
Record CfnTemplate : Type := {
  DesiredCapacity : Js.Number;
  LaunchConfigurationName : string;
  MinSize : Js.Number;
  MaxSize : Js.Number;
  VPCZoneIdentifier : Output (list string);
  Tags_of_group : Tags;
  MinInstancesInService : Z;
  MaxBatchSize : Z
}.

Record StackArgs : Type := {
  stack_name : string;
  templateBody : CfnTemplate;
  stack_tags : Tags;
  stack_dependsOn : list string
}.

Record Ebs : Type := {
  ebs_encrypted : string;
  ebs_volumeSize : Js.Number;
  ebs_volumeType : VolumeType;
  ebs_iops : option Js.Number;
  ebs_throughput : option Js.Number;
  ebs_deleteOnTermination : string
}.

Record LaunchTemplateArgs : Type := {
  lt_imageId : ImageId;
  lt_instanceType : string;
  lt_iamInstanceProfile_arn : Output string;
  lt_keyName : option string;
  lt_spot_maxPrice : option string;
  lt_deviceName : Output string;
  lt_ebs : Ebs;
  lt_associatePublicIpAddress : string;
  lt_securityGroups : list string;
  lt_userData : string
}.

Record GroupTag : Type := {
  tag_key : string; tag_value : string; propagateAtLaunch : bool
}.

Record AutoscalingGroupArgs : Type := {
  asg_name : string;
  asg_minSize : Js.Number;
  asg_maxSize : Js.Number;
  asg_desiredCapacity : Js.Number;
  asg_launchTemplate : string;
  asg_vpcZoneIdentifiers : Output (list string);
  asg_minHealthyPercentage : Js.Number;
  asg_tags : list GroupTag;
  asg_dependsOn : list string
}.

Record ScalingConfig : Type := {
  desiredSize : option Js.Number;
  sc_minSize : option Js.Number;
  sc_maxSize : option Js.Number
}.

(** [clusterName] is declared a [pulumi.Output<string>]: when it is
    given it is an object, whatever the string it resolves to. *)
Record ManagedNodeGroupOptions : Type := {
  nodeRole : option Role;
  nodeRoleArn : option string;
  mng_subnetIds : option (list string);
  scalingConfig : option ScalingConfig;
  clusterName : option string
}.

Record EksNodeGroupArgs : Type := {
  ng_clusterName : string;
  ng_nodeRoleArn : string;
  ng_desiredSize : Js.Number;
  ng_minSize : Js.Number;
  ng_maxSize : Js.Number;
  ng_subnetIds : list string;
  ng_dependsOn : list string
}.

(** A resource constructor that has been called. *)
Inductive Event : Type :=
| NewSecurityGroup (name vpc : string) (t : Tags)
| NewSecurityGroupRule (name : string)
| NewKeyPair (name publicKey : string)
| NewLaunchConfiguration (name : string) (a : LaunchConfigurationArgs)
| NewStack (name : string) (a : StackArgs)
| NewLaunchTemplate (name : string) (a : LaunchTemplateArgs)
| NewAutoscalingGroup (name : string) (a : AutoscalingGroupArgs)
| NewEksNodeGroup (name : string) (a : EksNodeGroupArgs).

(** What a provisioning call leaves behind: the constructors called, in
    order, and the errors thrown inside [apply] callbacks (these reject
    an output instead of unwinding the call). *)
Record World : Type := { registered : list Event; rejected : list Error }.

Definition Prov (A : Type) : Type := World -> Result A * World.

Definition ret {A : Type} (a : A) : Prov A := fun w => (inr a, w).

Definition bind {A B : Type} (m : Prov A) (k : A -> Prov B) : Prov B :=
  fun w => match m w with
           | (inl e, w') => (inl e, w')
           | (inr a, w') => k a w'
           end.

Definition throw {A : Type} (e : Error) : Prov A := fun w => (inl e, w).

Definition register (ev : Event) : Prov unit :=
  fun w => (inr tt, {| registered := registered w ++ [ev];
                       rejected := rejected w |}).

(** [o.apply(cb)] with [o] resolved: the output of the callback, noted
    as rejected when the callback throws. *)
Definition settle {A : Type} (o : Output A) : Prov (Output A) :=
  fun w => (inr o,
            match o with
            | inl e => {| registered := registered w;
                          rejected := rejected w ++ [e] |}
            | inr _ => w
            end).

(** A block that only throws or falls through leaves the world alone. *)
Definition lift {A : Type} (r : Result A) : Prov A := fun w => (r, w).

(** [if (cond) throw new Error(...)] *)
Definition check (cond : bool) (e : Error) : Result unit :=
  if cond then inl e else inr tt.

(** Two statements in sequence. *)
Definition andThen (a b : Result unit) : Result unit :=
  match a with inl e => inl e | inr _ => b end.

Definition throw_if (cond : bool) (e : Error) : Prov unit :=
  lift (check cond e).

Notation "x <- m ;; k" := (bind m (fun x => k))
  (at level 61, m at next level, right associativity).
Notation "m ;;; k" := (bind m (fun _ => k))
  (at level 61, right associativity).

Definition start : World := {| registered := []; rejected := [] |}.

(** The call fails when it throws or when one of its outputs is
    rejected. *)
Definition failed {A : Type} (r : Result A * World) : bool :=
  match r with
  | (inl _, _) => true
  | (inr _, w) => negb (Nat.eqb (List.length (rejected w)) 0)
  end.

(* ================================================================= *)
(** ** Blocks the two self-managed provisioners have in common

    [createNodeGroupInternal] and [createNodeGroupV2Internal] contain
    the same text for the checks, the security group, the key pair, the
    kubelet arguments, the AMI, the root volume and the subnets; each
    block is a definition here and both functions call it. *)

(** The first [core.apply]: the instance profile of the options, else
    the one of the cluster. *)
Definition resolveInstanceProfile (args : NodeGroupOptions) (c : CoreData)
  : Output InstanceProfile :=
  if (negb (Js.defined (instanceProfile args))
      && negb (Js.defined (cluster_instanceProfile (nodeGroupOptions c))))%bool
  then inl InstanceProfileRequired
  else match instanceProfile args with
       | Some p => inr p
       | None => match cluster_instanceProfile (nodeGroupOptions c) with
                 | Some p => inr p
                 | None => inl InstanceProfileRequired
                 end
       end.

(** The second [core.apply].  [!==] is applied to the [id] outputs of
    the two groups, which are objects: each resource object has one,
    so the comparison is that of the two resource objects, not of the
    identifiers they resolve to. *)
Definition checkNodeSecurityGroupTags (args : NodeGroupOptions) (c : CoreData)
  : Output unit :=
  match cluster_nodeSecurityGroup (nodeGroupOptions c), nodeSecurityGroup args with
  | Some csg, Some asg =>
      if (Js.defined (nodeSecurityGroupTags c)
          && negb (String.eqb (sg_urn csg) (sg_urn asg)))%bool
      then inl NodeSecurityGroupTagsExclusive
      else inr tt
  | _, _ => inr tt
  end.

(** The condition of the third [if]. *)
Definition overrideConflict (args : NodeGroupOptions) : bool :=
  (Js.truthy_opt (nodeUserDataOverride args)
   && (Js.truthy_opt (nodeUserData args)
       || Js.defined (labels args)
       || Js.defined (taints args)
       || Js.truthy_opt (kubeletExtraArgs args)
       || Js.truthy_opt (bootstrapExtraArgs args)))%bool.

(** The three [if (...) throw] that open the synchronous part. *)
Definition checkExclusive (args : NodeGroupOptions) : Result unit :=
  andThen
    (check (Js.truthy_opt (nodePublicKey args) && Js.truthy_opt (keyName args))
           PublicKeyKeyNameExclusive)
    (andThen
       (check (Js.truthy_opt (amiId args) && Js.truthy_bool (gpu args))
              AmiIdGpuExclusive)
       (check (overrideConflict args) UserDataOverrideExclusive)).

(** [cfnStackDeps] and [nodeGroupDeps] *)
Definition fleetDeps (c : CoreData) : list string :=
  ((match vpcCni c with Some r => [r] | None => [] end)
   ++ (match eksNodeAccess c with Some r => [r] | None => [] end))%list.

(** Modelled from the spec: [createNodeGroupSecurityGroup] lives in
    [securitygroup.ts], which is not part of the sources.  It registers
    a worker security group in the cluster's VPC with the given tags
    and the ingress rule that lets the control plane reach it, and
    returns both. *)
Definition createNodeGroupSecurityGroup (aws : Aws) (name vpc : string) (t : Tags)
  : Prov (SecurityGroup * SecurityGroupRule) :=
  register (NewSecurityGroup (name ++ "-nodeSecurityGroup") vpc t) ;;;
  register (NewSecurityGroupRule (name ++ "-eksClusterIngressRule")) ;;;
  ret ({| sg_id := physical_id aws (name ++ "-nodeSecurityGroup");
          sg_urn := name ++ "-nodeSecurityGroup" |},
       {| rule_id := physical_id aws (name ++ "-eksClusterIngressRule") |}).

Definition resolveSecurityGroup (aws : Aws) (name : string)
           (args : NodeGroupOptions) (c : CoreData)
  : Prov (SecurityGroup * SecurityGroupRule) :=
  match nodeSecurityGroup args with
  | Some sg =>
      match clusterIngressRule args with
      | None => throw (ClusterIngressRuleRequired name)
      | Some rule => ret (sg, rule)
      end
  | None =>
      createNodeGroupSecurityGroup aws name (vpcId c)
        (Js.spread (Js.nullish (nodeSecurityGroupTags c) [])
                   (Js.nullish (tags c) []))
  end.

Definition extraIds (args : NodeGroupOptions) : list string :=
  match extraNodeSecurityGroups args with
  | Some l => map sg_id l
  | None => []
  end.

(** The key pair, registered when a public key is given. *)
Definition resolveKeyName (aws : Aws) (name : string) (args : NodeGroupOptions)
  : Prov (option string) :=
  if Js.truthy_opt (nodePublicKey args) then
    register (NewKeyPair (name ++ "-keyPair")
                         (Js.nullish (nodePublicKey args) EmptyString)) ;;;
    ret (Some (physical_id aws (name ++ "-keyPair")))
  else ret (keyName args).

(** [args.amiType ?? args.gpu ? "amazon-linux-2-gpu" : "amazon-linux-2"]:
    [??] binds tighter than the conditional, so the condition is
    [args.amiType ?? args.gpu]. *)
Definition amiType_of (args : NodeGroupOptions) : string :=
  let cond :=
    match amiType args with
    | Some t => Js.truthy t
    | None => Js.truthy_bool (gpu args)
    end in
  if cond then "amazon-linux-2-gpu" else "amazon-linux-2".

Definition version_of (args : NodeGroupOptions) (c : CoreData) : string :=
  if Js.truthy_opt (version args)
  then Js.nullish (version args) EmptyString
  else cluster_version (cluster c).

Definition parameterName_of (args : NodeGroupOptions) (c : CoreData) : string :=
  "/aws/service/eks/optimized-ami/" ++ version_of args c ++ "/"
  ++ amiType_of args ++ "/recommended/image_id".

Definition resolveAmi (aws : Aws) (args : NodeGroupOptions) (c : CoreData)
  : ImageId :=
  if Js.truthy_opt (amiId args)
  then PlainId (Js.nullish (amiId args) EmptyString)
  else ParameterLookup (parameterName_of args c)
                       (ssm_getParameter aws (parameterName_of args c)).

(** The AMI family as the specification words it: the explicit family
    when one is given, else the GPU family when the flag is set. *)
Definition spec_amiType (args : NodeGroupOptions) : string :=
  match amiType args with
  | Some t => t
  | None => if Js.truthy_bool (gpu args)
            then "amazon-linux-2-gpu" else "amazon-linux-2"
  end.

(** The four checks on the root volume. *)
Definition validateRootVolume (args : NodeGroupOptions) : Result unit :=
  andThen
    (check (Js.truthy_num_opt (nodeRootVolumeIops args)
            && negb (type_is (nodeRootVolumeType args) io1))
           IopsOnNonIo1)
  (andThen
    (check (type_is (nodeRootVolumeType args) io1
            && Js.truthy_num_opt (nodeRootVolumeIops args)
            && negb (Js.numeric_test
                       (Js.toString (Js.nullish (nodeRootVolumeIops args) Js.NaN))))
           IopsNotInteger)
  (andThen
    (check (Js.truthy_num_opt (nodeRootVolumeThroughput args)
            && negb (type_is (nodeRootVolumeType args) gp3))
           ThroughputOnNonGp3)
    (check (type_is (nodeRootVolumeType args) gp3
            && Js.truthy_num_opt (nodeRootVolumeThroughput args)
            && negb (Js.numeric_test
                       (Js.toString (Js.nullish (nodeRootVolumeThroughput args) Js.NaN))))
           ThroughputNotInteger))).

(** The subnets of the workers: the override, else the private subnets
    of the cluster, else its public ones, else the classification of
    all its subnets. *)
Definition resolveWorkerSubnets (aws : Aws) (args : NodeGroupOptions) (c : CoreData)
  : Output (list string) :=
  match nodeSubnetIds args with
  | Some ids => inr ids
  | None =>
      match privateSubnetIds c with
      | Some ids => inr ids
      | None =>
          match publicSubnetIds c with
          | Some ids => inr ids
          | None => computeWorkerSubnets aws (subnetIds c)
          end
      end
  end.

Definition workerSubnetIds (aws : Aws) (args : NodeGroupOptions) (c : CoreData)
  : Prov (Output (list string)) :=
  match nodeSubnetIds args with
  | Some ids => ret (inr ids)
  | None => settle (resolveWorkerSubnets aws args c)
  end.

(** The heredoc that stages the custom user data. *)
Definition stageUserData (stackName customUserData : string) : string :=
  if Js.truthy customUserData then
    "cat >/opt/user-data <<" ++ stackName ++ "-user-data" ++ Js.nl
    ++ customUserData ++ Js.nl
    ++ stackName ++ "-user-data" ++ Js.nl
    ++ "chmod +x /opt/user-data" ++ Js.nl
    ++ "/opt/user-data" ++ Js.nl
  else customUserData.

Definition userDataArg (args : NodeGroupOptions) : string :=
  if Js.truthy_opt (nodeUserData args)
  then Js.nullish (nodeUserData args) EmptyString
  else EmptyString.

Definition bootstrapLine (args : NodeGroupOptions) (c : CoreData) : string :=
  "/etc/eks/bootstrap.sh --apiserver-endpoint " ++ Js.dq
  ++ cluster_endpoint (cluster c) ++ Js.dq
  ++ " --b64-cluster-ca " ++ Js.dq ++ certificateAuthority_data (cluster c)
  ++ Js.dq ++ " " ++ Js.dq ++ cluster_name (cluster c) ++ Js.dq
  ++ Bootstrap.bootstrapExtraArgs_of args.

(* ================================================================= *)
(** ** [createNodeGroupInternal]: launch configuration and stack *)

Record NodeGroupData : Type := {
  ngd_nodeSecurityGroup : SecurityGroup;
  cfnStack : string;
  autoScalingGroupName : Output string;
  ngd_extraNodeSecurityGroups : option (list SecurityGroup)
}.

(** The generated script of the legacy provisioner. *)
Definition userdata_v1 (aws : Aws) (args : NodeGroupOptions) (c : CoreData)
           (stackName : string) : string :=
  "#!/bin/bash" ++ Js.nl ++ Js.nl
  ++ bootstrapLine args c ++ Js.nl
  ++ stageUserData stackName (userDataArg args) ++ Js.nl
  ++ "/opt/aws/bin/cfn-signal --exit-code $? --stack " ++ stackName
  ++ " --resource NodeGroup --region " ++ region_name aws ++ Js.nl.

Definition rootBlockDevice_of (args : NodeGroupOptions) : RootBlockDevice := {|
  rbd_encrypted :=
    match encryptRootBlockDevice args with
    | Some b => b
    | None => match encryptRootBockDevice args with
              | Some b => b
              | None => Js.nullish (nodeRootVolumeEncrypted args) false
              end
    end;
  rbd_volumeSize := Js.nullish (nodeRootVolumeSize args) (Js.Int 20);
  rbd_volumeType := Js.nullish (nodeRootVolumeType args) gp2;
  rbd_iops := nodeRootVolumeIops args;
  rbd_throughput := nodeRootVolumeThroughput args;
  rbd_deleteOnTermination :=
    Js.nullish (nodeRootVolumeDeleteOnTermination args) true
|}.

Definition instanceType_of (args : NodeGroupOptions) : string :=
  if Js.truthy_opt (instanceType args)
  then Js.nullish (instanceType args) EmptyString
  else "t2.medium".

Definition minInstancesInService_of (args : NodeGroupOptions) : Z :=
  if Js.truthy_opt (spotPrice args) then 0%Z else 1%Z.

Definition autoScalingGroupTags_of (args : NodeGroupOptions) (c : CoreData)
  : Tags :=
  Js.spread
    [("Name", cluster_name (cluster c) ++ "-worker");
     ("kubernetes.io/cluster/" ++ cluster_name (cluster c), "owned")]
    (Js.nullish (autoScalingGroupTags args) []).

(** The last callback reads [cfnStack.outputs], here the outputs the
    provider reports for the stack: they are those of a stack that was
    created, that is, whose inputs (the launch configuration with its
    instance profile and image, and the subnets) have resolved. *)
Definition createNodeGroupInternal (aws : Aws) (name : string)
           (args : NodeGroupOptions) (core : CoreData) : Prov NodeGroupData :=
  instanceProfile <- settle (resolveInstanceProfile args core) ;;
  settle (checkNodeSecurityGroupTags args core) ;;;
  lift (checkExclusive args) ;;;
  sgs <- resolveSecurityGroup aws name args core ;;
  let nodeSecurityGroupId := sg_id (fst sgs) in
  keyName <- resolveKeyName aws name args ;;
  let cfnStackName := randomSuffix aws (name ++ "-cfnStackName") name in
  let userdata := userdata_v1 aws args core cfnStackName in
  let amiId := resolveAmi aws args core in
  lift (validateRootVolume args) ;;;
  register (NewLaunchConfiguration (name ++ "-nodeLaunchConfiguration") {|
    lc_associatePublicIpAddress :=
      Js.nullish (nodeAssociatePublicIpAddress args) true;
    lc_imageId := amiId;
    lc_instanceType := instanceType_of args;
    lc_iamInstanceProfile := instanceProfile;
    lc_keyName := keyName;
    lc_securityGroups := nodeSecurityGroupId :: extraIds args;
    lc_spotPrice := spotPrice args;
    lc_rootBlockDevice := rootBlockDevice_of args;
    lc_userData :=
      if Js.truthy_opt (nodeUserDataOverride args)
      then Js.nullish (nodeUserDataOverride args) EmptyString
      else userdata
  |}) ;;;
  subnets <- workerSubnetIds aws args core ;;
  let cfnTemplateBody := {|
    DesiredCapacity := Js.nullish (desiredCapacity args) (Js.Int 2);
    LaunchConfigurationName :=
      physical_id aws (name ++ "-nodeLaunchConfiguration");
    MinSize := Js.nullish (minSize args) (Js.Int 1);
    MaxSize := Js.nullish (maxSize args) (Js.Int 2);
    VPCZoneIdentifier := subnets;
    Tags_of_group := autoScalingGroupTags_of args core;
    MinInstancesInService := minInstancesInService_of args;
    MaxBatchSize := 1
  |} in
  register (NewStack (name ++ "-nodes") {|
    stack_name := cfnStackName;
    templateBody := cfnTemplateBody;
    stack_tags :=
      Js.spread (Js.spread [("Name", name ++ "-nodes")]
                           (Js.nullish (cloudFormationTags args) []))
                (Js.nullish (tags core) []);
    stack_dependsOn := fleetDeps core
  |}) ;;;
  asgName <- settle
    (match Js.lookup "NodeGroup" (stack_outputs aws cfnStackName) with
     | Some v => inr v
     | None => inl StackOutputMissing
     end) ;;
  ret {| ngd_nodeSecurityGroup := fst sgs;
         cfnStack := name ++ "-nodes";
         autoScalingGroupName := asgName;
         ngd_extraNodeSecurityGroups := extraNodeSecurityGroups args |}.

(* ================================================================= *)
(** ** [createNodeGroupV2Internal]: launch template and group *)

(** [Buffer.from(x, "utf-8").toString("base64")] on the bytes of [x]. *)
Module Base64.

Definition alphabet : string :=
  "ABCDEFGHIJKLMNOPQRSTUVWXYZabcdefghijklmnopqrstuvwxyz0123456789+/".

Definition digit (n : N) : ascii :=
  match String.get (N.to_nat n) alphabet with
  | Some ch => ch
  | None => "="%char
  end.

Fixpoint encode (s : string) : string :=
  match s with
  | EmptyString => EmptyString
  | String a EmptyString =>
      let x := N_of_ascii a in
      String (digit (x / 4))
        (String (digit ((x mod 4) * 16)) "==")
  | String a (String b EmptyString) =>
      let x := N_of_ascii a in
      let y := N_of_ascii b in
      String (digit (x / 4))
        (String (digit ((x mod 4) * 16 + y / 16))
           (String (digit ((y mod 16) * 4)) "="))
  | String a (String b (String c r)) =>
      let x := N_of_ascii a in
      let y := N_of_ascii b in
      let z := N_of_ascii c in
      String (digit (x / 4))
        (String (digit ((x mod 4) * 16 + y / 16))
           (String (digit ((y mod 16) * 4 + z / 64))
              (String (digit (z mod 64)) (encode r))))
  end.

End Base64.

Record NodeGroupV2Data : Type := {
  v2_nodeSecurityGroup : SecurityGroup;
  autoScalingGroup : string;
  v2_extraNodeSecurityGroups : option (list SecurityGroup)
}.

(** The script of the template-based provisioner, before encoding: the
    override when it is defined and not empty, else the generated
    script (staged with the component name, without a signal). *)
Definition script_v2 (args : NodeGroupOptions) (c : CoreData) (name : string)
  : string :=
  match nodeUserDataOverride args with
  | Some (String ch r) => String ch r
  | _ =>
      "#!/bin/bash" ++ Js.nl ++ Js.nl
      ++ bootstrapLine args c ++ Js.nl
      ++ stageUserData name (userDataArg args) ++ Js.nl
  end.

Definition userdata_v2 (args : NodeGroupOptions) (c : CoreData) (name : string)
  : string :=
  Base64.encode (script_v2 args c name).

Definition bool_text (b : bool) : string := if b then "true" else "false".

Definition ebs_of (args : NodeGroupOptions) : Ebs := {|
  ebs_encrypted := bool_text (Js.nullish (nodeRootVolumeEncrypted args) false);
  ebs_volumeSize := Js.nullish (nodeRootVolumeSize args) (Js.Int 20);
  ebs_volumeType := Js.nullish (nodeRootVolumeType args) gp2;
  ebs_iops := nodeRootVolumeIops args;
  ebs_throughput := nodeRootVolumeThroughput args;
  ebs_deleteOnTermination :=
    bool_text (Js.nullish (nodeRootVolumeDeleteOnTermination args) true)
|}.

Definition inputTagsToASGTags (clusterName : string) (t : option Tags)
  : list GroupTag :=
  (map (fun kv => {| tag_key := fst kv; tag_value := snd kv;
                     propagateAtLaunch := true |})
       (Js.nullish t [])
   ++ [ {| tag_key := "kubernetes.io/cluster/" ++ clusterName;
           tag_value := "owned"; propagateAtLaunch := true |};
        {| tag_key := "Name"; tag_value := clusterName ++ "-worker";
           propagateAtLaunch := true |} ])%list.

Definition createNodeGroupV2Internal (aws : Aws) (name : string)
           (args : NodeGroupOptions) (core : CoreData) : Prov NodeGroupV2Data :=
  instanceProfileArn <-
    settle (Output_map profile_arn (resolveInstanceProfile args core)) ;;
  settle (checkNodeSecurityGroupTags args core) ;;;
  lift (checkExclusive args) ;;;
  sgs <- resolveSecurityGroup aws name args core ;;
  let nodeSecurityGroupId := sg_id (fst sgs) in
  keyName <- resolveKeyName aws name args ;;
  let userdata := userdata_v2 args core name in
  let amiId := resolveAmi aws args core in
  lift (validateRootVolume args) ;;;
  register (NewLaunchTemplate (name ++ "-launchTemplate") {|
    lt_imageId := amiId;
    lt_instanceType := instanceType_of args;
    lt_iamInstanceProfile_arn := instanceProfileArn;
    lt_keyName := keyName;
    lt_spot_maxPrice :=
      if Js.truthy_opt (spotPrice args) then spotPrice args else None;
    lt_deviceName := getAmi_deviceName aws amiId;
    lt_ebs := ebs_of args;
    lt_associatePublicIpAddress :=
      bool_text (Js.nullish (nodeAssociatePublicIpAddress args) true);
    lt_securityGroups := nodeSecurityGroupId :: extraIds args;
    lt_userData := userdata
  |}) ;;;
  subnets <- workerSubnetIds aws args core ;;
  register (NewAutoscalingGroup name {|
    asg_name := name;
    asg_minSize := Js.nullish (minSize args) (Js.Int 1);
    asg_maxSize := Js.nullish (maxSize args) (Js.Int 2);
    asg_desiredCapacity := Js.nullish (desiredCapacity args) (Js.Int 2);
    asg_launchTemplate := physical_id aws (name ++ "-launchTemplate");
    asg_vpcZoneIdentifiers := subnets;
    asg_minHealthyPercentage :=
      Js.nullish (minRefreshPercentage args) (Js.Int 50);
    asg_tags :=
      inputTagsToASGTags (cluster_name (cluster core))
                         (autoScalingGroupTags args);
    asg_dependsOn := fleetDeps core
  |}) ;;;
  ret {| v2_nodeSecurityGroup := fst sgs;
         autoScalingGroup := name;
         v2_extraNodeSecurityGroups := extraNodeSecurityGroups args |}.

(* ================================================================= *)
(** ** [createManagedNodeGroupInternal] *)

(** [roleArn]: the ARN given, else the ARN of the role given. *)
Definition resolveRoleArn (args : ManagedNodeGroupOptions) : Prov string :=
  if Js.truthy_opt (nodeRoleArn args)
  then ret (Js.nullish (nodeRoleArn args) EmptyString)
  else match nodeRole args with
       | Some r => ret (role_arn r)
       | None => throw RoleUndefined
       end.

(** [arns.find(a => a === arn)] over the ARNs of [core.instanceRoles] *)
Definition nodegroupRole (c : CoreData) (arn : string) : option string :=
  find (fun a => String.eqb a arn) (map role_arn (instanceRoles c)).

(** The first defined member of a chain, else the default. *)
Fixpoint first_defined {A : Type} (chain : list (option A)) (d : A) : A :=
  match chain with
  | [] => d
  | Some a :: _ => a
  | None :: rest => first_defined rest d
  end.

(** [core.subnetIds] is not optional in [CoreData], so the first test
    of the chain in the callback sees a defined value. *)
Definition managedSubnetIds (args : ManagedNodeGroupOptions) (c : CoreData)
  : list string :=
  match mng_subnetIds args with
  | Some ids => ids
  | None =>
      first_defined [Some (subnetIds c); privateSubnetIds c; publicSubnetIds c] []
  end.

Definition config_field (cfg : option ScalingConfig)
           (f : ScalingConfig -> option Js.Number) (d : Js.Number) : Js.Number :=
  match cfg with
  | Some s => Js.nullish (f s) d
  | None => d
  end.

Definition createManagedNodeGroupInternal (name : string)
           (args : ManagedNodeGroupOptions) (core : CoreData) : Prov string :=
  throw_if (negb (Js.defined (nodeRole args))
            && negb (Js.truthy_opt (nodeRoleArn args)))
           RoleRequired ;;;
  throw_if (Js.defined (nodeRole args) && Js.truthy_opt (nodeRoleArn args))
           RoleExclusive ;;;
  roleArn <- resolveRoleArn args ;;
  settle (match nodegroupRole core roleArn with
          | Some role => if Js.truthy role then inr tt
                         else inl RoleNotInInstanceRoles
          | None => inl RoleNotInInstanceRoles
          end) ;;;
  register (NewEksNodeGroup name {|
    ng_clusterName :=
      Js.nullish (clusterName args) (cluster_name (cluster core));
    ng_nodeRoleArn := roleArn;
    ng_desiredSize := config_field (scalingConfig args) desiredSize (Js.Int 2);
    ng_minSize := config_field (scalingConfig args) sc_minSize (Js.Int 1);
    ng_maxSize := config_field (scalingConfig args) sc_maxSize (Js.Int 2);
    ng_subnetIds := managedSubnetIds args core;
    ng_dependsOn :=
      match eksNodeAccess core with Some r => [r] | None => [] end
  |}) ;;;
  ret name.

(* ================================================================= *)
(** ** The synchronous part of a self-managed call, in summary

    The three definitions below restate what the two provisioners do up
    to their first registration of a launch configuration or template;
    the lemmas [v1_outcome] and [v2_outcome] prove that they do. *)

(** The checks that throw, in program order: the mutual exclusions,
    the ingress rule of a supplied security group, the root volume. *)
Definition sync_checks (name : string) (args : NodeGroupOptions) : Result unit :=
  andThen (checkExclusive args)
    (andThen
       (check (Js.defined (nodeSecurityGroup args)
               && negb (Js.defined (clusterIngressRule args)))
              (ClusterIngressRuleRequired name))
       (validateRootVolume args)).

Definition is_volume_error (e : Error) : bool :=
  match e with
  | IopsOnNonIo1 | IopsNotInteger | ThroughputOnNonGp3 | ThroughputNotInteger =>
      true
  | _ => false
  end.

(** What is registered between the mutual exclusions and the checks on
    the root volume: the security group with its ingress rule, unless a
    group is supplied, and the key pair of a public key. *)
Definition early_events (name : string) (args : NodeGroupOptions) (c : CoreData)
  : list Event :=
  ((if Js.defined (nodeSecurityGroup args) then []
    else [NewSecurityGroup (name ++ "-nodeSecurityGroup") (vpcId c)
            (Js.spread (Js.nullish (nodeSecurityGroupTags c) [])
                       (Js.nullish (tags c) []));
          NewSecurityGroupRule (name ++ "-eksClusterIngressRule")])
   ++ (if Js.truthy_opt (nodePublicKey args)
       then [NewKeyPair (name ++ "-keyPair")
                        (Js.nullish (nodePublicKey args) EmptyString)]
       else []))%list.

(** The events of [early_events]. *)
Definition is_early_event (ev : Event) : bool :=
  match ev with
  | NewSecurityGroup _ _ _ | NewSecurityGroupRule _ | NewKeyPair _ _ => true
  | _ => false
  end.

(* ================================================================= *)
(** ** A cluster, a provider and option sets to run the provisioners on *)

Module Sample.

Definition local_route : Route :=
  {| gatewayId := "local";
     cidrBlock := Netmask.Block (Netmask.cidr 10 0 0 0 16) |}.
Definition igw_route : Route :=
  {| gatewayId := "igw-0a1";
     cidrBlock := Netmask.Block (Netmask.cidr 0 0 0 0 0) |}.
Definition nat_route : Route :=
  {| gatewayId := EmptyString;
     cidrBlock := Netmask.Block (Netmask.cidr 0 0 0 0 0) |}.

Definition public_table : RouteTable := {| routes := [local_route; igw_route] |}.
Definition private_table : RouteTable := {| routes := [local_route; nat_route] |}.

Definition tables (subnetId : string) : RouteTable :=
  if String.eqb subnetId "subnet-public" then public_table else private_table.

(** [subnet-public] and [subnet-private] have a route table of their
    own, every other subnet falls back to the main one. *)
Definition aws : Aws := {|
  getRouteTable_bySubnet := fun id =>
    if String.eqb id "subnet-public" then inr public_table
    else if String.eqb id "subnet-private" then inr private_table
    else inl (LookupFailed "no association");
  getSubnet_vpcId := fun _ => inr "vpc-1";
  getRouteTables_main := fun _ => inr ["rtb-main"];
  getRouteTable_byId := fun _ => inr private_table;
  ssm_getParameter := fun _ => inr "ami-0123";
  getAmi_deviceName := fun _ => inr "/dev/xvda";
  region_name := "us-west-2";
  stack_outputs := fun _ => [("NodeGroup", "asg-1")];
  randomSuffix := fun _ prefix => prefix ++ "-0a1b2c3d";
  physical_id := fun n => n ++ "-id"
|}.

Definition core : CoreData := {|
  cluster := {| cluster_name := "prod";
                cluster_endpoint := "https://eks.example";
                certificateAuthority_data := "Q0E=";
                cluster_version := "1.24" |};
  vpcId := "vpc-1";
  subnetIds := ["subnet-public"; "subnet-private"];
  privateSubnetIds := None;
  publicSubnetIds := None;
  clusterSecurityGroup := {| sg_id := "sg-cluster"; sg_urn := "cluster" |};
  nodeGroupOptions :=
    {| cluster_instanceProfile := Some {| profile_arn := "arn:profile" |};
       cluster_nodeSecurityGroup := None |};
  nodeSecurityGroupTags := None;
  tags := None;
  vpcCni := Some "vpc-cni";
  eksNodeAccess := Some "aws-auth";
  instanceRoles := [ {| role_arn := "arn:aws:iam::1:role/workers" |} ]
|}.

Definition tabbed : string :=
  "--a" ++ String Js.tab EmptyString ++ "--b".

Definition spot : NodeGroupOptions := set_spotPrice (Some "0.05") noOptions.

Definition io1_without_iops : NodeGroupOptions :=
  set_nodeRootVolumeType (Some io1) noOptions.

Definition arm64 : NodeGroupOptions :=
  set_amiType (Some "amazon-linux-2-arm64") noOptions.

Definition override_and_labels : NodeGroupOptions :=
  set_labels (Some [("role", "worker")])
    (set_nodeUserDataOverride (Some "#!/bin/bash") noOptions).

Definition empty_override_and_labels : NodeGroupOptions :=
  set_labels (Some [("role", "worker")])
    (set_nodeUserDataOverride (Some EmptyString) noOptions).

Definition key_and_iops : NodeGroupOptions :=
  set_nodePublicKey (Some "ssh-rsa AAAA")
    (set_nodeRootVolumeIops (Some (Js.Int 100))
       (set_nodeRootVolumeType (Some gp2) noOptions)).

(** The same with a security group and its ingress rule supplied, so
    that the key pair is the only resource registered early. *)
Definition key_and_iops_own_group : NodeGroupOptions := {|
  nodeSubnetIds := None; instanceType := None; spotPrice := None;
  nodeSecurityGroup := Some {| sg_id := "sg-workers"; sg_urn := "workers" |};
  clusterIngressRule := Some {| rule_id := "sgr-ingress" |};
  extraNodeSecurityGroups := None; encryptRootBockDevice := None;
  encryptRootBlockDevice := None; nodePublicKey := Some "ssh-rsa AAAA";
  keyName := None; nodeRootVolumeSize := None;
  nodeRootVolumeDeleteOnTermination := None;
  nodeRootVolumeEncrypted := None; nodeRootVolumeIops := Some (Js.Int 100);
  nodeRootVolumeThroughput := None; nodeRootVolumeType := Some gp2;
  nodeUserData := None; nodeUserDataOverride := None;
  desiredCapacity := None; minSize := None; maxSize := None;
  amiType := None; amiId := None; gpu := None; labels := None;
  taints := None; kubeletExtraArgs := None; bootstrapExtraArgs := None;
  nodeAssociatePublicIpAddress := None; version := None;
  instanceProfile := None; autoScalingGroupTags := None;
  cloudFormationTags := None; minRefreshPercentage := None
|}.

(** IOPS of 100.5 on an [io1] volume. *)
Definition fractional_iops : NodeGroupOptions :=
  set_nodeRootVolumeIops (Some (Js.Frac false 100 0 5))
    (set_nodeRootVolumeType (Some io1) noOptions).

Definition unregistered_role : ManagedNodeGroupOptions := {|
  nodeRole := None;
  nodeRoleArn := Some "arn:aws:iam::1:role/other";
  mng_subnetIds := None;
  scalingConfig := None;
  clusterName := None
|}.

End Sample.

(** Unfolds a provisioner down to the monad's operations. *)
Ltac run_sync :=
  unfold createNodeGroupInternal, createNodeGroupV2Internal, sync_checks,
    early_events, resolveSecurityGroup, createNodeGroupSecurityGroup,
    resolveKeyName, workerSubnetIds, bind, lift, settle, register, ret, throw,
    andThen, check, start.

(* ================================================================= *)
(** ** The rejections of a call, and the tag list of the stack template *)

(** The error an output is rejected with, when it is. *)
Definition rejection {A : Type} (o : Output A) : list Error :=
  match o with inl e => [e] | inr _ => [] end.

(** The text [tagsToAsgTags] adds for one tag. *)
Definition asgTagEntry (kv : string * string) : string :=
  Js.nl ++ "                          - Key: " ++ fst kv
  ++ Js.nl ++ "                            Value: " ++ snd kv
  ++ Js.nl ++ "                            PropagateAtLaunch: 'true'".

(** [tagsToAsgTags]: the loop over [Object.keys(tags)] that appends to
    [output]. *)
Definition tagsToAsgTags (t : Tags) : string :=
  fold_left (fun output kv => output ++ asgTagEntry kv) t EmptyString.

Definition is_key_pair (ev : Event) : bool :=
  match ev with NewKeyPair _ _ => true | _ => false end.

Definition is_security_group (ev : Event) : bool :=
  match ev with
  | NewSecurityGroup _ _ _ | NewSecurityGroupRule _ => true
  | _ => false
  end.

(* ================================================================= *)
(** ** More option sets, providers and clusters to run the code on *)

Module Cases.

(** A public key and the name of a key pair. *)
Definition two_keys : NodeGroupOptions := {|
  nodeSubnetIds := None; instanceType := None; spotPrice := None;
  nodeSecurityGroup := None; clusterIngressRule := None;
  extraNodeSecurityGroups := None; encryptRootBockDevice := None;
  encryptRootBlockDevice := None; nodePublicKey := Some "ssh-rsa AAAA";
  keyName := Some "ops"; nodeRootVolumeSize := None;
  nodeRootVolumeDeleteOnTermination := None; nodeRootVolumeEncrypted := None;
  nodeRootVolumeIops := None; nodeRootVolumeThroughput := None;
  nodeRootVolumeType := None; nodeUserData := None;
  nodeUserDataOverride := None; desiredCapacity := None; minSize := None;
  maxSize := None; amiType := None; amiId := None; gpu := None;
  labels := None; taints := None; kubeletExtraArgs := None;
  bootstrapExtraArgs := None; nodeAssociatePublicIpAddress := None;
  version := None; instanceProfile := None; autoScalingGroupTags := None;
  cloudFormationTags := None; minRefreshPercentage := None
|}.

(** An AMI and the GPU flag. *)
Definition ami_and_gpu : NodeGroupOptions := {|
  nodeSubnetIds := None; instanceType := None; spotPrice := None;
  nodeSecurityGroup := None; clusterIngressRule := None;
  extraNodeSecurityGroups := None; encryptRootBockDevice := None;
  encryptRootBlockDevice := None; nodePublicKey := None; keyName := None;
  nodeRootVolumeSize := None; nodeRootVolumeDeleteOnTermination := None;
  nodeRootVolumeEncrypted := None; nodeRootVolumeIops := None;
  nodeRootVolumeThroughput := None; nodeRootVolumeType := None;
  nodeUserData := None; nodeUserDataOverride := None;
  desiredCapacity := None; minSize := None; maxSize := None; amiType := None;
  amiId := Some "ami-0abc"; gpu := Some true; labels := None; taints := None;
  kubeletExtraArgs := None; bootstrapExtraArgs := None;
  nodeAssociatePublicIpAddress := None; version := None;
  instanceProfile := None; autoScalingGroupTags := None;
  cloudFormationTags := None; minRefreshPercentage := None
|}.

(** A security group without its ingress rule. *)
Definition group_without_rule : NodeGroupOptions := {|
  nodeSubnetIds := None; instanceType := None; spotPrice := None;
  nodeSecurityGroup := Some {| sg_id := "sg-workers"; sg_urn := "workers" |};
  clusterIngressRule := None; extraNodeSecurityGroups := None;
  encryptRootBockDevice := None; encryptRootBlockDevice := None;
  nodePublicKey := None; keyName := None; nodeRootVolumeSize := None;
  nodeRootVolumeDeleteOnTermination := None; nodeRootVolumeEncrypted := None;
  nodeRootVolumeIops := None; nodeRootVolumeThroughput := None;
  nodeRootVolumeType := None; nodeUserData := None;
  nodeUserDataOverride := None; desiredCapacity := None; minSize := None;
  maxSize := None; amiType := None; amiId := None; gpu := None;
  labels := None; taints := None; kubeletExtraArgs := None;
  bootstrapExtraArgs := None; nodeAssociatePublicIpAddress := None;
  version := None; instanceProfile := None; autoScalingGroupTags := None;
  cloudFormationTags := None; minRefreshPercentage := None
|}.

(** A security group with its ingress rule, two extra groups, a key name and tags. *)
Definition own_group : NodeGroupOptions := {|
  nodeSubnetIds := None; instanceType := None; spotPrice := None;
  nodeSecurityGroup := Some {| sg_id := "sg-workers"; sg_urn := "workers" |};
  clusterIngressRule := Some {| rule_id := "sgr-ingress" |};
  extraNodeSecurityGroups := Some [ {| sg_id := "sg-app"; sg_urn := "app" |}; {| sg_id := "sg-db"; sg_urn := "db" |} ];
  encryptRootBockDevice := None; encryptRootBlockDevice := None;
  nodePublicKey := None; keyName := Some "ops"; nodeRootVolumeSize := None;
  nodeRootVolumeDeleteOnTermination := None; nodeRootVolumeEncrypted := None;
  nodeRootVolumeIops := None; nodeRootVolumeThroughput := None;
  nodeRootVolumeType := None; nodeUserData := None;
  nodeUserDataOverride := None; desiredCapacity := None; minSize := None;
  maxSize := None; amiType := None; amiId := None; gpu := None;
  labels := None; taints := None; kubeletExtraArgs := None;
  bootstrapExtraArgs := None; nodeAssociatePublicIpAddress := None;
  version := None; instanceProfile := None;
  autoScalingGroupTags := Some [("Name", "batch"); ("team", "data")];
  cloudFormationTags := Some [("team", "data"); ("env", "dev")];
  minRefreshPercentage := None
|}.

(** 3000 IOPS on an [io1] volume. *)
Definition io1_with_iops : NodeGroupOptions := {|
  nodeSubnetIds := None; instanceType := None; spotPrice := None;
  nodeSecurityGroup := None; clusterIngressRule := None;
  extraNodeSecurityGroups := None; encryptRootBockDevice := None;
  encryptRootBlockDevice := None; nodePublicKey := None; keyName := None;
  nodeRootVolumeSize := None; nodeRootVolumeDeleteOnTermination := None;
  nodeRootVolumeEncrypted := None; nodeRootVolumeIops := Some (Js.Int 3000);
  nodeRootVolumeThroughput := None; nodeRootVolumeType := Some io1;
  nodeUserData := None; nodeUserDataOverride := None;
  desiredCapacity := None; minSize := None; maxSize := None; amiType := None;
  amiId := None; gpu := None; labels := None; taints := None;
  kubeletExtraArgs := None; bootstrapExtraArgs := None;
  nodeAssociatePublicIpAddress := None; version := None;
  instanceProfile := None; autoScalingGroupTags := None;
  cloudFormationTags := None; minRefreshPercentage := None
|}.

(** Encryption asked for through the deprecated option only. *)
Definition deprecated_encryption : NodeGroupOptions := {|
  nodeSubnetIds := None; instanceType := None; spotPrice := None;
  nodeSecurityGroup := None; clusterIngressRule := None;
  extraNodeSecurityGroups := None; encryptRootBockDevice := None;
  encryptRootBlockDevice := Some true; nodePublicKey := None;
  keyName := None; nodeRootVolumeSize := None;
  nodeRootVolumeDeleteOnTermination := None; nodeRootVolumeEncrypted := None;
  nodeRootVolumeIops := None; nodeRootVolumeThroughput := None;
  nodeRootVolumeType := None; nodeUserData := None;
  nodeUserDataOverride := None; desiredCapacity := None; minSize := None;
  maxSize := None; amiType := None; amiId := None; gpu := None;
  labels := None; taints := None; kubeletExtraArgs := None;
  bootstrapExtraArgs := None; nodeAssociatePublicIpAddress := None;
  version := None; instanceProfile := None; autoScalingGroupTags := None;
  cloudFormationTags := None; minRefreshPercentage := None
|}.

(** A complete user-data script and nothing that conflicts with it. *)
Definition override_only : NodeGroupOptions := {|
  nodeSubnetIds := None; instanceType := None; spotPrice := None;
  nodeSecurityGroup := None; clusterIngressRule := None;
  extraNodeSecurityGroups := None; encryptRootBockDevice := None;
  encryptRootBlockDevice := None; nodePublicKey := None; keyName := None;
  nodeRootVolumeSize := None; nodeRootVolumeDeleteOnTermination := None;
  nodeRootVolumeEncrypted := None; nodeRootVolumeIops := None;
  nodeRootVolumeThroughput := None; nodeRootVolumeType := None;
  nodeUserData := None; nodeUserDataOverride := Some "#!/bin/bash -xe";
  desiredCapacity := None; minSize := None; maxSize := None; amiType := None;
  amiId := None; gpu := None; labels := None; taints := None;
  kubeletExtraArgs := None; bootstrapExtraArgs := None;
  nodeAssociatePublicIpAddress := None; version := None;
  instanceProfile := None; autoScalingGroupTags := None;
  cloudFormationTags := None; minRefreshPercentage := None
|}.

(** An override of the subnets. *)
Definition explicit_subnets : NodeGroupOptions := {|
  nodeSubnetIds := Some ["subnet-a"; "subnet-b"]; instanceType := None;
  spotPrice := None; nodeSecurityGroup := None; clusterIngressRule := None;
  extraNodeSecurityGroups := None; encryptRootBockDevice := None;
  encryptRootBlockDevice := None; nodePublicKey := None; keyName := None;
  nodeRootVolumeSize := None; nodeRootVolumeDeleteOnTermination := None;
  nodeRootVolumeEncrypted := None; nodeRootVolumeIops := None;
  nodeRootVolumeThroughput := None; nodeRootVolumeType := None;
  nodeUserData := None; nodeUserDataOverride := None;
  desiredCapacity := None; minSize := None; maxSize := None; amiType := None;
  amiId := None; gpu := None; labels := None; taints := None;
  kubeletExtraArgs := None; bootstrapExtraArgs := None;
  nodeAssociatePublicIpAddress := None; version := None;
  instanceProfile := None; autoScalingGroupTags := None;
  cloudFormationTags := None; minRefreshPercentage := None
|}.

(** A provider in which [subnet-gone] has no route table of its own
    and cannot be looked up. *)
Definition aws_subnet_gone : Aws := {|
  getRouteTable_bySubnet := fun id =>
    if String.eqb id "subnet-public" then inr Sample.public_table
    else if String.eqb id "subnet-private" then inr Sample.private_table
    else inl (LookupFailed "no association");
  getSubnet_vpcId := fun id =>
    if String.eqb id "subnet-gone" then inl (LookupFailed "no such subnet")
    else inr "vpc-1";
  getRouteTables_main := getRouteTables_main Sample.aws;
  getRouteTable_byId := getRouteTable_byId Sample.aws;
  ssm_getParameter := ssm_getParameter Sample.aws;
  getAmi_deviceName := getAmi_deviceName Sample.aws;
  region_name := region_name Sample.aws;
  stack_outputs := stack_outputs Sample.aws;
  randomSuffix := randomSuffix Sample.aws;
  physical_id := physical_id Sample.aws
|}.

(** A provider whose stack has not declared its output. *)
Definition aws_no_output : Aws := {|
  getRouteTable_bySubnet := getRouteTable_bySubnet Sample.aws;
  getSubnet_vpcId := getSubnet_vpcId Sample.aws;
  getRouteTables_main := getRouteTables_main Sample.aws;
  getRouteTable_byId := getRouteTable_byId Sample.aws;
  ssm_getParameter := ssm_getParameter Sample.aws;
  getAmi_deviceName := getAmi_deviceName Sample.aws;
  region_name := region_name Sample.aws;
  stack_outputs := fun _ => [];
  randomSuffix := randomSuffix Sample.aws;
  physical_id := physical_id Sample.aws
|}.

(** The sample cluster with other subnets, tags and no default
    instance profile. *)
Definition core_with (ids : list string) (t : option Tags)
           (profile : option InstanceProfile) : CoreData := {|
  cluster := cluster Sample.core;
  vpcId := vpcId Sample.core;
  subnetIds := ids;
  privateSubnetIds := None;
  publicSubnetIds := None;
  clusterSecurityGroup := clusterSecurityGroup Sample.core;
  nodeGroupOptions :=
    {| cluster_instanceProfile := profile; cluster_nodeSecurityGroup := None |};
  nodeSecurityGroupTags := None;
  tags := t;
  vpcCni := vpcCni Sample.core;
  eksNodeAccess := eksNodeAccess Sample.core;
  instanceRoles := instanceRoles Sample.core
|}.

Definition core_without_profile : CoreData :=
  core_with (subnetIds Sample.core) None None.

Definition core_tagged : CoreData :=
  core_with (subnetIds Sample.core) (Some [("env", "prod"); ("owner", "sre")])
            (Some {| profile_arn := "arn:profile" |}).

Definition core_subnet_gone : CoreData :=
  core_with ["subnet-public"; "subnet-gone"; "subnet-private"] None
            (Some {| profile_arn := "arn:profile" |}).

(** A cluster that tags the security groups of its nodes and has a
    default one. *)
Definition core_with_node_group : CoreData := {|
  cluster := cluster Sample.core;
  vpcId := vpcId Sample.core;
  subnetIds := subnetIds Sample.core;
  privateSubnetIds := None;
  publicSubnetIds := None;
  clusterSecurityGroup := clusterSecurityGroup Sample.core;
  nodeGroupOptions :=
    {| cluster_instanceProfile := Some {| profile_arn := "arn:profile" |};
       cluster_nodeSecurityGroup :=
         Some {| sg_id := "sg-default"; sg_urn := "default" |} |};
  nodeSecurityGroupTags := Some [("scope", "nodes")];
  tags := None;
  vpcCni := None;
  eksNodeAccess := None;
  instanceRoles := instanceRoles Sample.core
|}.

(** Route tables with other gateways: all traffic through a virtual
    private gateway; a VPN to a private network only; and a table with
    a route to an IPv6 block, whose [cidrBlock] is the empty string,
    before the default route. *)
Definition vgw_route : Route :=
  {| gatewayId := "vgw-0b2";
     cidrBlock := Netmask.Block (Netmask.cidr 0 0 0 0 0) |}.
Definition vpn_only_route : Route :=
  {| gatewayId := "vgw-0b2";
     cidrBlock := Netmask.Block (Netmask.cidr 192 168 0 0 16) |}.
Definition ipv6_route : Route :=
  {| gatewayId := "igw-0a1"; cidrBlock := Netmask.Unparsable EmptyString |}.

Definition vgw_table : RouteTable :=
  {| routes := [Sample.local_route; vgw_route] |}.
Definition vpn_only_table : RouteTable :=
  {| routes := [Sample.local_route; vpn_only_route] |}.
Definition ipv6_table : RouteTable :=
  {| routes := [Sample.local_route; ipv6_route; Sample.igw_route] |}.


(** The sample provider with these subnets; the main route table of
    the VPC is looked up by its id. *)
Definition aws_gateways : Aws := {|
  getRouteTable_bySubnet := fun id =>
    if String.eqb id "subnet-vgw" then inr vgw_table
    else if String.eqb id "subnet-vpn-only" then inr vpn_only_table
    else if String.eqb id "subnet-ipv6" then inr ipv6_table
    else getRouteTable_bySubnet Sample.aws id;
  getSubnet_vpcId := getSubnet_vpcId Sample.aws;
  getRouteTables_main := getRouteTables_main Sample.aws;
  getRouteTable_byId := fun id =>
    match id with
    | Some rtb => if String.eqb rtb "rtb-main" then inr Sample.private_table
                  else inl (LookupFailed "no such route table")
    | None => inl (LookupFailed "no route table id")
    end;
  ssm_getParameter := ssm_getParameter Sample.aws;
  getAmi_deviceName := getAmi_deviceName Sample.aws;
  region_name := region_name Sample.aws;
  stack_outputs := stack_outputs Sample.aws;
  randomSuffix := randomSuffix Sample.aws;
  physical_id := physical_id Sample.aws
|}.

(** The security group of the cluster's nodes, brought as another
    resource object of the same group. *)
Definition imported_group : NodeGroupOptions := {|
  nodeSubnetIds := None; instanceType := None; spotPrice := None;
  nodeSecurityGroup := Some {| sg_id := "sg-default"; sg_urn := "imported" |};
  clusterIngressRule := Some {| rule_id := "sgr-ingress" |};
  extraNodeSecurityGroups := None;
  encryptRootBockDevice := None; encryptRootBlockDevice := None;
  nodePublicKey := None; keyName := None; nodeRootVolumeSize := None;
  nodeRootVolumeDeleteOnTermination := None; nodeRootVolumeEncrypted := None;
  nodeRootVolumeIops := None; nodeRootVolumeThroughput := None;
  nodeRootVolumeType := None; nodeUserData := None;
  nodeUserDataOverride := None; desiredCapacity := None; minSize := None;
  maxSize := None; amiType := None; amiId := None; gpu := None;
  labels := None; taints := None; kubeletExtraArgs := None;
  bootstrapExtraArgs := None; nodeAssociatePublicIpAddress := None;
  version := None; instanceProfile := None; autoScalingGroupTags := None;
  cloudFormationTags := None; minRefreshPercentage := None
|}.

(** Managed node groups: the role of the workers by ARN, and a
    partial scaling configuration. *)
Definition registered_role : ManagedNodeGroupOptions := {|
  nodeRole := None;
  nodeRoleArn := Some "arn:aws:iam::1:role/workers";
  mng_subnetIds := None;
  scalingConfig :=
    Some {| desiredSize := Some (Js.Int 5); sc_minSize := None;
            sc_maxSize := Some (Js.Int 9) |};
  clusterName := None
|}.

(** The same with a cluster name that resolves to the empty string. *)
Definition empty_cluster_name : ManagedNodeGroupOptions := {|
  nodeRole := None;
  nodeRoleArn := Some "arn:aws:iam::1:role/workers";
  mng_subnetIds := None;
  scalingConfig := None;
  clusterName := Some EmptyString
|}.

End Cases.

(* ================================================================= *)
(** * Properties *)

(** ** The definitions on concrete inputs *)

Example split_space_doubled :
  Js.split_space "a  b" = ["a"; EmptyString; "b"]
  /\ Js.split_space "a " = ["a"; EmptyString]
  /\ Js.split_space "--port=10251 --address=0.0.0.0"
     = ["--port=10251"; "--address=0.0.0.0"].
Proof. repeat split. Qed.

Example kubelet_flag_one_and_two :
  Bootstrap.kubelet_flag
    (Bootstrap.kubelet_tokens None (Some [("role", "worker")]) None)
  = " --kubelet-extra-args --node-labels=role=worker"
  /\ Bootstrap.kubelet_flag
       (Bootstrap.kubelet_tokens (Some "--max-pods=10")
          (Some [("role", "worker"); ("zone", "a")])
          (Some [("dedicated", {| value := "gpu"; effect := NoSchedule |})]))
     = " --kubelet-extra-args '--max-pods=10 --node-labels=role=worker,zone=a --register-with-taints=dedicated=gpu:NoSchedule'"
  /\ Bootstrap.kubelet_flag (Bootstrap.kubelet_tokens None (Some []) None)
     = EmptyString.
Proof. repeat split. Qed.

Example toString_samples :
  Js.toString (Js.Int 100) = "100"
  /\ Js.toString (Js.Int (-3)) = "-3"
  /\ Js.toString (Js.Frac false 100 0 5) = "100.5"
  /\ Js.toString (Js.Frac true 0 1 25) = "-0.025".
Proof. repeat split. Qed.

Example numeric_test_samples :
  Js.numeric_test "ddd" = true
  /\ Js.numeric_test "100" = false
  /\ Js.numeric_test EmptyString = false.
Proof. repeat split. Qed.

Example base64_samples :
  Base64.encode "Man" = "TWFu"
  /\ Base64.encode "Ma" = "TWE="
  /\ Base64.encode "M" = "TQ=="
  /\ Base64.encode "#!/bin/bash" = "IyEvYmluL2Jhc2g=".
Proof. repeat split. Qed.

Example isPrivateCIDRBlock_samples :
  isPrivateCIDRBlock (Netmask.Block (Netmask.cidr 10 1 0 0 16)) = inr true
  /\ isPrivateCIDRBlock (Netmask.Block (Netmask.cidr 172 31 255 0 24)) = inr true
  /\ isPrivateCIDRBlock (Netmask.Block (Netmask.cidr 172 32 0 0 16)) = inr false
  /\ isPrivateCIDRBlock (Netmask.Block (Netmask.cidr 192 168 0 0 15)) = inr false
  /\ isPrivateCIDRBlock (Netmask.Block (Netmask.cidr 0 0 0 0 0)) = inr false
  /\ isPrivateCIDRBlock (Netmask.Block (Netmask.cidr 10 0 0 0 33))
     = inl (InvalidMask 33)
  /\ isPrivateCIDRBlock (Netmask.Unparsable "::/0")
     = inl (InvalidNetAddress "::/0").
Proof. repeat split. Qed.

Example getRouteTableAsync_samples :
  getRouteTableAsync Sample.aws "subnet-public" = inr Sample.public_table
  /\ getRouteTableAsync Sample.aws "subnet-unassociated"
     = inr Sample.private_table
  /\ hasInternetGatewayRoute Sample.public_table = inr true
  /\ hasInternetGatewayRoute Sample.private_table = inr false
  /\ hasInternetGatewayRoute Cases.vpn_only_table = inr false
  /\ hasInternetGatewayRoute Cases.vgw_table = inr true
  /\ hasInternetGatewayRoute Cases.ipv6_table
     = inl (InvalidNetAddress EmptyString).
Proof. repeat split. Qed.

Example userdata_v1_sample :
  userdata_v1 Sample.aws Sample.empty_override_and_labels Sample.core
              "ng-0a1b2c3d"
  = "#!/bin/bash" ++ Js.nl ++ Js.nl
    ++ "/etc/eks/bootstrap.sh --apiserver-endpoint " ++ Js.dq
    ++ "https://eks.example" ++ Js.dq ++ " --b64-cluster-ca " ++ Js.dq
    ++ "Q0E=" ++ Js.dq ++ " " ++ Js.dq ++ "prod" ++ Js.dq
    ++ " --kubelet-extra-args --node-labels=role=worker" ++ Js.nl
    ++ Js.nl
    ++ "/opt/aws/bin/cfn-signal --exit-code $? --stack ng-0a1b2c3d --resource NodeGroup --region us-west-2"
    ++ Js.nl.
Proof. vm_compute. reflexivity. Qed.

(** ** Strings *)

Lemma split_on_not_nil (f : ascii -> bool) (s : string) :
  Js.split_on f s <> [].
Proof.
  induction s as [|c r IH]; simpl; [discriminate|].
  destruct (f c); [discriminate|].
  destruct (Js.split_on f r); discriminate.
Qed.

Lemma join_cons (sep x y : string) (l : list string) :
  Js.join sep (x :: y :: l) = x ++ sep ++ Js.join sep (y :: l).
Proof. reflexivity. Qed.

Lemma join_cons_char (sep : string) (c : ascii) (t : string) (l : list string) :
  Js.join sep (String c t :: l) = String c (Js.join sep (t :: l)).
Proof. destruct l; reflexivity. Qed.

(** Joining the tokens with the separator gives the string back. *)
Lemma join_split_on (c : ascii) (s : string) :
  Js.join (String c EmptyString) (Js.split_on (Ascii.eqb c) s) = s.
Proof.
  induction s as [|a r IH]; [reflexivity|].
  simpl. destruct (Ascii.eqb c a) eqn:E.
  - apply Ascii.eqb_eq in E; subst a.
    destruct (Js.split_on (Ascii.eqb c) r) as [|t ts] eqn:S.
    + exfalso; exact (split_on_not_nil _ _ S).
    + rewrite join_cons, IH. reflexivity.
  - destruct (Js.split_on (Ascii.eqb c) r) as [|t ts] eqn:S.
    + exfalso; exact (split_on_not_nil _ _ S).
    + rewrite join_cons_char, IH. reflexivity.
Qed.

(** No token holds a separator. *)
Lemma split_on_tokens (f : ascii -> bool) (s : string) :
  forallb (fun t => negb (Js.has_char f t)) (Js.split_on f s) = true.
Proof.
  induction s as [|a r IH]; [reflexivity|].
  simpl. destruct (f a) eqn:E; [exact IH|].
  destruct (Js.split_on f r) as [|t ts]; simpl in *; [now rewrite E|].
  rewrite E. exact IH.
Qed.

(** ** The kubelet arguments (claim C1) *)

(** C1, as the code has it.  The token list is the explicit
    [kubeletExtraArgs] cut at every single space character (tokens that
    hold no space and that joined by one space give the string back;
    nothing when the string is absent or empty), followed by one
    [--node-labels=] token when the label mapping has an entry, in the
    mapping's order, and by one [--register-with-taints=] token when the
    taint mapping has an entry.  The flag is left out for no token, is
    unquoted for exactly one, and is one single-quoted argument joined
    by spaces for two or more. *)
Theorem C1_kubelet_extra_args
        (kea : option string) (lbls : option (Js.Dict string))
        (tnts : option (Js.Dict Taint)) :
  let explicit :=
    match kea with
    | Some (String c r) => Js.split_space (String c r)
    | _ => []
    end in
  let label_token :=
    match lbls with
    | Some (kv :: l) =>
        ["--node-labels=" ++ Js.join "," (Bootstrap.label_parts (kv :: l))]
    | _ => []
    end in
  let taint_token :=
    match tnts with
    | Some (kv :: l) =>
        ["--register-with-taints="
         ++ Js.join "," (Bootstrap.taint_parts (kv :: l))]
    | _ => []
    end in
  let toks := Bootstrap.kubelet_tokens kea lbls tnts in
  toks = (explicit ++ label_token ++ taint_token)%list
  /\ forallb (fun t => negb (Js.has_char (Ascii.eqb Js.space) t)) explicit = true
  /\ Js.join " " explicit = Js.nullish kea EmptyString
  /\ Bootstrap.kubelet_flag toks =
     match toks with
     | [] => EmptyString
     | [t] => " --kubelet-extra-args " ++ t
     | _ :: _ :: _ => " --kubelet-extra-args '" ++ Js.join " " toks ++ "'"
     end.
Proof.
  cbv zeta. repeat split.
  - unfold Bootstrap.kubelet_tokens, Bootstrap.kubelet_tokens_with.
    destruct kea as [[|c r]|], lbls as [[|kv l]|], tnts as [[|kv' l']|];
      cbn [Js.truthy Bootstrap.push_parts Bootstrap.label_parts
           Bootstrap.taint_parts map List.length Nat.ltb Nat.leb];
      rewrite ?app_nil_r, <- ?app_assoc; reflexivity.
  - destruct kea as [[|c r]|]; try reflexivity.
    apply split_on_tokens.
  - destruct kea as [[|c r]|]; try reflexivity.
    apply (join_split_on Js.space).
  - unfold Bootstrap.kubelet_flag.
    destruct (Bootstrap.kubelet_tokens kea lbls tnts) as [|t [|u l]];
      reflexivity.
Qed.

(** C1 as stated fails: an argument string whose two arguments are
    separated by a tab is one token for the code, passed unquoted, and
    two tokens when split on whitespace, passed quoted. *)
Lemma C1_whitespace_counterexample :
  Bootstrap.kubelet_tokens (Some Sample.tabbed) None None = [Sample.tabbed]
  /\ Bootstrap.spec_kubelet_tokens (Some Sample.tabbed) None None
     = ["--a"; "--b"]
  /\ Bootstrap.kubelet_flag
       (Bootstrap.kubelet_tokens (Some Sample.tabbed) None None)
     <> Bootstrap.kubelet_flag
          (Bootstrap.spec_kubelet_tokens (Some Sample.tabbed) None None).
Proof.
  repeat split; try reflexivity.
  vm_compute. discriminate.
Qed.

(** ** Blocks and ranges: [Netmask.contains] is inclusion of intervals *)

Section NetmaskFacts.

  Import Netmask.
  Local Open Scope Z_scope.

Lemma maskLong_shape (c : Cidr) :
    wf c -> maskLong c = Z.shiftl (Z.ones (bits c)) (32 - bits c).
  Proof.
    intros [_ Hb]. unfold maskLong.
    destruct (0 <? bits c) eqn:E.
    - apply Z.ltb_lt in E. change 4294967295 with (Z.ones 32).
      apply Z.bits_inj'. intros n Hn.
      rewrite Z.land_spec, !Z.shiftl_spec by lia.
      rewrite !Z.testbit_ones by lia.
      destruct (Z.leb_spec 0 (n - (32 - bits c))), (Z.ltb_spec (n - (32 - bits c)) 32),
        (Z.leb_spec 0 n), (Z.ltb_spec n 32),
        (Z.ltb_spec (n - (32 - bits c)) (bits c)); simpl; try reflexivity; lia.
    - apply Z.ltb_ge in E. replace (bits c) with 0 by lia. reflexivity.
  Qed.

Lemma small_testbit (a n : Z) : 0 <= a < 2 ^ 32 -> 32 <= n -> Z.testbit a n = false.
  Proof.
    intros Ha Hn. destruct (Z.eq_dec a 0) as [->|Hz]; [apply Z.testbit_0_l|].
    apply Z.bits_above_log2; [lia|].
    assert (Z.log2 a < 32) by (apply Z.log2_lt_pow2; lia). lia.
  Qed.

Lemma land_mask (c : Cidr) (a : Z) :
    wf c -> 0 <= a < 2 ^ 32 ->
    Z.land a (maskLong c) = 2 ^ (32 - bits c) * (a / 2 ^ (32 - bits c)).
  Proof.
    intros W Ha. rewrite maskLong_shape by assumption. destruct W as [_ Hb].
    rewrite Z.mul_comm, <- Z.shiftl_mul_pow2, <- Z.shiftr_div_pow2 by lia.
    apply Z.bits_inj'. intros n Hn.
    rewrite Z.land_spec, !Z.shiftl_spec by lia. rewrite Z.testbit_ones by lia.
    destruct (Z.ltb_spec n (32 - bits c)) as [L|L].
    - rewrite (Z.testbit_neg_r _ (n - (32 - bits c))) by lia.
      destruct (Z.leb_spec 0 (n - (32 - bits c))); [lia|].
      simpl. apply andb_false_r.
    - rewrite Z.shiftr_spec by lia.
      replace (n - (32 - bits c) + (32 - bits c)) with n by lia.
      destruct (Z.leb_spec 0 (n - (32 - bits c))); [|lia].
      destruct (Z.ltb_spec (n - (32 - bits c)) (bits c)); simpl.
      + apply andb_true_r.
      + rewrite andb_false_r. symmetry. apply small_testbit; lia.
  Qed.

Lemma pow_split (b : Z) : 0 <= b <= 32 -> 2 ^ (32 - b) * 2 ^ b = 2 ^ 32.
  Proof. intros H. rewrite <- Z.pow_add_r by lia. f_equal. lia. Qed.

Lemma netLong_first (c : Cidr) : wf c -> netLong c = first_address c.
  Proof. intros W. unfold netLong, first_address. apply land_mask; [exact W|apply W]. Qed.

Lemma lastLong_last (c : Cidr) : wf c -> lastLong c = last_address c.
  Proof.
    intros W. unfold lastLong, last_address, size. now rewrite netLong_first.
  Qed.

Lemma block_bounds (c : Cidr) :
    wf c -> 0 <= first_address c <= last_address c /\ last_address c < 2 ^ 32.
  Proof.
    intros [Hi Hb]. unfold last_address, first_address.
    pose proof (pow_split (bits c) Hb) as P.
    assert (0 < 2 ^ (32 - bits c)) by (apply Z.pow_pos_nonneg; lia).
    assert (0 < 2 ^ bits c) by (apply Z.pow_pos_nonneg; lia).
    set (p := 2 ^ (32 - bits c)) in *.
    pose proof (Z.div_mod (ip c) p ltac:(lia)).
    pose proof (Z.mod_pos_bound (ip c) p ltac:(lia)).
    assert (ip c / p < 2 ^ bits c) by (apply Z.div_lt_upper_bound; lia).
    nia.
  Qed.

Lemma contains_ip_spec (net : Cidr) (a : Z) :
    wf net -> 0 <= a < 2 ^ 32 ->
    contains_ip net a = true <-> first_address net <= a <= last_address net.
  Proof.
    intros W Ha. unfold contains_ip, netLong.
    rewrite <- Z.land_assoc, Z.land_diag, Z.eqb_eq.
    rewrite !land_mask by (try exact W; try exact Ha; apply W).
    unfold last_address, first_address.
    destruct W as [Hi Hb].
    assert (0 < 2 ^ (32 - bits net)) by (apply Z.pow_pos_nonneg; lia).
    set (p := 2 ^ (32 - bits net)) in *.
    pose proof (Z.div_mod (ip net) p ltac:(lia)).
    pose proof (Z.mod_pos_bound (ip net) p ltac:(lia)).
    pose proof (Z.div_mod a p ltac:(lia)).
    pose proof (Z.mod_pos_bound a p ltac:(lia)).
    split; intros E; [nia|].
    f_equal. nia.
  Qed.

Lemma contains_inside (net c : Cidr) :
    wf net -> wf c -> contains net c = true <-> inside c net.
  Proof.
    intros Wn Wc. unfold contains.
    pose proof (block_bounds c Wc) as Bc.
    rewrite andb_true_iff, netLong_first, lastLong_last by assumption.
    rewrite !contains_ip_spec by (try assumption; lia).
    unfold inside. split.
    - intros [F L] a Ha. lia.
    - intros I. split; apply I; lia.
  Qed.

End NetmaskFacts.

(** ** The subnet classifier (claim C2) *)

Lemma private_ranges_wf :
  Netmask.wf privateA /\ Netmask.wf privateB /\ Netmask.wf privateC.
Proof. unfold Netmask.wf; cbn; lia. Qed.

Lemma make_valid (d : Netmask.Destination) :
  Netmask.valid d ->
  exists c, d = Netmask.Block c /\ Netmask.wf c /\ Netmask.make d = inr c.
Proof.
  intros [c [-> W]]. exists c. split; [reflexivity|]. split; [exact W|].
  unfold Netmask.make. destruct W as [_ [_ B]].
  apply Z.leb_le in B. now rewrite B.
Qed.

Lemma isPrivateCIDRBlock_block (c : Netmask.Cidr) :
  Netmask.wf c ->
  isPrivateCIDRBlock (Netmask.Block c)
  = inr (Netmask.contains privateA c
         || Netmask.contains privateB c
         || Netmask.contains privateC c)%bool.
Proof.
  intros W. unfold isPrivateCIDRBlock.
  destruct (make_valid (Netmask.Block c)) as [c' [E [_ M]]].
  - exists c. now split.
  - injection E as <-. now rewrite M.
Qed.

Lemma isPrivateCIDRBlock_inside (c : Netmask.Cidr) :
  Netmask.wf c ->
  isPrivateCIDRBlock (Netmask.Block c) = inr true <->
  Netmask.inside c privateA \/ Netmask.inside c privateB
  \/ Netmask.inside c privateC.
Proof.
  intros W. destruct private_ranges_wf as [WA [WB WC]].
  rewrite isPrivateCIDRBlock_block by exact W.
  rewrite <- !contains_inside by assumption.
  destruct (Netmask.contains privateA c), (Netmask.contains privateB c),
    (Netmask.contains privateC c); cbn [orb];
    intuition congruence.
Qed.

Lemma isPrivateCIDRBlock_outside (c : Netmask.Cidr) :
  Netmask.wf c ->
  isPrivateCIDRBlock (Netmask.Block c) = inr false <->
  outside_private (Netmask.Block c).
Proof.
  intros W. pose proof (isPrivateCIDRBlock_inside c W) as I.
  pose proof (isPrivateCIDRBlock_block c W) as B.
  unfold outside_private. split.
  - intros F. exists c. split; [reflexivity|].
    assert (N : isPrivateCIDRBlock (Netmask.Block c) <> inr true)
      by (rewrite F; discriminate).
    tauto.
  - intros [c' [[= <-] N]].
    rewrite B in *.
    destruct (_ || _)%bool; [|reflexivity].
    exfalso. assert (T : @inr Error bool true = inr true) by reflexivity.
    apply I in T. tauto.
Qed.

(** The search answers with the first gateway route whose destination
    is outside the private ranges, when the destinations it looks at
    are blocks. *)
Lemma find_route_spec (rs : list Route) :
  (forall r, In r rs -> gatewayId r <> EmptyString ->
             Netmask.valid (cidrBlock r)) ->
  (exists r, find_route rs = inr (Some r) /\ In r rs /\ gateway_route r)
  \/ (find_route rs = inr None /\ forall r, In r rs -> ~ gateway_route r).
Proof.
  induction rs as [|r rest IH]; intros V.
  - right. split; [reflexivity|]. intros r [].
  - assert (V' : forall r', In r' rest -> gatewayId r' <> EmptyString ->
                            Netmask.valid (cidrBlock r'))
      by (intros r' I; apply V; now right).
    specialize (IH V'). cbn [find_route].
    destruct (gatewayId r) as [|ch g] eqn:G; cbn [Js.truthy].
    + destruct IH as [[r' [F [I P]]]|[F N]].
      * left. exists r'. split; [exact F|]. split; [now right|exact P].
      * right. split; [exact F|]. intros r' [<-|I]; [|now apply N].
        intros [Q _]. now apply Q.
    + destruct (V r (or_introl eq_refl)) as [c [E W]];
        [rewrite G; discriminate|].
      rewrite E.
      destruct (isPrivateCIDRBlock (Netmask.Block c)) as [e|[|]] eqn:P.
      * rewrite isPrivateCIDRBlock_block in P by exact W. discriminate.
      * destruct IH as [[r' [F [I Q]]]|[F N]].
        -- left. exists r'. split; [exact F|]. split; [now right|exact Q].
        -- right. split; [exact F|]. intros r' [<-|I]; [|now apply N].
           intros [_ Q]. rewrite E in Q.
           apply isPrivateCIDRBlock_outside in Q; [congruence|exact W].
      * left. exists r. split; [reflexivity|]. split; [now left|].
        split; [rewrite G; discriminate|]. rewrite E.
        now apply isPrivateCIDRBlock_outside.
Qed.

Lemma hasInternetGatewayRoute_spec (rt : RouteTable) :
  readable rt ->
  hasInternetGatewayRoute rt = inr (publicTable rt)
  /\ (publicTable rt = true <-> has_gateway_route rt).
Proof.
  intros R. unfold publicTable, hasInternetGatewayRoute, has_gateway_route.
  destruct (find_route_spec (routes rt) R) as [[r [F [I P]]]|[F N]];
    rewrite F; (split; [reflexivity|]).
  - split; [intros _; now exists r|reflexivity].
  - split; [discriminate|]. intros [r [I P]]. exfalso. exact (N r I P).
Qed.


Lemma classify_spec (aws : Aws) (tables : string -> RouteTable) (ids : list string) :
  (forall id, In id ids -> getRouteTableAsync aws id = inr (tables id)) ->
  (forall id, In id ids ->
     hasInternetGatewayRoute (tables id) = inr (publicTable (tables id))) ->
  forall pub priv,
    classify aws ids pub priv =
    inr (pub ++ filter (fun id => publicTable (tables id)) ids,
         priv ++ filter (fun id => negb (publicTable (tables id))) ids)%list.
Proof.
  induction ids as [|id rest IH]; intros L R pub priv; simpl.
  - now rewrite !app_nil_r.
  - rewrite (L id (or_introl eq_refl)), (R id (or_introl eq_refl)).
    destruct (publicTable (tables id)); simpl;
      rewrite IH by (intros; (apply L || apply R); now right);
      rewrite <- ?app_assoc; reflexivity.
Qed.

Lemma filter_all {A : Type} (f : A -> bool) (l : list A) :
  (forall x, In x l -> f x = true) -> filter f l = l.
Proof.
  induction l as [|x l IH]; intros H; simpl; [reflexivity|].
  rewrite (H x (or_introl eq_refl)). f_equal. apply IH.
  intros; apply H; now right.
Qed.






(** ** The synchronous checks of the self-managed provisioners *)

(** The world after the two leading [core.apply] callbacks: nothing is
    registered, and the rejections of the callbacks are noted. *)
Lemma settle_registered {A : Type} (o : Output A) (w : World) :
  fst (settle o w) = inr o /\ registered (snd (settle o w)) = registered w.
Proof. unfold settle; destruct o; split; reflexivity. Qed.

Lemma checkExclusive_errors (args : NodeGroupOptions) (e : Error) :
  checkExclusive args = inl e ->
  In e [PublicKeyKeyNameExclusive; AmiIdGpuExclusive; UserDataOverrideExclusive].
Proof.
  unfold checkExclusive, andThen, check.
  destruct (_ && _)%bool; [intros [= <-]; simpl; auto|].
  destruct (_ && _)%bool; [intros [= <-]; simpl; auto|].
  destruct (overrideConflict args); [intros [= <-]; simpl; auto|discriminate].
Qed.

(** A throw of the opening checks leaves the call before anything is
    registered. *)
Lemma v1_throws_early (aws : Aws) (name : string) (args : NodeGroupOptions)
      (core : CoreData) (e : Error) :
  checkExclusive args = inl e ->
  fst (createNodeGroupInternal aws name args core start) = inl e
  /\ registered (snd (createNodeGroupInternal aws name args core start)) = [].
Proof.
  intros H. unfold createNodeGroupInternal, bind, lift, settle. rewrite H.
  destruct (resolveInstanceProfile args core),
           (checkNodeSecurityGroupTags args core); split; reflexivity.
Qed.

Lemma v2_throws_early (aws : Aws) (name : string) (args : NodeGroupOptions)
      (core : CoreData) (e : Error) :
  checkExclusive args = inl e ->
  fst (createNodeGroupV2Internal aws name args core start) = inl e
  /\ registered (snd (createNodeGroupV2Internal aws name args core start)) = [].
Proof.
  intros H. unfold createNodeGroupV2Internal, bind, lift, settle. rewrite H.
  destruct (Output_map profile_arn (resolveInstanceProfile args core)),
           (checkNodeSecurityGroupTags args core); split; reflexivity.
Qed.

(** ** Numbers and the pattern of the volume checks *)

Lemma to_uint_not_nil (n : N) : N.to_uint n <> Decimal.Nil.
Proof.
  destruct n as [|p]; [discriminate|].
  apply DecimalPos.Unsigned.to_uint_nonnil.
Qed.

Lemma all_d_string_of_N (n : N) (rest : string) :
  Js.all_d (Js.string_of_N n ++ rest) = false.
Proof.
  unfold Js.string_of_N. pose proof (to_uint_not_nil n) as NN.
  destruct (N.to_uint n); [congruence| | | | | | | | | | ]; reflexivity.
Qed.

Lemma all_d_string_of_N_alone (n : N) : Js.all_d (Js.string_of_N n) = false.
Proof.
  unfold Js.string_of_N. pose proof (to_uint_not_nil n) as NN.
  destruct (N.to_uint n); [congruence| | | | | | | | | | ]; reflexivity.
Qed.

(** No number prints as a run of the letter [d]. *)
Lemma numeric_test_toString (n : Js.Number) :
  Js.numeric_test (Js.toString n) = false.
Proof.
  unfold Js.numeric_test. apply andb_false_iff. right.
  destruct n as [z|neg w k d| |neg]; simpl.
  - destruct (Z.ltb z 0); simpl; [reflexivity|apply all_d_string_of_N_alone].
  - destruct neg; simpl; [reflexivity|apply all_d_string_of_N].
  - reflexivity.
  - destruct neg; reflexivity.
Qed.

(** ** What a self-managed call does up to its first failure *)

Lemma validateRootVolume_errors (args : NodeGroupOptions) (e : Error) :
  validateRootVolume args = inl e -> is_volume_error e = true.
Proof.
  unfold validateRootVolume, andThen, check.
  repeat (destruct (_ && _)%bool; [intros [= <-]; reflexivity|]).
  discriminate.
Qed.

Lemma v1_outcome (aws : Aws) (name : string) (args : NodeGroupOptions)
      (core : CoreData) :
  let r := createNodeGroupInternal aws name args core start in
  match sync_checks name args with
  | inl e =>
      fst r = inl e
      /\ registered (snd r) =
         if is_volume_error e then early_events name args core else []
  | inr _ =>
      exists d lc st,
        fst r = inr d
        /\ registered (snd r) =
           (early_events name args core
            ++ [NewLaunchConfiguration (name ++ "-nodeLaunchConfiguration") lc;
                NewStack (name ++ "-nodes") st])%list
        /\ lc_userData lc =
           (if Js.truthy_opt (nodeUserDataOverride args)
            then Js.nullish (nodeUserDataOverride args) EmptyString
            else userdata_v1 aws args core
                   (randomSuffix aws (name ++ "-cfnStackName") name))
        /\ DesiredCapacity (templateBody st)
           = Js.nullish (desiredCapacity args) (Js.Int 2)
        /\ MinSize (templateBody st) = Js.nullish (minSize args) (Js.Int 1)
        /\ MaxSize (templateBody st) = Js.nullish (maxSize args) (Js.Int 2)
        /\ MinInstancesInService (templateBody st)
           = minInstancesInService_of args
        /\ VPCZoneIdentifier (templateBody st)
           = resolveWorkerSubnets aws args core
  end.
Proof.
  cbv zeta. run_sync.
  destruct (checkExclusive args) as [e|[]] eqn:X.
  - pose proof (checkExclusive_errors args e X) as I.
    destruct (resolveInstanceProfile args core),
      (checkNodeSecurityGroupTags args core); simpl;
      (split; [reflexivity|]);
      destruct I as [<-|[<-|[<-|[]]]]; reflexivity.
  - destruct (nodeSecurityGroup args) as [sg|] eqn:SG;
      destruct (clusterIngressRule args) as [rule|] eqn:CR;
      destruct (resolveInstanceProfile args core) as [pe|prof] eqn:IP;
      destruct (checkNodeSecurityGroupTags args core) as [te|[]] eqn:NT;
      cbn [Js.defined negb andb fst snd registered rejected app];
      try (split; reflexivity);
      destruct (Js.truthy_opt (nodePublicKey args)) eqn:PK;
      cbn [fst snd registered rejected app];
      (destruct (validateRootVolume args) as [ve|[]] eqn:V;
       [ cbn [fst snd registered rejected app]; split; [reflexivity|];
         rewrite (validateRootVolume_errors args ve V); reflexivity
       | unfold resolveWorkerSubnets;
         destruct (nodeSubnetIds args) as [ids|];
         [|destruct (privateSubnetIds core) as [pr|];
           [|destruct (publicSubnetIds core) as [pb|];
             [|destruct (computeWorkerSubnets aws (subnetIds core))]]];
         destruct (Js.lookup "NodeGroup" _);
         cbn [fst snd registered rejected app];
         do 3 eexists; repeat split; reflexivity ]).
Qed.

Lemma v2_outcome (aws : Aws) (name : string) (args : NodeGroupOptions)
      (core : CoreData) :
  let r := createNodeGroupV2Internal aws name args core start in
  match sync_checks name args with
  | inl e =>
      fst r = inl e
      /\ registered (snd r) =
         if is_volume_error e then early_events name args core else []
  | inr _ =>
      exists d lt g,
        fst r = inr d
        /\ registered (snd r) =
           (early_events name args core
            ++ [NewLaunchTemplate (name ++ "-launchTemplate") lt;
                NewAutoscalingGroup name g])%list
        /\ lt_userData lt = userdata_v2 args core name
        /\ asg_desiredCapacity g = Js.nullish (desiredCapacity args) (Js.Int 2)
        /\ asg_minSize g = Js.nullish (minSize args) (Js.Int 1)
        /\ asg_maxSize g = Js.nullish (maxSize args) (Js.Int 2)
        /\ asg_vpcZoneIdentifiers g = resolveWorkerSubnets aws args core
  end.
Proof.
  cbv zeta. run_sync.
  destruct (checkExclusive args) as [e|[]] eqn:X.
  - pose proof (checkExclusive_errors args e X) as I.
    destruct (Output_map profile_arn (resolveInstanceProfile args core)),
      (checkNodeSecurityGroupTags args core); simpl;
      (split; [reflexivity|]);
      destruct I as [<-|[<-|[<-|[]]]]; reflexivity.
  - destruct (nodeSecurityGroup args) as [sg|] eqn:SG;
      destruct (clusterIngressRule args) as [rule|] eqn:CR;
      destruct (Output_map profile_arn (resolveInstanceProfile args core))
        as [pe|prof] eqn:IP;
      destruct (checkNodeSecurityGroupTags args core) as [te|[]] eqn:NT;
      cbn [Js.defined negb andb fst snd registered rejected app];
      try (split; reflexivity);
      destruct (Js.truthy_opt (nodePublicKey args)) eqn:PK;
      cbn [fst snd registered rejected app];
      (destruct (validateRootVolume args) as [ve|[]] eqn:V;
       [ cbn [fst snd registered rejected app]; split; [reflexivity|];
         rewrite (validateRootVolume_errors args ve V); reflexivity
       | unfold resolveWorkerSubnets;
         destruct (nodeSubnetIds args) as [ids|];
         [|destruct (privateSubnetIds core) as [pr|];
           [|destruct (publicSubnetIds core) as [pb|];
             [|destruct (computeWorkerSubnets aws (subnetIds core))]]];
         cbn [fst snd registered rejected app];
         do 3 eexists; repeat split; reflexivity ]).
Qed.

(** ** The user-data override with other bootstrap options (claim C5) *)

(** C5.  When [nodeUserDataOverride] is set (a string that is not
    empty) together with [nodeUserData], [labels], [taints],
    [kubeletExtraArgs] or [bootstrapExtraArgs], both self-managed
    provisioners throw one of the three mutual-exclusion errors before
    any resource is registered, and it is the override error unless the
    key or the AMI exclusion fires first. *)
Theorem C5_override_conflict
        (aws : Aws) (name : string) (args : NodeGroupOptions) (core : CoreData) :
  Js.truthy_opt (nodeUserDataOverride args) = true ->
  (Js.truthy_opt (nodeUserData args) = true
   \/ labels args <> None
   \/ taints args <> None
   \/ Js.truthy_opt (kubeletExtraArgs args) = true
   \/ Js.truthy_opt (bootstrapExtraArgs args) = true) ->
  exists e,
    In e [PublicKeyKeyNameExclusive; AmiIdGpuExclusive; UserDataOverrideExclusive]
    /\ createNodeGroupInternal aws name args core start
       = (inl e, snd (createNodeGroupInternal aws name args core start))
    /\ registered (snd (createNodeGroupInternal aws name args core start)) = []
    /\ createNodeGroupV2Internal aws name args core start
       = (inl e, snd (createNodeGroupV2Internal aws name args core start))
    /\ registered (snd (createNodeGroupV2Internal aws name args core start)) = []
    /\ ((Js.truthy_opt (nodePublicKey args) && Js.truthy_opt (keyName args))%bool
        = false ->
        (Js.truthy_opt (amiId args) && Js.truthy_bool (gpu args))%bool = false ->
        e = UserDataOverrideExclusive).
Proof.
  intros O Any.
  assert (C : overrideConflict args = true).
  { unfold overrideConflict. rewrite O. simpl.
    destruct Any as [H|[H|[H|[H|H]]]].
    - now rewrite H.
    - destruct (labels args); [|congruence]. simpl. now rewrite orb_true_r.
    - destruct (taints args); [|congruence]. simpl.
      now rewrite !orb_true_r.
    - rewrite H. now rewrite !orb_true_r.
    - rewrite H. now rewrite !orb_true_r. }
  assert (X : exists e, checkExclusive args = inl e
                        /\ ((Js.truthy_opt (nodePublicKey args)
                             && Js.truthy_opt (keyName args))%bool = false ->
                            (Js.truthy_opt (amiId args)
                             && Js.truthy_bool (gpu args))%bool = false ->
                            e = UserDataOverrideExclusive)).
  { unfold checkExclusive, andThen, check. rewrite C.
    destruct (_ && _)%bool; [eexists; split; [reflexivity|discriminate]|].
    destruct (_ && _)%bool; [eexists; split; [reflexivity|discriminate]|].
    eexists; split; reflexivity. }
  destruct X as [e [E U]]. exists e.
  destruct (v1_throws_early aws name args core e E) as [F1 R1].
  destruct (v2_throws_early aws name args core e E) as [F2 R2].
  split; [exact (checkExclusive_errors args e E)|].
  split; [rewrite <- F1; apply surjective_pairing|].
  split; [exact R1|].
  split; [rewrite <- F2; apply surjective_pairing|].
  split; [exact R2|exact U].
Qed.

Lemma C5_override_conflict_witness :
  Js.truthy_opt (nodeUserDataOverride Sample.override_and_labels) = true
  /\ labels Sample.override_and_labels <> None
  /\ fst (createNodeGroupInternal Sample.aws "ng" Sample.override_and_labels
                                  Sample.core start)
     = inl UserDataOverrideExclusive.
Proof.
  assert (O : Js.truthy_opt (nodeUserDataOverride Sample.override_and_labels)
              = true) by reflexivity.
  assert (L : labels Sample.override_and_labels <> None) by discriminate.
  split; [exact O|]. split; [exact L|].
  pose proof (C5_override_conflict Sample.aws "ng" Sample.override_and_labels
                Sample.core O (or_intror (or_introl L))) as X.
  destruct X as [e [_ [R [_ [_ [_ U]]]]]].
  rewrite R. cbn [fst]. f_equal. apply U; reflexivity.
Defined.

(** ** Consequences for the claims on the root volume (claim C3) *)

Lemma early_events_early (name : string) (args : NodeGroupOptions) (c : CoreData)
      (ev : Event) :
  In ev (early_events name args c) -> is_early_event ev = true.
Proof.
  unfold early_events. intros I. apply in_app_or in I.
  destruct (Js.defined (nodeSecurityGroup args)),
           (Js.truthy_opt (nodePublicKey args));
    simpl in I; intuition (subst; reflexivity).
Qed.

Lemma sync_checks_ok (name : string) (args : NodeGroupOptions) :
  checkExclusive args = inr tt ->
  (nodeSecurityGroup args = None \/ clusterIngressRule args <> None) ->
  validateRootVolume args = inr tt ->
  sync_checks name args = inr tt.
Proof.
  intros X G V. unfold sync_checks. rewrite X, V. unfold andThen, check.
  destruct G as [->|G]; [reflexivity|].
  destruct (clusterIngressRule args); [|congruence].
  now rewrite andb_false_r.
Qed.

(** The call throws exactly the first error of the synchronous checks. *)
Lemma v1_throws (aws : Aws) (name : string) (args : NodeGroupOptions)
      (core : CoreData) (e : Error) :
  fst (createNodeGroupInternal aws name args core start) = inl e
  <-> sync_checks name args = inl e.
Proof.
  pose proof (v1_outcome aws name args core) as O. cbv zeta in O.
  destruct (sync_checks name args) as [e'|[]].
  - destruct O as [F _]. rewrite F. split; congruence.
  - destruct O as [d [lc [st [F _]]]]. rewrite F. split; discriminate.
Qed.

Lemma v2_throws (aws : Aws) (name : string) (args : NodeGroupOptions)
      (core : CoreData) (e : Error) :
  fst (createNodeGroupV2Internal aws name args core start) = inl e
  <-> sync_checks name args = inl e.
Proof.
  pose proof (v2_outcome aws name args core) as O. cbv zeta in O.
  destruct (sync_checks name args) as [e'|[]].
  - destruct O as [F _]. rewrite F. split; congruence.
  - destruct O as [d [lc [st [F _]]]]. rewrite F. split; discriminate.
Qed.

Lemma sync_checks_volume (name : string) (args : NodeGroupOptions) (e : Error) :
  validateRootVolume args = inl e ->
  exists e', sync_checks name args = inl e'
             /\ (e' = e
                 \/ In e' [PublicKeyKeyNameExclusive; AmiIdGpuExclusive;
                           UserDataOverrideExclusive;
                           ClusterIngressRuleRequired name]).
Proof.
  intros V. unfold sync_checks.
  destruct (checkExclusive args) as [x|[]] eqn:X.
  - exists x. split; [reflexivity|]. right.
    pose proof (checkExclusive_errors args x X) as I. simpl in *. tauto.
  - unfold andThen, check.
    destruct (_ && _)%bool.
    + eexists. split; [reflexivity|]. right. simpl. tauto.
    + exists e. split; [exact V|now left].
Qed.

(** C3, as the code has it.  The checks on the root volume throw when
    [nodeRootVolumeIops] is set (a number other than [0] and [NaN])
    with a volume type other than [io1], and when it is set on [io1]
    with a value that is not an integer; they throw likewise for
    [nodeRootVolumeThroughput] and [gp3].  A volume of type [io1]
    without IOPS, or of type [gp3] without throughput, passes them.
    Whenever they throw, both self-managed provisioners throw: that
    error, or the error of a check that comes earlier. *)
Theorem C3_root_volume_rules
        (aws : Aws) (name : string) (args : NodeGroupOptions) (core : CoreData) :
  (Js.truthy_num_opt (nodeRootVolumeIops args) = true ->
   type_is (nodeRootVolumeType args) io1 = false ->
   validateRootVolume args = inl IopsOnNonIo1)
  /\ (forall n, nodeRootVolumeIops args = Some n ->
                Js.truthy_num n = true -> Js.is_integer n = false ->
                nodeRootVolumeType args = Some io1 ->
                validateRootVolume args = inl IopsNotInteger)
  /\ (Js.truthy_num_opt (nodeRootVolumeThroughput args) = true ->
      type_is (nodeRootVolumeType args) gp3 = false ->
      exists e, validateRootVolume args = inl e
                /\ (Js.truthy_num_opt (nodeRootVolumeIops args) = false ->
                    e = ThroughputOnNonGp3))
  /\ (forall n, nodeRootVolumeThroughput args = Some n ->
                Js.truthy_num n = true -> Js.is_integer n = false ->
                nodeRootVolumeType args = Some gp3 ->
                exists e, validateRootVolume args = inl e
                          /\ (Js.truthy_num_opt (nodeRootVolumeIops args) = false ->
                              e = ThroughputNotInteger))
  /\ (nodeRootVolumeType args = Some io1 ->
      Js.truthy_num_opt (nodeRootVolumeIops args) = false ->
      Js.truthy_num_opt (nodeRootVolumeThroughput args) = false ->
      validateRootVolume args = inr tt)
  /\ (nodeRootVolumeType args = Some gp3 ->
      Js.truthy_num_opt (nodeRootVolumeIops args) = false ->
      Js.truthy_num_opt (nodeRootVolumeThroughput args) = false ->
      validateRootVolume args = inr tt)
  /\ (forall e, validateRootVolume args = inl e ->
        exists e',
          fst (createNodeGroupInternal aws name args core start) = inl e'
          /\ fst (createNodeGroupV2Internal aws name args core start) = inl e'
          /\ (e' = e
              \/ In e' [PublicKeyKeyNameExclusive; AmiIdGpuExclusive;
                        UserDataOverrideExclusive;
                        ClusterIngressRuleRequired name])).
Proof.
  unfold validateRootVolume, andThen, check.
  repeat split.
  - intros I T. now rewrite I, T.
  - intros n I T _ Y. rewrite I, Y. simpl. rewrite T. simpl.
    now rewrite numeric_test_toString.
  - intros H T. rewrite H, T. simpl.
    destruct (Js.truthy_num_opt (nodeRootVolumeIops args)) eqn:I.
    + destruct (type_is (nodeRootVolumeType args) io1) eqn:Y; simpl.
      * destruct (nodeRootVolumeIops args) as [n|]; [|discriminate].
        simpl. rewrite numeric_test_toString. simpl.
        eexists; split; [reflexivity|discriminate].
      * eexists; split; [reflexivity|discriminate].
    + simpl. rewrite andb_false_r. simpl. eexists; split; reflexivity.
  - intros n H T _ Y. rewrite H, Y. simpl. rewrite T. simpl.
    rewrite numeric_test_toString. simpl.
    destruct (Js.truthy_num_opt (nodeRootVolumeIops args)) eqn:I; simpl.
    + eexists; split; [reflexivity|discriminate].
    + eexists; split; reflexivity.
  - intros Y I H. rewrite Y, I, H. reflexivity.
  - intros Y I H. rewrite Y, I, H. reflexivity.
  - intros e V.
    destruct (sync_checks_volume name args e V) as [e' [S D]].
    exists e'. split; [now apply v1_throws|]. split; [now apply v2_throws|].
    exact D.
Qed.

Lemma C3_root_volume_rules_witness :
  (Js.truthy_num_opt (nodeRootVolumeIops Sample.key_and_iops) = true
   /\ type_is (nodeRootVolumeType Sample.key_and_iops) io1 = false
   /\ validateRootVolume Sample.key_and_iops = inl IopsOnNonIo1)
  /\ (nodeRootVolumeIops Sample.fractional_iops = Some (Js.Frac false 100 0 5)
      /\ nodeRootVolumeType Sample.fractional_iops = Some io1
      /\ validateRootVolume Sample.fractional_iops = inl IopsNotInteger)
  /\ fst (createNodeGroupInternal Sample.aws "ng" Sample.fractional_iops
                                  Sample.core start)
     = inl IopsNotInteger.
Proof.
  pose proof (C3_root_volume_rules Sample.aws "ng" Sample.key_and_iops
                Sample.core) as [A _].
  pose proof (C3_root_volume_rules Sample.aws "ng" Sample.fractional_iops
                Sample.core) as [_ [B [_ [_ [_ [_ P]]]]]].
  assert (V : validateRootVolume Sample.fractional_iops = inl IopsNotInteger)
    by (apply (B (Js.Frac false 100 0 5)); reflexivity).
  split; [|split].
  - split; [reflexivity|]. split; [reflexivity|]. apply A; reflexivity.
  - split; [reflexivity|]. split; [reflexivity|exact V].
  - destruct (P IopsNotInteger V) as [e [F [_ [->|I]]]]; [exact F|].
    exfalso. apply (v1_throws Sample.aws "ng" Sample.fractional_iops
                      Sample.core e) in F.
    assert (S : sync_checks "ng" Sample.fractional_iops = inl IopsNotInteger)
      by reflexivity.
    rewrite S in F. injection F as <-.
    cbn [In] in I. intuition discriminate.
Defined.

(** C3 as stated fails: a volume of type [io1] without provisioned
    IOPS passes the checks and the fleet is provisioned. *)
Lemma C3_io1_without_iops_counterexample :
  nodeRootVolumeType Sample.io1_without_iops = Some io1
  /\ nodeRootVolumeIops Sample.io1_without_iops = None
  /\ validateRootVolume Sample.io1_without_iops = inr tt
  /\ failed (createNodeGroupInternal Sample.aws "ng" Sample.io1_without_iops
                                     Sample.core start) = false
  /\ failed (createNodeGroupV2Internal Sample.aws "ng" Sample.io1_without_iops
                                       Sample.core start) = false.
Proof. repeat split; vm_compute; reflexivity. Qed.

(** ** Validation and the order of registrations (claim C9) *)

(** C9 as stated fails: with a public key and provisioned IOPS on a
    [gp2] volume both provisioners throw the IOPS error after the key
    pair has been registered (and, when no security group is supplied,
    after the security group and its ingress rule as well). *)
Lemma C9_registers_before_volume_checks_counterexample :
  validateRootVolume Sample.key_and_iops_own_group = inl IopsOnNonIo1
  /\ createNodeGroupInternal Sample.aws "ng" Sample.key_and_iops_own_group
                             Sample.core start
     = (inl IopsOnNonIo1,
        {| registered := [NewKeyPair "ng-keyPair" "ssh-rsa AAAA"];
           rejected := [] |})
  /\ createNodeGroupV2Internal Sample.aws "ng" Sample.key_and_iops_own_group
                               Sample.core start
     = (inl IopsOnNonIo1,
        {| registered := [NewKeyPair "ng-keyPair" "ssh-rsa AAAA"];
           rejected := [] |})
  /\ registered (snd (createNodeGroupInternal Sample.aws "ng"
                        Sample.key_and_iops Sample.core start))
     = [NewSecurityGroup "ng-nodeSecurityGroup" "vpc-1" [];
        NewSecurityGroupRule "ng-eksClusterIngressRule";
        NewKeyPair "ng-keyPair" "ssh-rsa AAAA"].
Proof. repeat split; vm_compute; reflexivity. Qed.

(** C9, as the code has it.  When a self-managed provisioner throws:
    an error of the mutual exclusions or of the missing ingress rule
    comes before any registration; an error of the root-volume checks
    comes after the security group with its ingress rule (unless a
    group is supplied) and the key pair (when a public key is given)
    have been registered; in neither case has a launch configuration, a
    launch template, a stack or an autoscaling group been registered. *)
Theorem C9_throw_before_fleet_resources
        (aws : Aws) (name : string) (args : NodeGroupOptions) (core : CoreData)
        (e : Error) :
  (fst (createNodeGroupInternal aws name args core start) = inl e ->
   registered (snd (createNodeGroupInternal aws name args core start))
   = (if is_volume_error e then early_events name args core else [])
   /\ forallb is_early_event
        (registered (snd (createNodeGroupInternal aws name args core start)))
      = true)
  /\ (fst (createNodeGroupV2Internal aws name args core start) = inl e ->
      registered (snd (createNodeGroupV2Internal aws name args core start))
      = (if is_volume_error e then early_events name args core else [])
      /\ forallb is_early_event
           (registered (snd (createNodeGroupV2Internal aws name args core start)))
         = true).
Proof.
  assert (E : forallb is_early_event
                (if is_volume_error e then early_events name args core else [])
              = true).
  { destruct (is_volume_error e); [|reflexivity].
    apply forallb_forall. intros ev. apply early_events_early. }
  split; intros F.
  - pose proof (v1_outcome aws name args core) as O. cbv zeta in O.
    apply v1_throws in F. rewrite F in O. destruct O as [_ R].
    rewrite R. split; [reflexivity|exact E].
  - pose proof (v2_outcome aws name args core) as O. cbv zeta in O.
    apply v2_throws in F. rewrite F in O. destruct O as [_ R].
    rewrite R. split; [reflexivity|exact E].
Qed.

Lemma C9_throw_before_fleet_resources_witness :
  fst (createNodeGroupInternal Sample.aws "ng" Sample.override_and_labels
                               Sample.core start)
  = inl UserDataOverrideExclusive
  /\ registered (snd (createNodeGroupInternal Sample.aws "ng"
                        Sample.override_and_labels Sample.core start)) = [].
Proof.
  assert (F : fst (createNodeGroupInternal Sample.aws "ng"
                     Sample.override_and_labels Sample.core start)
              = inl UserDataOverrideExclusive) by (vm_compute; reflexivity).
  split; [exact F|].
  exact (proj1 (proj1 (C9_throw_before_fleet_resources Sample.aws "ng"
                         Sample.override_and_labels Sample.core
                         UserDataOverrideExclusive) F)).
Defined.

(** ** Capacity defaults (claim C6) *)

(** C6.  With [desiredCapacity], [minSize] and [maxSize] unset and no
    synchronous check throwing, the legacy provisioner registers its
    stack with a template of desired capacity 2, minimum 1, maximum 2
    and a rolling update that keeps 0 instances in service when a spot
    price is set and 1 otherwise; the template-based provisioner
    registers its group with the same three sizes. *)
Theorem C6_capacity_defaults
        (aws : Aws) (name : string) (args : NodeGroupOptions) (core : CoreData) :
  desiredCapacity args = None -> minSize args = None -> maxSize args = None ->
  checkExclusive args = inr tt ->
  (nodeSecurityGroup args = None \/ clusterIngressRule args <> None) ->
  validateRootVolume args = inr tt ->
  (exists d st,
      fst (createNodeGroupInternal aws name args core start) = inr d
      /\ In (NewStack (name ++ "-nodes") st)
            (registered (snd (createNodeGroupInternal aws name args core start)))
      /\ DesiredCapacity (templateBody st) = Js.Int 2
      /\ MinSize (templateBody st) = Js.Int 1
      /\ MaxSize (templateBody st) = Js.Int 2
      /\ MinInstancesInService (templateBody st)
         = (if Js.truthy_opt (spotPrice args) then 0 else 1)%Z)
  /\ (exists d g,
         fst (createNodeGroupV2Internal aws name args core start) = inr d
         /\ In (NewAutoscalingGroup name g)
               (registered (snd (createNodeGroupV2Internal aws name args core start)))
         /\ asg_desiredCapacity g = Js.Int 2
         /\ asg_minSize g = Js.Int 1
         /\ asg_maxSize g = Js.Int 2).
Proof.
  intros D Mi Ma X G V.
  pose proof (sync_checks_ok name args X G V) as S.
  split.
  - pose proof (v1_outcome aws name args core) as O. cbv zeta in O.
    rewrite S in O.
    destruct O as [d [lc [st [F [R [_ [HD [HMi [HMa [HS _]]]]]]]]]].
    exists d, st. rewrite D in HD. rewrite Mi in HMi. rewrite Ma in HMa.
    split; [exact F|]. split.
    { rewrite R. apply in_or_app. right. right. left. reflexivity. }
    repeat split; assumption.
  - pose proof (v2_outcome aws name args core) as O. cbv zeta in O.
    rewrite S in O.
    destruct O as [d [lt [g [F [R [_ [HD [HMi [HMa _]]]]]]]]].
    exists d, g. rewrite D in HD. rewrite Mi in HMi. rewrite Ma in HMa.
    split; [exact F|]. split.
    { rewrite R. apply in_or_app. right. right. left. reflexivity. }
    repeat split; assumption.
Qed.

(** The scenario of the specification: nothing but a spot price. *)
Lemma C6_capacity_defaults_witness :
  exists d st,
    fst (createNodeGroupInternal Sample.aws "ng" Sample.spot Sample.core start)
    = inr d
    /\ In (NewStack "ng-nodes" st)
          (registered (snd (createNodeGroupInternal Sample.aws "ng" Sample.spot
                                                    Sample.core start)))
    /\ DesiredCapacity (templateBody st) = Js.Int 2
    /\ MinSize (templateBody st) = Js.Int 1
    /\ MaxSize (templateBody st) = Js.Int 2
    /\ MinInstancesInService (templateBody st) = 0%Z.
Proof.
  exact (proj1 (C6_capacity_defaults Sample.aws "ng" Sample.spot Sample.core
                  eq_refl eq_refl eq_refl eq_refl (or_introl eq_refl) eq_refl)).
Defined.

(** ** The subnets of the workers (claim C8) *)

(** C8.  The worker subnets are the first defined of: the override of
    the node group, the private subnets of the cluster, its public
    subnets; and the classification of all the cluster's subnets when
    none of the three is defined.  When no synchronous check throws,
    this is the subnet list of the stack template of the legacy
    provisioner and of the group of the template-based one. *)
Theorem C8_worker_subnet_priority
        (aws : Aws) (name : string) (args : NodeGroupOptions) (core : CoreData) :
  checkExclusive args = inr tt ->
  (nodeSecurityGroup args = None \/ clusterIngressRule args <> None) ->
  validateRootVolume args = inr tt ->
  let chosen : Output (list string) :=
    first_defined
      [option_map inr (nodeSubnetIds args);
       option_map inr (privateSubnetIds core);
       option_map inr (publicSubnetIds core)]
      (computeWorkerSubnets aws (subnetIds core)) in
  resolveWorkerSubnets aws args core = chosen
  /\ (exists st,
         In (NewStack (name ++ "-nodes") st)
            (registered (snd (createNodeGroupInternal aws name args core start)))
         /\ VPCZoneIdentifier (templateBody st) = chosen)
  /\ (exists g,
         In (NewAutoscalingGroup name g)
            (registered (snd (createNodeGroupV2Internal aws name args core start)))
         /\ asg_vpcZoneIdentifiers g = chosen).
Proof.
  intros X G V chosen.
  pose proof (sync_checks_ok name args X G V) as S.
  assert (C : resolveWorkerSubnets aws args core = chosen).
  { unfold chosen, resolveWorkerSubnets.
    destruct (nodeSubnetIds args), (privateSubnetIds core),
      (publicSubnetIds core); reflexivity. }
  split; [exact C|]. split.
  - pose proof (v1_outcome aws name args core) as O. cbv zeta in O.
    rewrite S in O.
    destruct O as [d [lc [st [_ [R [_ [_ [_ [_ [_ HV]]]]]]]]]].
    exists st. split; [|now rewrite HV].
    rewrite R. apply in_or_app. right. right. left. reflexivity.
  - pose proof (v2_outcome aws name args core) as O. cbv zeta in O.
    rewrite S in O.
    destruct O as [d [lt [g [_ [R [_ [_ [_ [_ HV]]]]]]]]].
    exists g. split; [|now rewrite HV].
    rewrite R. apply in_or_app. right. right. left. reflexivity.
Qed.

(** On the sample cluster neither an override nor private or public
    subnets are defined: the classification decides. *)
Lemma C8_worker_subnet_priority_witness :
  checkExclusive noOptions = inr tt
  /\ validateRootVolume noOptions = inr tt
  /\ resolveWorkerSubnets Sample.aws noOptions Sample.core
     = inr ["subnet-private"].
Proof.
  split; [reflexivity|]. split; [reflexivity|].
  rewrite (proj1 (C8_worker_subnet_priority Sample.aws "ng" noOptions
                    Sample.core eq_refl (or_introl eq_refl) eq_refl)).
  vm_compute. reflexivity.
Defined.

(** ** The empty user-data override (claim C10) *)

Lemma in_tail_pair {A : Type} (P : A -> bool) (early : list A) (a b x : A) :
  (forall y, In y early -> P y = true) -> P x = false ->
  In x (early ++ [a; b]) -> x = a \/ x = b.
Proof.
  intros E N I. apply in_app_or in I. destruct I as [I|[I|[I|[]]]]; auto.
  apply E in I. congruence.
Qed.

(** C10.  With [nodeUserDataOverride] the empty string, the override
    is treated as absent by both provisioners: the mutual-exclusion
    condition is false, and each call does what it does on the same
    options without the override.  The user data of a launch
    configuration (launch template) registered is the generated script
    (its base64 encoding), which is not empty: the interpreter line,
    the call of the bootstrap script with the endpoint, the
    certificate authority and the name of the cluster and the extra
    arguments, the custom user data staged in a heredoc, and for the
    legacy provisioner the signal to the stack.  When no check throws,
    the legacy provisioner registers its launch configuration and the
    template-based one its launch template, with this user data. *)
Theorem C10_empty_override_is_absent
        (aws : Aws) (name : string) (args : NodeGroupOptions) (core : CoreData) :
  nodeUserDataOverride args = Some EmptyString ->
  let stack := randomSuffix aws (name ++ "-cfnStackName") name in
  let bootstrap :=
    "/etc/eks/bootstrap.sh --apiserver-endpoint " ++ Js.dq
    ++ cluster_endpoint (cluster core) ++ Js.dq
    ++ " --b64-cluster-ca " ++ Js.dq ++ certificateAuthority_data (cluster core)
    ++ Js.dq ++ " " ++ Js.dq ++ cluster_name (cluster core) ++ Js.dq
    ++ Bootstrap.bootstrapExtraArgs_of args in
  let staged := fun stackName : string =>
    match nodeUserData args with
    | Some (String c r) =>
        "cat >/opt/user-data <<" ++ stackName ++ "-user-data" ++ Js.nl
        ++ String c r ++ Js.nl
        ++ stackName ++ "-user-data" ++ Js.nl
        ++ "chmod +x /opt/user-data" ++ Js.nl
        ++ "/opt/user-data" ++ Js.nl
    | _ => EmptyString
    end in
  let legacy_script :=
    "#!/bin/bash" ++ Js.nl ++ Js.nl
    ++ bootstrap ++ Js.nl
    ++ staged stack ++ Js.nl
    ++ "/opt/aws/bin/cfn-signal --exit-code $? --stack " ++ stack
    ++ " --resource NodeGroup --region " ++ region_name aws ++ Js.nl in
  let template_script :=
    "#!/bin/bash" ++ Js.nl ++ Js.nl
    ++ bootstrap ++ Js.nl
    ++ staged name ++ Js.nl in
  overrideConflict args = false
  /\ (forall w, createNodeGroupInternal aws name args core w
                = createNodeGroupInternal aws name
                    (set_nodeUserDataOverride None args) core w)
  /\ (forall w, createNodeGroupV2Internal aws name args core w
                = createNodeGroupV2Internal aws name
                    (set_nodeUserDataOverride None args) core w)
  /\ (forall n lc,
         In (NewLaunchConfiguration n lc)
            (registered (snd (createNodeGroupInternal aws name args core start))) ->
         lc_userData lc = legacy_script)
  /\ (forall n lt,
         In (NewLaunchTemplate n lt)
            (registered (snd (createNodeGroupV2Internal aws name args core start))) ->
         lt_userData lt = Base64.encode template_script)
  /\ (sync_checks name args = inr tt ->
      (exists lc,
          In (NewLaunchConfiguration (name ++ "-nodeLaunchConfiguration") lc)
             (registered (snd (createNodeGroupInternal aws name args core start)))
          /\ lc_userData lc = legacy_script)
      /\ (exists lt,
             In (NewLaunchTemplate (name ++ "-launchTemplate") lt)
                (registered (snd (createNodeGroupV2Internal aws name args core
                                                            start)))
             /\ lt_userData lt = Base64.encode template_script))
  /\ legacy_script <> EmptyString
  /\ template_script <> EmptyString.
Proof.
  intros H stack bootstrap staged legacy_script template_script.
  assert (E1 : userdata_v1 aws args core stack = legacy_script).
  { unfold legacy_script, staged, bootstrap, userdata_v1, bootstrapLine,
      stageUserData, userDataArg.
    destruct (nodeUserData args) as [[|c r]|];
      cbn [Js.truthy_opt Js.truthy Js.nullish]; reflexivity. }
  assert (E2 : userdata_v2 args core name = Base64.encode template_script).
  { unfold userdata_v2, script_v2. rewrite H. f_equal.
    unfold template_script, staged, bootstrap, bootstrapLine,
      stageUserData, userDataArg.
    destruct (nodeUserData args) as [[|c r]|];
      cbn [Js.truthy_opt Js.truthy Js.nullish]; reflexivity. }
  pose proof (v1_outcome aws name args core) as O1. cbv zeta in O1.
  pose proof (v2_outcome aws name args core) as O2. cbv zeta in O2.
  split; [unfold overrideConflict; now rewrite H|].
  split; [intros w; destruct args; simpl in H; subst; reflexivity|].
  split; [intros w; destruct args; simpl in H; subst; reflexivity|].
  split; [|split; [|split; [|split; discriminate]]].
  - intros n lc I.
    destruct (sync_checks name args) as [e|[]].
    + destruct O1 as [_ R]. rewrite R in I.
      destruct (is_volume_error e); [|destruct I].
      apply early_events_early in I. discriminate.
    + destruct O1 as [d [lc' [st [_ [R [U _]]]]]]. rewrite R in I.
      apply (in_tail_pair is_early_event) in I;
        [|intros y; apply early_events_early|reflexivity].
      destruct I as [I|I]; [|discriminate].
      injection I as _ <-. rewrite U, H. exact E1.
  - intros n lt I.
    destruct (sync_checks name args) as [e|[]].
    + destruct O2 as [_ R]. rewrite R in I.
      destruct (is_volume_error e); [|destruct I].
      apply early_events_early in I. discriminate.
    + destruct O2 as [d [lt' [g [_ [R [U _]]]]]]. rewrite R in I.
      apply (in_tail_pair is_early_event) in I;
        [|intros y; apply early_events_early|reflexivity].
      destruct I as [I|I]; [|discriminate].
      injection I as _ <-. rewrite U. exact E2.
  - intros S. rewrite S in O1, O2.
    destruct O1 as [d [lc [st [_ [R [U _]]]]]].
    destruct O2 as [d2 [lt [g [_ [R2 [U2 _]]]]]].
    split.
    + exists lc. rewrite R. split; [apply in_or_app; right; now left|].
      rewrite U, H. exact E1.
    + exists lt. rewrite R2. split; [apply in_or_app; right; now left|].
      rewrite U2. exact E2.
Qed.

(** An empty override next to labels: no conflict, and the labels reach
    the script that both provisioners register. *)
Lemma C10_empty_override_is_absent_witness :
  nodeUserDataOverride Sample.empty_override_and_labels = Some EmptyString
  /\ overrideConflict Sample.empty_override_and_labels = false
  /\ failed (createNodeGroupInternal Sample.aws "ng"
               Sample.empty_override_and_labels Sample.core start) = false
  /\ (exists lc,
       In (NewLaunchConfiguration "ng-nodeLaunchConfiguration" lc)
          (registered (snd (createNodeGroupInternal Sample.aws "ng"
                              Sample.empty_override_and_labels Sample.core start)))
       /\ lc_userData lc
          = "#!/bin/bash" ++ Js.nl ++ Js.nl
            ++ "/etc/eks/bootstrap.sh --apiserver-endpoint " ++ Js.dq
            ++ "https://eks.example" ++ Js.dq ++ " --b64-cluster-ca " ++ Js.dq
            ++ "Q0E=" ++ Js.dq ++ " " ++ Js.dq ++ "prod" ++ Js.dq
            ++ " --kubelet-extra-args --node-labels=role=worker" ++ Js.nl
            ++ Js.nl
            ++ "/opt/aws/bin/cfn-signal --exit-code $? --stack ng-0a1b2c3d --resource NodeGroup --region us-west-2"
            ++ Js.nl)
  /\ (exists lt,
       In (NewLaunchTemplate "ng-launchTemplate" lt)
          (registered (snd (createNodeGroupV2Internal Sample.aws "ng"
                              Sample.empty_override_and_labels Sample.core start)))
       /\ lt_userData lt
          = "IyEvYmluL2Jhc2gKCi9ldGMvZWtzL2Jvb3RzdHJhcC5zaCAtLWFwaXNlcnZlci1lbmRwb2ludCAiaHR0cHM6Ly9la3MuZXhhbXBsZSIgLS1iNjQtY2x1c3Rlci1jYSAiUTBFPSIgInByb2QiIC0ta3ViZWxldC1leHRyYS1hcmdzIC0tbm9kZS1sYWJlbHM9cm9sZT13b3JrZXIKCg==").
Proof.
  assert (S : sync_checks "ng" Sample.empty_override_and_labels = inr tt)
    by reflexivity.
  pose proof (C10_empty_override_is_absent Sample.aws "ng"
                Sample.empty_override_and_labels Sample.core eq_refl) as T.
  cbv zeta in T.
  destruct T as [C [_ [_ [_ [_ [E _]]]]]].
  destruct (E S) as [[lc [I1 U1]] [lt [I2 U2]]].
  split; [reflexivity|]. split; [exact C|].
  split; [vm_compute; reflexivity|]. split.
  - exists lc. split; [exact I1|]. rewrite U1. vm_compute. reflexivity.
  - exists lt. split; [exact I2|]. rewrite U2. vm_compute. reflexivity.
Defined.

(** ** The role of a managed node group (claim C7) *)

Lemma find_absent (arn : string) (arns : list string) :
  ~ In arn arns -> find (fun a => String.eqb a arn) arns = None.
Proof.
  intros N. destruct (find _ arns) as [a|] eqn:F; [|reflexivity].
  apply find_some in F. destruct F as [I E].
  apply String.eqb_eq in E. subst. contradiction.
Qed.

(** C7.  A managed node group without a role and without a role ARN
    throws; with both it throws another error; with exactly one, when
    the ARN it resolves to is not the ARN of one of the cluster's
    instance roles, the call is rejected with a third error, whatever
    the ARN looks like. *)
Theorem C7_managed_role_checks
        (name : string) (args : ManagedNodeGroupOptions) (core : CoreData) :
  (nodeRole args = None -> Js.truthy_opt (nodeRoleArn args) = false ->
   createManagedNodeGroupInternal name args core start = (inl RoleRequired, start))
  /\ (nodeRole args <> None -> Js.truthy_opt (nodeRoleArn args) = true ->
      createManagedNodeGroupInternal name args core start
      = (inl RoleExclusive, start))
  /\ (forall arn,
         (nodeRole args = None /\ nodeRoleArn args = Some arn
          /\ Js.truthy arn = true)
         \/ (nodeRole args = Some {| role_arn := arn |}
             /\ Js.truthy_opt (nodeRoleArn args) = false) ->
         ~ In arn (map role_arn (instanceRoles core)) ->
         rejected (snd (createManagedNodeGroupInternal name args core start))
         = [RoleNotInInstanceRoles]
         /\ failed (createManagedNodeGroupInternal name args core start) = true)
  /\ RoleNotInInstanceRoles <> RoleRequired
  /\ RoleNotInInstanceRoles <> RoleExclusive.
Proof.
  assert (R3 : forall arn,
             (nodeRole args = None /\ nodeRoleArn args = Some arn
              /\ Js.truthy arn = true)
             \/ (nodeRole args = Some {| role_arn := arn |}
                 /\ Js.truthy_opt (nodeRoleArn args) = false) ->
             ~ In arn (map role_arn (instanceRoles core)) ->
             createManagedNodeGroupInternal name args core start
             = (inr name,
                {| registered := registered
                     (snd (createManagedNodeGroupInternal name args core start));
                   rejected := [RoleNotInInstanceRoles] |})).
  { intros arn Which Absent.
    unfold createManagedNodeGroupInternal, resolveRoleArn, nodegroupRole,
      throw_if, bind, lift, settle, register, ret, throw, check, start.
    destruct Which as [[R [A T]]|[R A]]; rewrite R, A; simpl; rewrite ?T; simpl;
      now rewrite (find_absent arn _ Absent). }
  split; [|split; [|split; [|split; discriminate]]].
  - intros R A.
    unfold createManagedNodeGroupInternal, throw_if, bind, lift, check.
    rewrite R, A. reflexivity.
  - intros R A.
    unfold createManagedNodeGroupInternal, throw_if, bind, lift, check.
    rewrite A. destruct (nodeRole args); [reflexivity|congruence].
  - intros arn Which Absent. rewrite (R3 arn Which Absent). split; reflexivity.
Qed.

(** The scenario of the specification: a well-formed ARN that is not
    among the instance roles. *)
Lemma C7_managed_role_checks_witness :
  ~ In "arn:aws:iam::1:role/other" (map role_arn (instanceRoles Sample.core))
  /\ rejected (snd (createManagedNodeGroupInternal "mng"
                      Sample.unregistered_role Sample.core start))
     = [RoleNotInInstanceRoles].
Proof.
  assert (N : ~ In "arn:aws:iam::1:role/other"
                (map role_arn (instanceRoles Sample.core))).
  { simpl. intros [E|[]]. discriminate E. }
  split; [exact N|].
  pose proof (C7_managed_role_checks "mng" Sample.unregistered_role Sample.core)
    as [_ [_ [P _]]].
  exact (proj1 (P "arn:aws:iam::1:role/other"
                  (or_introl (conj eq_refl (conj eq_refl eq_refl))) N)).
Defined.

(** ** The AMI family (claim C4) *)

(** The family the code looks up is the GPU one exactly when an
    [amiType] that is not empty is given, or none is given and the
    flag is set. *)
Lemma amiType_of_gpu (args : NodeGroupOptions) :
  amiType_of args = "amazon-linux-2-gpu"
  <-> (exists t, amiType args = Some t /\ Js.truthy t = true)
      \/ (amiType args = None /\ gpu args = Some true).
Proof.
  unfold amiType_of.
  destruct (amiType args) as [t|]; [destruct (Js.truthy t) eqn:T|].
  - split; [intros _; left; eauto|reflexivity].
  - split; [discriminate|].
    intros [[t' [[= <-] T']]|[[=] _]]. congruence.
  - destruct (gpu args) as [[|]|]; simpl;
      (split; [try discriminate; intros _; right; auto
              |try reflexivity; intros [[t [[=] _]]|[_ [=]]]]).
Qed.

(** An explicit [amiId] is passed on as it is, without a lookup. *)
Lemma resolveAmi_explicit (aws : Aws) (args : NodeGroupOptions) (core : CoreData)
      (id : string) :
  amiId args = Some id -> Js.truthy id = true ->
  resolveAmi aws args core = PlainId id.
Proof. intros A T. unfold resolveAmi. rewrite A. simpl. now rewrite T. Qed.

(** C4 fails on the code: with an explicit [amiType] of
    [amazon-linux-2-arm64], no [amiId] and no [gpu] flag, the parameter
    looked up is the one of the GPU family, where the family given is
    the one to use. *)
Theorem C4_explicit_amiType_is_ignored :
  amiType Sample.arm64 = Some "amazon-linux-2-arm64"
  /\ gpu Sample.arm64 = None /\ amiId Sample.arm64 = None
  /\ spec_amiType Sample.arm64 = "amazon-linux-2-arm64"
  /\ amiType_of Sample.arm64 = "amazon-linux-2-gpu"
  /\ resolveAmi Sample.aws Sample.arm64 Sample.core
     = ParameterLookup
         "/aws/service/eks/optimized-ami/1.24/amazon-linux-2-gpu/recommended/image_id"
         (inr "ami-0123").
Proof. repeat split. Qed.

(* ================================================================= *)
(** * More properties of the code *)

(** ** What a successful self-managed call registers *)

Lemma v1_resources (aws : Aws) (name : string) (args : NodeGroupOptions)
      (core : CoreData) :
  sync_checks name args = inr tt ->
  let asg : Output string :=
    match Js.lookup "NodeGroup"
            (stack_outputs aws
               (randomSuffix aws (name ++ "-cfnStackName") name)) with
    | Some v => inr v
    | None => inl StackOutputMissing
    end in
  exists d lc st,
    createNodeGroupInternal aws name args core start
    = (inr d,
       {| registered :=
            (early_events name args core
             ++ [NewLaunchConfiguration (name ++ "-nodeLaunchConfiguration") lc;
                 NewStack (name ++ "-nodes") st])%list;
          rejected :=
            (rejection (resolveInstanceProfile args core)
             ++ rejection (checkNodeSecurityGroupTags args core)
             ++ (if Js.defined (nodeSubnetIds args) then []
                 else rejection (resolveWorkerSubnets aws args core))
             ++ rejection asg)%list |})
    /\ (forall sg, nodeSecurityGroup args = Some sg -> ngd_nodeSecurityGroup d = sg)
    /\ autoScalingGroupName d = asg
    /\ ngd_extraNodeSecurityGroups d = extraNodeSecurityGroups args
    /\ lc_iamInstanceProfile lc = resolveInstanceProfile args core
    /\ lc_securityGroups lc = sg_id (ngd_nodeSecurityGroup d) :: extraIds args
    /\ lc_keyName lc
       = (if Js.truthy_opt (nodePublicKey args)
          then Some (physical_id aws (name ++ "-keyPair"))
          else keyName args)
    /\ lc_imageId lc = resolveAmi aws args core
    /\ lc_rootBlockDevice lc = rootBlockDevice_of args
    /\ lc_spotPrice lc = spotPrice args
    /\ stack_name st = randomSuffix aws (name ++ "-cfnStackName") name
    /\ stack_dependsOn st = fleetDeps core
    /\ stack_tags st
       = Js.spread (Js.spread [("Name", name ++ "-nodes")]
                              (Js.nullish (cloudFormationTags args) []))
                   (Js.nullish (tags core) [])
    /\ Tags_of_group (templateBody st) = autoScalingGroupTags_of args core
    /\ VPCZoneIdentifier (templateBody st) = resolveWorkerSubnets aws args core.
Proof.
  cbv zeta. run_sync.
  destruct (checkExclusive args) as [e|[]] eqn:X; [discriminate|].
  destruct (nodeSecurityGroup args) as [sg|] eqn:SG;
    destruct (clusterIngressRule args) as [rule|] eqn:CR;
    cbn [Js.defined negb andb];
    try discriminate;
    (destruct (validateRootVolume args) as [ve|[]] eqn:V; [discriminate|]);
    intros _;
    destruct (resolveInstanceProfile args core) as [pe|prof] eqn:IP;
    destruct (checkNodeSecurityGroupTags args core) as [te|[]] eqn:NT;
    destruct (Js.truthy_opt (nodePublicKey args)) eqn:PK;
    unfold resolveWorkerSubnets;
    (destruct (nodeSubnetIds args) as [ids|];
     [|destruct (privateSubnetIds core) as [pr|];
       [|destruct (publicSubnetIds core) as [pb|];
         [|destruct (computeWorkerSubnets aws (subnetIds core))]]]);
    destruct (Js.lookup "NodeGroup" _);
    cbn [fst snd registered rejected app rejection Js.defined];
    do 3 eexists;
    (split; [reflexivity|]);
    (split; [intros sg' [= <-] || (intros sg'; discriminate); reflexivity|]);
    repeat split; reflexivity.
Qed.

Lemma v2_resources (aws : Aws) (name : string) (args : NodeGroupOptions)
      (core : CoreData) :
  sync_checks name args = inr tt ->
  exists d lt g,
    createNodeGroupV2Internal aws name args core start
    = (inr d,
       {| registered :=
            (early_events name args core
             ++ [NewLaunchTemplate (name ++ "-launchTemplate") lt;
                 NewAutoscalingGroup name g])%list;
          rejected :=
            (rejection (resolveInstanceProfile args core)
             ++ rejection (checkNodeSecurityGroupTags args core)
             ++ (if Js.defined (nodeSubnetIds args) then []
                 else rejection (resolveWorkerSubnets aws args core)))%list |})
    /\ (forall sg, nodeSecurityGroup args = Some sg -> v2_nodeSecurityGroup d = sg)
    /\ v2_extraNodeSecurityGroups d = extraNodeSecurityGroups args
    /\ lt_iamInstanceProfile_arn lt
       = Output_map profile_arn (resolveInstanceProfile args core)
    /\ lt_securityGroups lt = sg_id (v2_nodeSecurityGroup d) :: extraIds args
    /\ lt_keyName lt
       = (if Js.truthy_opt (nodePublicKey args)
          then Some (physical_id aws (name ++ "-keyPair"))
          else keyName args)
    /\ lt_imageId lt = resolveAmi aws args core
    /\ lt_deviceName lt = getAmi_deviceName aws (resolveAmi aws args core)
    /\ lt_ebs lt = ebs_of args
    /\ lt_spot_maxPrice lt
       = (if Js.truthy_opt (spotPrice args) then spotPrice args else None)
    /\ lt_userData lt = userdata_v2 args core name
    /\ asg_dependsOn g = fleetDeps core
    /\ asg_tags g
       = inputTagsToASGTags (cluster_name (cluster core))
                            (autoScalingGroupTags args)
    /\ asg_minHealthyPercentage g
       = Js.nullish (minRefreshPercentage args) (Js.Int 50)
    /\ asg_vpcZoneIdentifiers g = resolveWorkerSubnets aws args core.
Proof.
  run_sync.
  destruct (checkExclusive args) as [e|[]] eqn:X; [discriminate|].
  destruct (nodeSecurityGroup args) as [sg|] eqn:SG;
    destruct (clusterIngressRule args) as [rule|] eqn:CR;
    cbn [Js.defined negb andb];
    try discriminate;
    (destruct (validateRootVolume args) as [ve|[]] eqn:V; [discriminate|]);
    intros _;
    destruct (resolveInstanceProfile args core) as [pe|prof] eqn:IP;
    destruct (checkNodeSecurityGroupTags args core) as [te|[]] eqn:NT;
    destruct (Js.truthy_opt (nodePublicKey args)) eqn:PK;
    unfold resolveWorkerSubnets;
    (destruct (nodeSubnetIds args) as [ids|];
     [|destruct (privateSubnetIds core) as [pr|];
       [|destruct (publicSubnetIds core) as [pb|];
         [|destruct (computeWorkerSubnets aws (subnetIds core))]]]);
    cbn [fst snd registered rejected app rejection Js.defined Output_map];
    do 3 eexists;
    (split; [reflexivity|]);
    (split; [intros sg' [= <-] || (intros sg'; discriminate); reflexivity|]);
    repeat split; reflexivity.
Qed.

(** ** What a managed call does *)

Lemma managed_outcome (name : string) (args : ManagedNodeGroupOptions)
      (core : CoreData) :
  createManagedNodeGroupInternal name args core start
  = if (negb (Js.defined (nodeRole args))
        && negb (Js.truthy_opt (nodeRoleArn args)))%bool
    then (inl RoleRequired, start)
    else if (Js.defined (nodeRole args) && Js.truthy_opt (nodeRoleArn args))%bool
    then (inl RoleExclusive, start)
    else
      let roleArn :=
        if Js.truthy_opt (nodeRoleArn args)
        then Js.nullish (nodeRoleArn args) EmptyString
        else match nodeRole args with
             | Some r => role_arn r
             | None => EmptyString
             end in
      (inr name,
       {| registered :=
            [NewEksNodeGroup name {|
               ng_clusterName :=
                 Js.nullish (clusterName args) (cluster_name (cluster core));
               ng_nodeRoleArn := roleArn;
               ng_desiredSize :=
                 config_field (scalingConfig args) desiredSize (Js.Int 2);
               ng_minSize := config_field (scalingConfig args) sc_minSize (Js.Int 1);
               ng_maxSize := config_field (scalingConfig args) sc_maxSize (Js.Int 2);
               ng_subnetIds := managedSubnetIds args core;
               ng_dependsOn :=
                 match eksNodeAccess core with Some r => [r] | None => [] end
             |}];
          rejected :=
            match nodegroupRole core roleArn with
            | Some role => if Js.truthy role then []
                           else [RoleNotInInstanceRoles]
            | None => [RoleNotInInstanceRoles]
            end |}).
Proof.
  unfold createManagedNodeGroupInternal, resolveRoleArn, throw_if, bind, lift,
    settle, register, ret, throw, check, start.
  destruct (nodeRole args) as [r|]; destruct (Js.truthy_opt (nodeRoleArn args));
    cbn [Js.defined negb andb]; try reflexivity.
  - destruct (nodegroupRole core (role_arn r)) as [role|];
      [destruct (Js.truthy role)|]; reflexivity.
  - destruct (nodegroupRole core (Js.nullish (nodeRoleArn args) EmptyString))
      as [role|]; [destruct (Js.truthy role)|]; reflexivity.
Qed.

(** ** More on the subnet classifier *)

Lemma classify_failure (aws : Aws) (tables : string -> RouteTable)
      (pre post : list string) (id : string) (e : Error) :
  (forall x, In x pre -> getRouteTableAsync aws x = inr (tables x)) ->
  getRouteTableAsync aws id = inl e ->
  exists e',
    (e' = e
     \/ exists x, In x pre /\ hasInternetGatewayRoute (tables x) = inl e')
    /\ forall pub priv, classify aws (pre ++ id :: post) pub priv = inl e'.
Proof.
  intros L F. induction pre as [|x pre IH].
  - exists e. split; [now left|]. intros pub priv. simpl. now rewrite F.
  - destruct IH as [e' [O C]]; [intros; apply L; now right|].
    destruct (hasInternetGatewayRoute (tables x)) as [ex|b] eqn:H.
    + exists ex. split; [right; exists x; split; [now left|exact H]|].
      intros pub priv. simpl. now rewrite (L x (or_introl eq_refl)), H.
    + exists e'. split.
      * destruct O as [->|[y [I Hy]]]; [now left|].
        right. exists y. split; [now right|exact Hy].
      * intros pub priv. simpl. rewrite (L x (or_introl eq_refl)), H.
        destruct b; apply C.
Qed.

(** X1.  [computeWorkerSubnets] gives up at the first candidate whose
    route table cannot be fetched: whatever the candidates after it
    are, the call throws; it does not skip the candidate and does not
    take it for private or public.  The error is the one of that
    lookup, unless the route table of an earlier candidate made the
    test throw; it is the one of the lookup when the gateway routes of
    the earlier candidates have IPv4 destinations. *)
Theorem X1_classifier_propagates_lookup_failure
        (aws : Aws) (tables : string -> RouteTable)
        (pre post : list string) (id : string) (e : Error) :
  (forall x, In x pre -> getRouteTableAsync aws x = inr (tables x)) ->
  getRouteTableAsync aws id = inl e ->
  exists e',
    computeWorkerSubnets aws (pre ++ id :: post) = inl e'
    /\ (e' = e
        \/ exists x, In x pre /\ hasInternetGatewayRoute (tables x) = inl e')
    /\ ((forall x, In x pre -> readable (tables x)) -> e' = e).
Proof.
  intros L F.
  destruct (classify_failure aws tables pre post id e L F) as [e' [O C]].
  exists e'. unfold computeWorkerSubnets. rewrite C.
  split; [reflexivity|]. split; [exact O|].
  intros R. destruct O as [->|[x [I H]]]; [reflexivity|].
  exfalso.
  rewrite (proj1 (hasInternetGatewayRoute_spec (tables x) (R x I))) in H.
  discriminate H.
Qed.

Lemma X1_classifier_propagates_lookup_failure_witness :
  getRouteTableAsync Cases.aws_subnet_gone "subnet-gone"
  = inl (LookupFailed "no such subnet")
  /\ computeWorkerSubnets Cases.aws_subnet_gone
       ["subnet-public"; "subnet-gone"; "subnet-private"]
     = inl (LookupFailed "no such subnet").
Proof.
  assert (F : getRouteTableAsync Cases.aws_subnet_gone "subnet-gone"
              = inl (LookupFailed "no such subnet")) by reflexivity.
  split; [exact F|].
  assert (L : forall x, In x ["subnet-public"] ->
                getRouteTableAsync Cases.aws_subnet_gone x
                = inr (Sample.tables x))
    by (intros x [<-|[]]; reflexivity).
  assert (R : forall x, In x ["subnet-public"] -> readable (Sample.tables x)).
  { intros x [<-|[]] r [<-|[<-|[]]] _;
      (eexists; split; [reflexivity|unfold Netmask.wf; cbn; lia]). }
  destruct (X1_classifier_propagates_lookup_failure Cases.aws_subnet_gone
              Sample.tables ["subnet-public"] ["subnet-private"] "subnet-gone"
              _ L F) as [e' [C [_ E]]].
  rewrite <- (E R). exact C.
Defined.

Lemma filter_filter_same {A : Type} (f : A -> bool) (l : list A) :
  filter f (filter f l) = filter f l.
Proof.
  apply filter_all. intros x I. apply filter_In in I. tauto.
Qed.

(** X2.  When the route table of every candidate can be fetched and
    the gateway routes of these tables have IPv4 destinations, the
    subnets [computeWorkerSubnets] returns are candidates, in the order
    of the candidates; none is returned only when there is no
    candidate; and classifying the result again returns it unchanged. *)
Theorem X2_classifier_result_is_stable
        (aws : Aws) (tables : string -> RouteTable) (ids : list string) :
  (forall id, In id ids -> getRouteTableAsync aws id = inr (tables id)) ->
  (forall id, In id ids -> readable (tables id)) ->
  exists result keep,
    computeWorkerSubnets aws ids = inr result
    /\ result = filter keep ids
    /\ (result = [] <-> ids = [])
    /\ computeWorkerSubnets aws result = inr result.
Proof.
  intros L R.
  pose (pub := fun id => publicTable (tables id)).
  pose (priv := fun id => negb (publicTable (tables id))).
  assert (Shape : forall l,
             (forall id, In id l -> In id ids) ->
             computeWorkerSubnets aws l
             = inr (if Nat.eqb (List.length (filter priv l)) 0
                    then filter pub l else filter priv l)).
  { intros l Sub. unfold computeWorkerSubnets.
    rewrite (classify_spec aws tables l); [reflexivity| |].
    - intros id I. apply L, Sub, I.
    - intros id I. apply hasInternetGatewayRoute_spec, R, Sub, I. }
  rewrite (Shape ids ltac:(auto)).
  destruct (filter priv ids) as [|p ps] eqn:P; cbn [List.length Nat.eqb].
  - assert (A : filter pub ids = ids).
    { apply filter_all. intros x I. unfold pub.
      destruct (publicTable (tables x)) eqn:E; [reflexivity|].
      assert (H : In x (filter priv ids))
        by (apply filter_In; split; [exact I|unfold priv; now rewrite E]).
      rewrite P in H. destruct H. }
    exists (filter pub ids), pub. split; [reflexivity|]. split; [reflexivity|].
    rewrite A. split; [tauto|].
    rewrite (Shape ids ltac:(auto)), P, A. reflexivity.
  - exists (p :: ps), priv.
    split; [reflexivity|]. split; [now rewrite P|].
    split.
    + split; [discriminate|]. intros ->. discriminate P.
    + assert (Sub : forall id, In id (p :: ps) -> In id ids).
      { intros id I. rewrite <- P in I. apply filter_In in I. apply I. }
      assert (Q : filter priv (p :: ps) = p :: ps)
        by (rewrite <- P; apply filter_filter_same).
      rewrite (Shape (p :: ps) Sub), Q. reflexivity.
Qed.

Lemma X2_classifier_result_is_stable_witness :
  computeWorkerSubnets Sample.aws ["subnet-public"; "subnet-private"]
  = inr ["subnet-private"]
  /\ computeWorkerSubnets Sample.aws ["subnet-private"] = inr ["subnet-private"].
Proof.
  assert (R : forall id, In id ["subnet-public"; "subnet-private"] ->
                readable (Sample.tables id)).
  { intros id [<-|[<-|[]]] r [<-|[<-|[]]] _;
      (eexists; split; [reflexivity|unfold Netmask.wf; cbn; lia]). }
  destruct (X2_classifier_result_is_stable Sample.aws Sample.tables
              ["subnet-public"; "subnet-private"]
              ltac:(intros id [<-|[<-|[]]]; reflexivity) R)
    as [result [keep [C [_ [_ S]]]]].
  assert (E : result = ["subnet-private"]).
  { assert (C' : computeWorkerSubnets Sample.aws
                   ["subnet-public"; "subnet-private"] = inr ["subnet-private"])
      by reflexivity.
    rewrite C' in C. now injection C. }
  subst result. split; [exact C|exact S].
Defined.

(** The search passes the routes without a gateway id and the gateway
    routes to a private block. *)
Lemma find_route_skip (before : list Route) :
  (forall b, In b before ->
     gatewayId b = EmptyString
     \/ exists c, cidrBlock b = Netmask.Block c /\ Netmask.wf c
                  /\ isPrivateCIDRBlock (Netmask.Block c) = inr true) ->
  forall rest, find_route (before ++ rest) = find_route rest.
Proof.
  intros B rest. induction before as [|b bs IH]; [reflexivity|].
  cbn [app find_route].
  assert (IH' : find_route (bs ++ rest) = find_route rest)
    by (apply IH; intros b' I; apply B; now right).
  destruct (B b (or_introl eq_refl)) as [G|[c [E [W P]]]].
  - rewrite G. exact IH'.
  - rewrite E, P. destruct (Js.truthy (gatewayId b)); exact IH'.
Qed.

(** X27.  An error of [netmask] ends the classification.  When the
    route table of a candidate has a gateway route whose destination is
    no IPv4 block -- the empty [cidrBlock] of a route to an IPv6 block
    -- and no gateway route before it leaves the private ranges,
    [computeWorkerSubnets] throws the error of the constructor, also
    when a later route goes to an internet gateway; a route without a
    gateway id is not looked at, and a route after the first public
    one is not either. *)
Theorem X27_unreadable_destination_throws
        (aws : Aws) (tables : string -> RouteTable)
        (pre post : list string) (id : string)
        (before after : list Route) (r : Route) (text : string) :
  (forall x, In x pre -> getRouteTableAsync aws x = inr (tables x)) ->
  (forall x, In x pre -> readable (tables x)) ->
  getRouteTableAsync aws id = inr {| routes := before ++ r :: after |} ->
  (forall b, In b before ->
     gatewayId b = EmptyString
     \/ exists c, cidrBlock b = Netmask.Block c /\ Netmask.wf c
                  /\ isPrivateCIDRBlock (Netmask.Block c) = inr true) ->
  cidrBlock r = Netmask.Unparsable text ->
  (gatewayId r <> EmptyString ->
   computeWorkerSubnets aws (pre ++ id :: post) = inl (InvalidNetAddress text))
  /\ (gatewayId r = EmptyString ->
      hasInternetGatewayRoute {| routes := before ++ r :: after |}
      = hasInternetGatewayRoute {| routes := before ++ after |}).
Proof.
  intros L R F B U.
  pose proof (find_route_skip before B) as Skip.
  split.
  - intros G.
    assert (H : hasInternetGatewayRoute {| routes := before ++ r :: after |}
                = inl (InvalidNetAddress text)).
    { unfold hasInternetGatewayRoute. cbn [routes]. rewrite Skip.
      cbn [find_route]. rewrite U.
      destruct (gatewayId r); [now exfalso; apply G|reflexivity]. }
    unfold computeWorkerSubnets.
    assert (C : forall pub priv,
               classify aws (pre ++ id :: post) pub priv
               = inl (InvalidNetAddress text)).
    { clear -L R F H. induction pre as [|x pre IH]; intros pub priv; simpl.
      - now rewrite F, H.
      - rewrite (L x (or_introl eq_refl)).
        rewrite (proj1 (hasInternetGatewayRoute_spec (tables x)
                          (R x (or_introl eq_refl)))).
        destruct (publicTable (tables x));
          apply IH; intros; (apply L || apply R); now right. }
    now rewrite C.
  - intros G. unfold hasInternetGatewayRoute. cbn [routes].
    rewrite !Skip. cbn [find_route]. now rewrite G.
Qed.

Lemma X27_unreadable_destination_throws_witness :
  getRouteTableAsync Cases.aws_gateways "subnet-ipv6" = inr Cases.ipv6_table
  /\ computeWorkerSubnets Cases.aws_gateways
       ["subnet-private"; "subnet-ipv6"; "subnet-public"]
     = inl (InvalidNetAddress EmptyString).
Proof.
  assert (F : getRouteTableAsync Cases.aws_gateways "subnet-ipv6"
              = inr Cases.ipv6_table) by reflexivity.
  split; [exact F|].
  assert (L : forall x, In x ["subnet-private"] ->
                getRouteTableAsync Cases.aws_gateways x
                = inr (Sample.tables x))
    by (intros x [<-|[]]; reflexivity).
  assert (R : forall x, In x ["subnet-private"] -> readable (Sample.tables x)).
  { intros x [<-|[]] r [<-|[<-|[]]] _;
      (eexists; split; [reflexivity|unfold Netmask.wf; cbn; lia]). }
  assert (B : forall b, In b [Sample.local_route] ->
                gatewayId b = EmptyString
                \/ exists c, cidrBlock b = Netmask.Block c /\ Netmask.wf c
                             /\ isPrivateCIDRBlock (Netmask.Block c) = inr true).
  { intros b [<-|[]]. right. eexists. split; [reflexivity|].
    split; [unfold Netmask.wf; cbn; lia|reflexivity]. }
  assert (G : gatewayId Cases.ipv6_route <> EmptyString) by discriminate.
  exact (proj1 (X27_unreadable_destination_throws Cases.aws_gateways
                  Sample.tables ["subnet-private"] ["subnet-public"]
                  "subnet-ipv6" [Sample.local_route] [Sample.igw_route]
                  Cases.ipv6_route EmptyString L R F B eq_refl) G).
Defined.

(** ** More on private blocks *)

Section PrivateBlocks.

Import Netmask.
Local Open Scope Z_scope.

Lemma inside_prefix (c net : Cidr) :
  wf c -> wf net -> inside c net -> bits net <= bits c.
Proof.
  intros Wc Wn I.
  pose proof (block_bounds c Wc) as [[F0 FL] _].
  pose proof (I (first_address c) ltac:(lia)) as [A _].
  pose proof (I (last_address c) ltac:(lia)) as [_ B].
  unfold last_address in *.
  assert (P : 2 ^ (32 - bits c) <= 2 ^ (32 - bits net)) by lia.
  destruct Wc as [_ Hc], Wn as [_ Hn].
  destruct (Z_le_gt_dec (bits net) (bits c)) as [|G]; [assumption|].
  exfalso.
  assert (2 ^ (32 - bits net) < 2 ^ (32 - bits c))
    by (apply Z.pow_lt_mono_r; lia).
  lia.
Qed.

Lemma inside_trans (a b c : Cidr) : inside a b -> inside b c -> inside a c.
Proof. unfold inside. auto. Qed.

Lemma inside_ends (c net : Cidr) :
  wf c ->
  inside c net <->
  first_address net <= first_address c /\ last_address c <= last_address net.
Proof.
  intros W. pose proof (block_bounds c W) as [[F0 FL] _].
  unfold inside. split.
  - intros I. split; [apply (I (first_address c))|apply (I (last_address c))];
      unfold last_address in *; lia.
  - intros [A B] a Ha. lia.
Qed.

(** A block with a prefix at least as long as the one of a network is
    inside it exactly when the two addresses agree on the bits of the
    network's prefix. *)
Lemma inside_by_prefix (c net : Cidr) :
  wf c -> wf net -> bits net <= bits c ->
  inside c net <->
  ip c / 2 ^ (32 - bits net) = ip net / 2 ^ (32 - bits net).
Proof.
  intros Wc Wn B. rewrite (inside_ends c net Wc).
  unfold last_address, first_address.
  destruct Wc as [[Ic0 Ic1] [Bc0 Bc1]], Wn as [[In0 In1] [Bn0 Bn1]].
  assert (E : 2 ^ (32 - bits net) = 2 ^ (32 - bits c) * 2 ^ (bits c - bits net)).
  { rewrite <- Z.pow_add_r by lia. f_equal. lia. }
  assert (Pp : 0 < 2 ^ (32 - bits c)) by (apply Z.pow_pos_nonneg; lia).
  assert (Pk : 0 < 2 ^ (bits c - bits net)) by (apply Z.pow_pos_nonneg; lia).
  set (p := 2 ^ (32 - bits c)) in *.
  set (k := 2 ^ (bits c - bits net)) in *.
  rewrite E.
  rewrite <- (Z.div_div (ip c) p k) by lia.
  set (m := ip c / p). set (q := ip net / (p * k)).
  pose proof (Z.div_mod m k ltac:(lia)) as D.
  pose proof (Z.mod_pos_bound m k Pk) as M.
  split.
  - intros [L U].
    assert (L' : k * q <= m) by nia.
    assert (U' : m < k * q + k) by nia.
    symmetry. apply (Z.div_unique m k q (m - k * q)); lia.
  - intros Q. rewrite Q in D. nia.
Qed.

Lemma inside_range (c net : Cidr) :
  wf c -> wf net ->
  inside c net <->
  bits net <= bits c
  /\ ip c / 2 ^ (32 - bits net) = ip net / 2 ^ (32 - bits net).
Proof.
  intros Wc Wn. split.
  - intros I. pose proof (inside_prefix c net Wc Wn I) as B.
    split; [exact B|]. now apply inside_by_prefix.
  - intros [B E]. now apply inside_by_prefix.
Qed.

(** X3.  What [isPrivateCIDRBlock] accepts, for a block of a 32-bit
    address with a prefix of at most 32 bits: the blocks with a prefix
    of 8 bits or more whose first octet is 10, those with a prefix of
    12 bits or more whose first 12 bits are the ones of 172.16.0.0,
    and those with a prefix of 16 bits or more whose first two octets
    are 192.168; no other.  So a block it accepts has a prefix of at
    least 8 bits, every block inside a block it accepts is accepted
    too, and a block that contains one of the three ranges and has a
    shorter prefix, as [0.0.0.0/0] has, is not accepted. *)
Theorem X3_private_blocks_are_narrow_and_closed (c : Cidr) :
  wf c ->
  (isPrivateCIDRBlock (Block c) = inr true
   <-> (8 <= bits c /\ ip c / 2 ^ 24 = 10)
       \/ (12 <= bits c /\ ip c / 2 ^ 20 = 172 * 16 + 1)
       \/ (16 <= bits c /\ ip c / 2 ^ 16 = 192 * 256 + 168))
  /\ (isPrivateCIDRBlock (Block c) = inr true ->
      8 <= bits c
      /\ forall c', wf c' -> inside c' c ->
                    isPrivateCIDRBlock (Block c') = inr true)
  /\ (forall range,
        In range [cidr 10 0 0 0 8; cidr 172 16 0 0 12; cidr 192 168 0 0 16] ->
        inside range c -> bits c < bits range ->
        isPrivateCIDRBlock (Block c) = inr false).
Proof.
  intros W. destruct private_ranges_wf as [WA [WB WC]].
  assert (Char : isPrivateCIDRBlock (Block c) = inr true
                 <-> (8 <= bits c /\ ip c / 2 ^ 24 = 10)
                     \/ (12 <= bits c /\ ip c / 2 ^ 20 = 172 * 16 + 1)
                     \/ (16 <= bits c /\ ip c / 2 ^ 16 = 192 * 256 + 168)).
  { rewrite (isPrivateCIDRBlock_inside c W).
    rewrite (inside_range c privateA W WA), (inside_range c privateB W WB),
      (inside_range c privateC W WC).
    reflexivity. }
  split; [exact Char|]. split.
  - intros P. apply isPrivateCIDRBlock_inside in P; [|exact W].
    split.
    + destruct P as [I|[I|I]];
        [pose proof (inside_prefix c privateA W WA I) as H
        |pose proof (inside_prefix c privateB W WB I) as H
        |pose proof (inside_prefix c privateC W WC I) as H];
        cbn in H; lia.
    + intros c' W' I. apply isPrivateCIDRBlock_inside; [exact W'|].
      destruct P as [Q|[Q|Q]];
        [left|right; left|right; right]; exact (inside_trans _ _ _ I Q).
  - intros range R I B.
    assert (N : isPrivateCIDRBlock (Block c) <> inr true);
      [|rewrite isPrivateCIDRBlock_block in * by exact W;
        destruct (_ || _)%bool; [now exfalso; apply N|reflexivity]].
    intros P. apply Char in P.
    assert (Wr : wf range)
      by (destruct R as [<-|[<-|[<-|[]]]]; unfold wf; cbn; lia).
    apply (inside_range range c Wr W) in I. destruct I as [_ E].
    destruct W as [[I0 I1] [B0 B1]].
    assert (Q : forall n, 0 <= n <= 32 - bits c ->
                  ip c / 2 ^ (32 - bits c) / 2 ^ n
                  = ip c / 2 ^ (32 - bits c + n)).
    { intros n Hn. rewrite Z.div_div by lia.
      now rewrite <- Z.pow_add_r by lia. }
    destruct R as [<-|[<-|[<-|[]]]]; cbn [bits cidr ip] in *.
    + lia.
    + destruct P as [[P1 P2]|[[P1 _]|[P1 _]]]; try lia.
      pose proof (Q (bits c - 8) ltac:(lia)) as H.
      replace (32 - bits c + (bits c - 8)) with 24 in H by lia.
      rewrite <- E, Z.div_div, <- Z.pow_add_r in H by lia.
      replace (32 - bits c + (bits c - 8)) with 24 in H by lia.
      rewrite P2 in H. vm_compute in H. discriminate H.
    + destruct P as [[P1 P2]|[[P1 P2]|[P1 _]]]; try lia.
      * pose proof (Q (bits c - 8) ltac:(lia)) as H.
        replace (32 - bits c + (bits c - 8)) with 24 in H by lia.
        rewrite <- E, Z.div_div, <- Z.pow_add_r in H by lia.
        replace (32 - bits c + (bits c - 8)) with 24 in H by lia.
        rewrite P2 in H. vm_compute in H. discriminate H.
      * pose proof (Q (bits c - 12) ltac:(lia)) as H.
        replace (32 - bits c + (bits c - 12)) with 20 in H by lia.
        rewrite <- E, Z.div_div, <- Z.pow_add_r in H by lia.
        replace (32 - bits c + (bits c - 12)) with 20 in H by lia.
        rewrite P2 in H. vm_compute in H. discriminate H.
Qed.

Lemma X3_private_blocks_are_narrow_and_closed_witness :
  wf (cidr 10 1 0 0 16)
  /\ isPrivateCIDRBlock (Block (cidr 10 1 0 0 16)) = inr true
  /\ isPrivateCIDRBlock (Block (cidr 10 1 2 0 24)) = inr true
  /\ wf (cidr 10 0 0 0 7)
  /\ isPrivateCIDRBlock (Block (cidr 10 0 0 0 7)) = inr false.
Proof.
  assert (W : wf (cidr 10 1 0 0 16)) by (unfold wf; cbn; lia).
  assert (W' : wf (cidr 10 0 0 0 7)) by (unfold wf; cbn; lia).
  assert (P : isPrivateCIDRBlock (Block (cidr 10 1 0 0 16)) = inr true)
    by reflexivity.
  split; [exact W|]. split; [exact P|]. split; [|split; [exact W'|]].
  - apply (proj1 (proj2 (X3_private_blocks_are_narrow_and_closed _ W)) P).
    + unfold wf; cbn; lia.
    + unfold inside, first_address, last_address. cbn. intros a. lia.
  - apply (proj2 (proj2 (X3_private_blocks_are_narrow_and_closed _ W'))
             (cidr 10 0 0 0 8)).
    + now left.
    + unfold inside, first_address, last_address. cbn. intros a. lia.
    + cbn. lia.
Defined.

End PrivateBlocks.

(** ** More on the checks of the self-managed provisioners *)

(** X4.  With a public key and a key name both set the two
    self-managed provisioners throw the key-pair exclusion, whatever
    else the options hold, and register nothing. *)
Theorem X4_public_key_excludes_key_name
        (aws : Aws) (name : string) (args : NodeGroupOptions) (core : CoreData) :
  Js.truthy_opt (nodePublicKey args) = true ->
  Js.truthy_opt (keyName args) = true ->
  fst (createNodeGroupInternal aws name args core start)
  = inl PublicKeyKeyNameExclusive
  /\ registered (snd (createNodeGroupInternal aws name args core start)) = []
  /\ fst (createNodeGroupV2Internal aws name args core start)
     = inl PublicKeyKeyNameExclusive
  /\ registered (snd (createNodeGroupV2Internal aws name args core start)) = [].
Proof.
  intros P K.
  assert (X : checkExclusive args = inl PublicKeyKeyNameExclusive)
    by (unfold checkExclusive, andThen, check; now rewrite P, K).
  destruct (v1_throws_early aws name args core _ X) as [A B].
  destruct (v2_throws_early aws name args core _ X) as [C D].
  auto.
Qed.

Lemma X4_public_key_excludes_key_name_witness :
  Js.truthy_opt (nodePublicKey Cases.two_keys) = true
  /\ Js.truthy_opt (keyName Cases.two_keys) = true
  /\ fst (createNodeGroupInternal Sample.aws "ng" Cases.two_keys Sample.core start)
     = inl PublicKeyKeyNameExclusive.
Proof.
  split; [reflexivity|]. split; [reflexivity|].
  exact (proj1 (X4_public_key_excludes_key_name Sample.aws "ng" Cases.two_keys
                  Sample.core eq_refl eq_refl)).
Defined.

(** X5.  With an AMI id and the GPU flag both set, and no key-pair
    exclusion before it, the two self-managed provisioners throw the
    AMI exclusion and register nothing: the flag is refused even though
    an explicit AMI would never use it. *)
Theorem X5_ami_id_excludes_gpu
        (aws : Aws) (name : string) (args : NodeGroupOptions) (core : CoreData) :
  Js.truthy_opt (amiId args) = true -> gpu args = Some true ->
  (Js.truthy_opt (nodePublicKey args) && Js.truthy_opt (keyName args))%bool
  = false ->
  fst (createNodeGroupInternal aws name args core start) = inl AmiIdGpuExclusive
  /\ registered (snd (createNodeGroupInternal aws name args core start)) = []
  /\ fst (createNodeGroupV2Internal aws name args core start)
     = inl AmiIdGpuExclusive
  /\ registered (snd (createNodeGroupV2Internal aws name args core start)) = [].
Proof.
  intros A G K.
  assert (X : checkExclusive args = inl AmiIdGpuExclusive)
    by (unfold checkExclusive, andThen, check; now rewrite K, A, G).
  destruct (v1_throws_early aws name args core _ X) as [H1 H2].
  destruct (v2_throws_early aws name args core _ X) as [H3 H4].
  auto.
Qed.

Lemma X5_ami_id_excludes_gpu_witness :
  Js.truthy_opt (amiId Cases.ami_and_gpu) = true
  /\ gpu Cases.ami_and_gpu = Some true
  /\ fst (createNodeGroupV2Internal Sample.aws "ng" Cases.ami_and_gpu
                                    Sample.core start)
     = inl AmiIdGpuExclusive.
Proof.
  split; [reflexivity|]. split; [reflexivity|].
  exact (proj1 (proj2 (proj2 (X5_ami_id_excludes_gpu Sample.aws "ng"
                                Cases.ami_and_gpu Sample.core
                                eq_refl eq_refl eq_refl)))).
Defined.

(** X6.  A security group supplied without its ingress rule makes both
    self-managed provisioners throw, with the name of the node group
    in the error, before anything is registered (the mutual exclusions
    permitting). *)
Theorem X6_supplied_group_needs_ingress_rule
        (aws : Aws) (name : string) (args : NodeGroupOptions) (core : CoreData) :
  nodeSecurityGroup args <> None -> clusterIngressRule args = None ->
  checkExclusive args = inr tt ->
  createNodeGroupInternal aws name args core start
  = (inl (ClusterIngressRuleRequired name),
     {| registered := [];
        rejected := (rejection (resolveInstanceProfile args core)
                     ++ rejection (checkNodeSecurityGroupTags args core))%list |})
  /\ fst (createNodeGroupV2Internal aws name args core start)
     = inl (ClusterIngressRuleRequired name)
  /\ registered (snd (createNodeGroupV2Internal aws name args core start)) = [].
Proof.
  intros G R X.
  assert (S : sync_checks name args = inl (ClusterIngressRuleRequired name)).
  { unfold sync_checks. rewrite X, R. unfold andThen, check.
    destruct (nodeSecurityGroup args); [reflexivity|congruence]. }
  split.
  - unfold createNodeGroupInternal, resolveSecurityGroup, bind, lift, settle,
      start. rewrite X, R.
    destruct (nodeSecurityGroup args); [|congruence].
    destruct (resolveInstanceProfile args core),
      (checkNodeSecurityGroupTags args core); reflexivity.
  - pose proof (v2_outcome aws name args core) as O. cbv zeta in O.
    rewrite S in O. exact O.
Qed.

Lemma X6_supplied_group_needs_ingress_rule_witness :
  nodeSecurityGroup Cases.group_without_rule <> None
  /\ fst (createNodeGroupInternal Sample.aws "batch" Cases.group_without_rule
                                  Sample.core start)
     = inl (ClusterIngressRuleRequired "batch").
Proof.
  assert (G : nodeSecurityGroup Cases.group_without_rule <> None)
    by discriminate.
  split; [exact G|].
  rewrite (proj1 (X6_supplied_group_needs_ingress_rule Sample.aws "batch"
                    Cases.group_without_rule Sample.core G eq_refl eq_refl)).
  reflexivity.
Defined.

Lemma early_events_supplied (name : string) (args : NodeGroupOptions)
      (c : CoreData) :
  nodeSecurityGroup args <> None ->
  forallb (fun ev => negb (is_security_group ev)) (early_events name args c)
  = true.
Proof.
  intros G. unfold early_events.
  destruct (nodeSecurityGroup args); [|congruence]. simpl.
  destruct (Js.truthy_opt (nodePublicKey args)); reflexivity.
Qed.

(** X7.  A security group supplied with its ingress rule is used as it
    is: no security group and no rule is registered, the group is the
    one returned, and the security groups of the launch configuration
    (launch template) are its id followed by the ids of the extra
    groups in the order given. *)
Theorem X7_supplied_group_is_used_as_is
        (aws : Aws) (name : string) (args : NodeGroupOptions) (core : CoreData)
        (sg : SecurityGroup) :
  nodeSecurityGroup args = Some sg -> clusterIngressRule args <> None ->
  checkExclusive args = inr tt -> validateRootVolume args = inr tt ->
  (exists d lc,
      fst (createNodeGroupInternal aws name args core start) = inr d
      /\ ngd_nodeSecurityGroup d = sg
      /\ forallb (fun ev => negb (is_security_group ev))
           (registered (snd (createNodeGroupInternal aws name args core start)))
         = true
      /\ In (NewLaunchConfiguration (name ++ "-nodeLaunchConfiguration") lc)
            (registered (snd (createNodeGroupInternal aws name args core start)))
      /\ lc_securityGroups lc
         = sg_id sg :: map sg_id (Js.nullish (extraNodeSecurityGroups args) []))
  /\ (exists d lt,
         fst (createNodeGroupV2Internal aws name args core start) = inr d
         /\ v2_nodeSecurityGroup d = sg
         /\ forallb (fun ev => negb (is_security_group ev))
              (registered (snd (createNodeGroupV2Internal aws name args core start)))
            = true
         /\ In (NewLaunchTemplate (name ++ "-launchTemplate") lt)
               (registered (snd (createNodeGroupV2Internal aws name args core start)))
         /\ lt_securityGroups lt
            = sg_id sg :: map sg_id (Js.nullish (extraNodeSecurityGroups args) [])).
Proof.
  intros G R X V.
  pose proof (sync_checks_ok name args X (or_intror R) V) as S.
  assert (E : extraIds args
              = map sg_id (Js.nullish (extraNodeSecurityGroups args) []))
    by (unfold extraIds; destruct (extraNodeSecurityGroups args); reflexivity).
  assert (N : nodeSecurityGroup args <> None) by congruence.
  split.
  - destruct (v1_resources aws name args core S)
      as [d [lc [st [Run [Sg [_ [_ [_ [Gs _]]]]]]]]].
    exists d, lc. rewrite Run. cbn [fst snd registered].
    rewrite (Sg sg G) in *.
    split; [reflexivity|]. split; [reflexivity|]. split.
    + rewrite forallb_app, (early_events_supplied name args core N).
      reflexivity.
    + split; [apply in_or_app; right; left; reflexivity|].
      now rewrite Gs, E.
  - destruct (v2_resources aws name args core S)
      as [d [lt [g [Run [Sg [_ [_ [Gs _]]]]]]]].
    exists d, lt. rewrite Run. cbn [fst snd registered].
    rewrite (Sg sg G) in *.
    split; [reflexivity|]. split; [reflexivity|]. split.
    + rewrite forallb_app, (early_events_supplied name args core N).
      reflexivity.
    + split; [apply in_or_app; right; left; reflexivity|].
      now rewrite Gs, E.
Qed.

Lemma X7_supplied_group_is_used_as_is_witness :
  exists d lc,
    fst (createNodeGroupInternal Sample.aws "ng" Cases.own_group Sample.core start)
    = inr d
    /\ In (NewLaunchConfiguration "ng-nodeLaunchConfiguration" lc)
          (registered (snd (createNodeGroupInternal Sample.aws "ng"
                              Cases.own_group Sample.core start)))
    /\ lc_securityGroups lc = ["sg-workers"; "sg-app"; "sg-db"].
Proof.
  destruct (X7_supplied_group_is_used_as_is Sample.aws "ng" Cases.own_group
              Sample.core {| sg_id := "sg-workers"; sg_urn := "workers" |}
              eq_refl ltac:(discriminate) eq_refl eq_refl)
    as [[d [lc [F [_ [_ [I L]]]]]] _].
  exists d, lc. split; [exact F|]. split; [exact I|exact L].
Defined.

(** ** Provisioned IOPS and throughput *)

(** X8.  The checks on the root volume pass exactly when neither
    [nodeRootVolumeIops] nor [nodeRootVolumeThroughput] is set: the
    pattern the values are tested against matches no number, so a
    value that is set is refused on [io1] ([gp3]) as on every other
    volume type, and both self-managed provisioners throw. *)
Theorem X8_volume_checks_pass_iff_unset
        (aws : Aws) (name : string) (args : NodeGroupOptions) (core : CoreData) :
  (validateRootVolume args = inr tt
   <-> Js.truthy_num_opt (nodeRootVolumeIops args) = false
       /\ Js.truthy_num_opt (nodeRootVolumeThroughput args) = false)
  /\ (Js.truthy_num_opt (nodeRootVolumeIops args) = true
      \/ Js.truthy_num_opt (nodeRootVolumeThroughput args) = true ->
      exists e,
        fst (createNodeGroupInternal aws name args core start) = inl e
        /\ fst (createNodeGroupV2Internal aws name args core start) = inl e).
Proof.
  assert (I : validateRootVolume args = inr tt
              <-> Js.truthy_num_opt (nodeRootVolumeIops args) = false
                  /\ Js.truthy_num_opt (nodeRootVolumeThroughput args) = false).
  { unfold validateRootVolume, andThen, check.
    rewrite !numeric_test_toString.
    destruct (Js.truthy_num_opt (nodeRootVolumeIops args)),
      (Js.truthy_num_opt (nodeRootVolumeThroughput args)),
      (type_is (nodeRootVolumeType args) io1),
      (type_is (nodeRootVolumeType args) gp3); simpl;
      split; try discriminate; try tauto; intros [? ?]; discriminate. }
  split; [exact I|].
  intros Given.
  destruct (validateRootVolume args) as [e|[]] eqn:V.
  - destruct (sync_checks_volume name args e V) as [e' [S _]].
    exists e'. split; [now apply v1_throws|now apply v2_throws].
  - exfalso. destruct (proj1 I eq_refl) as [A B].
    destruct Given; congruence.
Qed.

Lemma X8_volume_checks_pass_iff_unset_witness :
  nodeRootVolumeType Cases.io1_with_iops = Some io1
  /\ nodeRootVolumeIops Cases.io1_with_iops = Some (Js.Int 3000)
  /\ exists e,
       fst (createNodeGroupInternal Sample.aws "ng" Cases.io1_with_iops
                                    Sample.core start) = inl e
       /\ fst (createNodeGroupV2Internal Sample.aws "ng" Cases.io1_with_iops
                                         Sample.core start) = inl e.
Proof.
  split; [reflexivity|]. split; [reflexivity|].
  exact (proj2 (X8_volume_checks_pass_iff_unset Sample.aws "ng"
                  Cases.io1_with_iops Sample.core) (or_introl eq_refl)).
Defined.

(** ** The two self-managed provisioners side by side *)

(** X9.  On the same options and cluster the legacy and the
    template-based provisioner throw the same error, after the same
    registrations, or both go through. *)
Theorem X9_provisioners_throw_alike
        (aws : Aws) (name : string) (args : NodeGroupOptions) (core : CoreData) :
  (forall e,
      fst (createNodeGroupInternal aws name args core start) = inl e
      <-> fst (createNodeGroupV2Internal aws name args core start) = inl e)
  /\ (forall e,
         fst (createNodeGroupInternal aws name args core start) = inl e ->
         snd (createNodeGroupInternal aws name args core start)
         = snd (createNodeGroupV2Internal aws name args core start))
  /\ ((exists d, fst (createNodeGroupInternal aws name args core start) = inr d)
      <-> (exists d, fst (createNodeGroupV2Internal aws name args core start)
                     = inr d)).
Proof.
  split; [|split].
  - intros e. rewrite v1_throws, v2_throws. tauto.
  - intros e F. apply v1_throws in F. revert F. run_sync.
    destruct (checkExclusive args) as [x|[]].
    + intros _.
      destruct (resolveInstanceProfile args core),
        (checkNodeSecurityGroupTags args core); reflexivity.
    + destruct (nodeSecurityGroup args), (clusterIngressRule args),
        (resolveInstanceProfile args core),
        (checkNodeSecurityGroupTags args core);
        cbn [Js.defined negb andb Output_map]; try reflexivity;
        destruct (Js.truthy_opt (nodePublicKey args));
        destruct (validateRootVolume args) as [v|[]];
        try discriminate; reflexivity.
  - pose proof (v1_outcome aws name args core) as O1.
    pose proof (v2_outcome aws name args core) as O2.
    cbv zeta in O1, O2.
    destruct (sync_checks name args) as [e|[]].
    + destruct O1 as [F1 _], O2 as [F2 _]. rewrite F1, F2.
      split; intros [d D]; discriminate.
    + destruct O1 as [d1 [? [? [F1 _]]]], O2 as [d2 [? [? [F2 _]]]].
      split; intros _; eauto.
Qed.

Lemma X9_provisioners_throw_alike_witness :
  fst (createNodeGroupInternal Sample.aws "ng" Sample.key_and_iops_own_group
                               Sample.core start) = inl IopsOnNonIo1
  /\ fst (createNodeGroupV2Internal Sample.aws "ng" Sample.key_and_iops_own_group
                                    Sample.core start) = inl IopsOnNonIo1
  /\ snd (createNodeGroupInternal Sample.aws "ng" Sample.key_and_iops_own_group
                                  Sample.core start)
     = snd (createNodeGroupV2Internal Sample.aws "ng"
              Sample.key_and_iops_own_group Sample.core start).
Proof.
  assert (F : fst (createNodeGroupInternal Sample.aws "ng"
                     Sample.key_and_iops_own_group Sample.core start)
              = inl IopsOnNonIo1) by (vm_compute; reflexivity).
  pose proof (X9_provisioners_throw_alike Sample.aws "ng"
                Sample.key_and_iops_own_group Sample.core) as H.
  destruct H as [A [B _]].
  split; [exact F|]. split; [exact (proj1 (A _) F)|exact (B _ F)].
Defined.

(** ** The order of registrations *)

Lemma early_events_key_pair (name : string) (args : NodeGroupOptions)
      (c : CoreData) :
  filter is_key_pair (early_events name args c)
  = if Js.truthy_opt (nodePublicKey args)
    then [NewKeyPair (name ++ "-keyPair")
                     (Js.nullish (nodePublicKey args) EmptyString)]
    else [].
Proof.
  unfold early_events.
  destruct (Js.defined (nodeSecurityGroup args)),
    (Js.truthy_opt (nodePublicKey args)); reflexivity.
Qed.

(** X10.  When no check throws, the legacy provisioner registers its
    launch configuration and then its stack last, the template-based
    one its launch template and then its autoscaling group; what comes
    before is the security group and the key pair only, and a key pair
    is registered, once and with the public key given, exactly when a
    public key is given. *)
Theorem X10_registration_order
        (aws : Aws) (name : string) (args : NodeGroupOptions) (core : CoreData) :
  checkExclusive args = inr tt ->
  (nodeSecurityGroup args = None \/ clusterIngressRule args <> None) ->
  validateRootVolume args = inr tt ->
  exists early lc st lt g,
    registered (snd (createNodeGroupInternal aws name args core start))
    = (early ++ [NewLaunchConfiguration (name ++ "-nodeLaunchConfiguration") lc;
                 NewStack (name ++ "-nodes") st])%list
    /\ registered (snd (createNodeGroupV2Internal aws name args core start))
       = (early ++ [NewLaunchTemplate (name ++ "-launchTemplate") lt;
                    NewAutoscalingGroup name g])%list
    /\ forallb is_early_event early = true
    /\ filter is_key_pair early
       = (if Js.truthy_opt (nodePublicKey args)
          then [NewKeyPair (name ++ "-keyPair")
                           (Js.nullish (nodePublicKey args) EmptyString)]
          else []).
Proof.
  intros X G V.
  pose proof (sync_checks_ok name args X G V) as S.
  destruct (v1_resources aws name args core S) as [d [lc [st [R1 _]]]].
  destruct (v2_resources aws name args core S) as [d2 [lt [g [R2 _]]]].
  exists (early_events name args core), lc, st, lt, g.
  rewrite R1, R2. cbn [snd registered].
  split; [reflexivity|]. split; [reflexivity|]. split.
  - apply forallb_forall. intros ev. apply early_events_early.
  - apply early_events_key_pair.
Qed.

Lemma X10_registration_order_witness :
  exists lc st,
    registered (snd (createNodeGroupInternal Sample.aws "ng" Cases.own_group
                                             Sample.core start))
    = [NewLaunchConfiguration "ng-nodeLaunchConfiguration" lc;
       NewStack "ng-nodes" st].
Proof.
  assert (R : clusterIngressRule Cases.own_group <> None) by discriminate.
  pose proof (X10_registration_order Sample.aws "ng" Cases.own_group
                Sample.core eq_refl (or_intror R) eq_refl) as H.
  destruct H as [early [lc [st [lt [g [R1 _]]]]]].
  exists lc, st.
  assert (L : List.length
                (registered (snd (createNodeGroupInternal Sample.aws "ng"
                                    Cases.own_group Sample.core start))) = 2)
    by (vm_compute; reflexivity).
  rewrite R1 in L. rewrite R1.
  destruct early as [|ev rest]; [reflexivity|].
  rewrite length_app in L. cbn [List.length] in L. lia.
Defined.

(** X11.  A fleet waits for the add-ons of the cluster: the stack of
    the legacy provisioner and the group of the template-based one
    depend on the CNI resource and on the node-access resource, in
    this order and each when it is present; the managed node group
    depends on the node-access resource only. *)
Theorem X11_fleet_dependencies
        (aws : Aws) (name : string) (args : NodeGroupOptions)
        (margs : ManagedNodeGroupOptions) (core : CoreData) :
  let cni := match vpcCni core with Some r => [r] | None => [] end in
  let access := match eksNodeAccess core with Some r => [r] | None => [] end in
  (forall n st,
      In (NewStack n st)
         (registered (snd (createNodeGroupInternal aws name args core start))) ->
      stack_dependsOn st = (cni ++ access)%list)
  /\ (forall n g,
         In (NewAutoscalingGroup n g)
            (registered (snd (createNodeGroupV2Internal aws name args core start))) ->
         asg_dependsOn g = (cni ++ access)%list)
  /\ (forall n a,
         In (NewEksNodeGroup n a)
            (registered (snd (createManagedNodeGroupInternal name margs core start))) ->
         ng_dependsOn a = access).
Proof.
  cbv zeta. split; [|split].
  - intros n st I.
    pose proof (v1_outcome aws name args core) as O. cbv zeta in O.
    destruct (sync_checks name args) as [e|[]] eqn:S.
    + destruct O as [_ R]. rewrite R in I.
      destruct (is_volume_error e); [|destruct I].
      apply early_events_early in I. discriminate.
    + destruct (v1_resources aws name args core S)
        as [d [lc [st' [R [_ [_ [_ [_ [_ [_ [_ [_ [_ [_ [D _]]]]]]]]]]]]]]].
      rewrite R in I. cbn [snd registered] in I.
      apply (in_tail_pair is_early_event) in I;
        [|intros y; apply early_events_early|reflexivity].
      destruct I as [I|I]; [discriminate|].
      injection I as _ <-. exact D.
  - intros n g I.
    pose proof (v2_outcome aws name args core) as O. cbv zeta in O.
    destruct (sync_checks name args) as [e|[]] eqn:S.
    + destruct O as [_ R]. rewrite R in I.
      destruct (is_volume_error e); [|destruct I].
      apply early_events_early in I. discriminate.
    + destruct (v2_resources aws name args core S)
        as [d [lt [g' [R [_ [_ [_ [_ [_ [_ [_ [_ [_ [_ [D _]]]]]]]]]]]]]]].
      rewrite R in I. cbn [snd registered] in I.
      apply (in_tail_pair is_early_event) in I;
        [|intros y; apply early_events_early|reflexivity].
      destruct I as [I|I]; [discriminate|].
      injection I as _ <-. exact D.
  - intros n a I. rewrite managed_outcome in I.
    destruct (_ && _)%bool; [destruct I|].
    destruct (_ && _)%bool; [destruct I|].
    cbv zeta in I. cbn [snd registered] in I.
    destruct I as [I|[]]. injection I as _ <-. reflexivity.
Qed.

Lemma X11_fleet_dependencies_witness :
  exists st,
    In (NewStack "ng-nodes" st)
       (registered (snd (createNodeGroupInternal Sample.aws "ng" noOptions
                                                 Sample.core start)))
    /\ stack_dependsOn st = ["vpc-cni"; "aws-auth"].
Proof.
  assert (I : exists st,
             In (NewStack "ng-nodes" st)
                (registered (snd (createNodeGroupInternal Sample.aws "ng"
                                    noOptions Sample.core start)))).
  { eexists. vm_compute. right. right. right. left. reflexivity. }
  destruct I as [st I]. exists st. split; [exact I|].
  exact (proj1 (X11_fleet_dependencies Sample.aws "ng" noOptions
                  Sample.unregistered_role Sample.core) _ st I).
Defined.

(** ** Outputs that are rejected *)

(** X12.  The instance profile of the options wins over the one of the
    cluster.  With neither, the call does not throw: the error is
    raised inside an [apply] callback, so the security group, the
    launch configuration and the stack are registered all the same,
    the launch configuration with a rejected instance profile, and the
    call fails through that rejection. *)
Theorem X12_instance_profile_is_checked_late
        (aws : Aws) (name : string) (args : NodeGroupOptions) (core : CoreData) :
  checkExclusive args = inr tt ->
  (nodeSecurityGroup args = None \/ clusterIngressRule args <> None) ->
  validateRootVolume args = inr tt ->
  exists d lc st early,
    createNodeGroupInternal aws name args core start
    = (inr d, snd (createNodeGroupInternal aws name args core start))
    /\ registered (snd (createNodeGroupInternal aws name args core start))
       = (early ++ [NewLaunchConfiguration (name ++ "-nodeLaunchConfiguration") lc;
                    NewStack (name ++ "-nodes") st])%list
    /\ (forall p, instanceProfile args = Some p ->
                  lc_iamInstanceProfile lc = inr p)
    /\ (forall p, instanceProfile args = None ->
                  cluster_instanceProfile (nodeGroupOptions core) = Some p ->
                  lc_iamInstanceProfile lc = inr p)
    /\ (instanceProfile args = None ->
        cluster_instanceProfile (nodeGroupOptions core) = None ->
        lc_iamInstanceProfile lc = inl InstanceProfileRequired
        /\ In InstanceProfileRequired
              (rejected (snd (createNodeGroupInternal aws name args core start)))
        /\ failed (createNodeGroupInternal aws name args core start) = true).
Proof.
  intros X G V.
  pose proof (sync_checks_ok name args X G V) as S.
  destruct (v1_resources aws name args core S)
    as [d [lc [st [R [_ [_ [_ [P _]]]]]]]].
  exists d, lc, st, (early_events name args core).
  rewrite R. cbn [fst snd registered rejected].
  split; [reflexivity|]. split; [reflexivity|].
  rewrite P. unfold resolveInstanceProfile.
  split; [|split].
  - intros p A. now rewrite A.
  - intros p A C. now rewrite A, C.
  - intros A C. rewrite A, C. cbn [Js.defined negb andb rejection app].
    split; [reflexivity|]. split; [now left|reflexivity].
Qed.

Lemma X12_instance_profile_is_checked_late_witness :
  instanceProfile noOptions = None
  /\ cluster_instanceProfile (nodeGroupOptions Cases.core_without_profile) = None
  /\ failed (createNodeGroupInternal Sample.aws "ng" noOptions
               Cases.core_without_profile start) = true
  /\ List.length
       (registered (snd (createNodeGroupInternal Sample.aws "ng" noOptions
                           Cases.core_without_profile start))) = 4.
Proof.
  pose proof (X12_instance_profile_is_checked_late Sample.aws "ng" noOptions
                Cases.core_without_profile eq_refl (or_introl eq_refl) eq_refl)
    as H.
  destruct H as [d [lc [st [early [_ [_ [_ [_ N]]]]]]]].
  split; [reflexivity|]. split; [reflexivity|].
  split; [exact (proj2 (proj2 (N eq_refl eq_refl)))|].
  vm_compute. reflexivity.
Defined.

(** X13.  Take a call of the legacy provisioner whose checks pass and
    whose instance profile, image and subnets resolve, so that the
    stack has its inputs.  The call returns with everything
    registered.  When the stack has declared the output [NodeGroup],
    its value is the name of the autoscaling group; when it has not,
    the name is rejected with the error of the missing output.  No
    other rejection is noted but the one of the check on the tags of
    the node security group. *)
Theorem X13_missing_stack_output_rejects_the_name
        (aws : Aws) (name : string) (args : NodeGroupOptions) (core : CoreData) :
  checkExclusive args = inr tt ->
  (nodeSecurityGroup args = None \/ clusterIngressRule args <> None) ->
  validateRootVolume args = inr tt ->
  (exists p, resolveInstanceProfile args core = inr p) ->
  (forall n e, resolveAmi aws args core <> ParameterLookup n (inl e)) ->
  (exists ids, resolveWorkerSubnets aws args core = inr ids) ->
  let outputs :=
    stack_outputs aws (randomSuffix aws (name ++ "-cfnStackName") name) in
  exists d,
    fst (createNodeGroupInternal aws name args core start) = inr d
    /\ (forall v, Js.lookup "NodeGroup" outputs = Some v ->
                  autoScalingGroupName d = inr v)
    /\ (Js.lookup "NodeGroup" outputs = None ->
        autoScalingGroupName d = inl StackOutputMissing
        /\ In StackOutputMissing
              (rejected (snd (createNodeGroupInternal aws name args core start)))
        /\ List.length
             (registered (snd (createNodeGroupInternal aws name args core start)))
           = (List.length (early_events name args core) + 2)%nat)
    /\ rejected (snd (createNodeGroupInternal aws name args core start))
       = (rejection (checkNodeSecurityGroupTags args core)
          ++ match Js.lookup "NodeGroup" outputs with
             | Some _ => []
             | None => [StackOutputMissing]
             end)%list.
Proof.
  intros X G V [p P] Ami [ids Sub] outputs.
  pose proof (sync_checks_ok name args X G V) as S.
  destruct (v1_resources aws name args core S) as [d [lc [st [R [_ [A _]]]]]].
  exists d. rewrite R. cbn [fst snd registered rejected].
  split; [reflexivity|]. fold outputs in A. rewrite A. split; [|split].
  - intros v L. now rewrite L.
  - intros L. fold outputs. rewrite L. split; [reflexivity|]. split.
    + apply in_or_app. right. apply in_or_app. right.
      apply in_or_app. right. now left.
    + rewrite length_app. reflexivity.
  - fold outputs. rewrite P, Sub. cbn [rejection app].
    destruct (Js.defined (nodeSubnetIds args)); cbn [app];
      destruct (Js.lookup "NodeGroup" outputs); reflexivity.
Qed.

Lemma X13_missing_stack_output_rejects_the_name_witness :
  exists d,
    fst (createNodeGroupInternal Cases.aws_no_output "ng" noOptions
                                 Sample.core start) = inr d
    /\ autoScalingGroupName d = inl StackOutputMissing
    /\ rejected (snd (createNodeGroupInternal Cases.aws_no_output "ng" noOptions
                        Sample.core start)) = [StackOutputMissing].
Proof.
  assert (P : exists p, resolveInstanceProfile noOptions Sample.core = inr p)
    by (eexists; reflexivity).
  assert (A : forall n e, resolveAmi Cases.aws_no_output noOptions Sample.core
                          <> ParameterLookup n (inl e))
    by (intros n e; discriminate).
  assert (Sub : exists ids, resolveWorkerSubnets Cases.aws_no_output noOptions
                              Sample.core = inr ids)
    by (eexists; reflexivity).
  pose proof (X13_missing_stack_output_rejects_the_name Cases.aws_no_output
                "ng" noOptions Sample.core eq_refl (or_introl eq_refl) eq_refl
                P A Sub)
    as H.
  destruct H as [d [F [_ [N Rj]]]].
  exists d. split; [exact F|]. split; [exact (proj1 (N eq_refl))|].
  rewrite Rj. reflexivity.
Defined.

(** X14.  The classification of the cluster's subnets runs only when
    the options give no subnets and the cluster names neither private
    nor public ones.  A lookup that fails then does not stop the call:
    the subnet list of the stack template and of the autoscaling group
    is rejected with the error of the lookup.  With an override the
    provider's route tables are not consulted. *)
Theorem X14_subnet_lookup_failure_is_a_rejection
        (aws : Aws) (name : string) (args : NodeGroupOptions) (core : CoreData) :
  checkExclusive args = inr tt ->
  (nodeSecurityGroup args = None \/ clusterIngressRule args <> None) ->
  validateRootVolume args = inr tt ->
  exists d st g,
    fst (createNodeGroupInternal aws name args core start) = inr d
    /\ In (NewStack (name ++ "-nodes") st)
          (registered (snd (createNodeGroupInternal aws name args core start)))
    /\ In (NewAutoscalingGroup name g)
          (registered (snd (createNodeGroupV2Internal aws name args core start)))
    /\ (forall ids, nodeSubnetIds args = Some ids ->
          VPCZoneIdentifier (templateBody st) = inr ids
          /\ asg_vpcZoneIdentifiers g = inr ids)
    /\ (forall e,
          nodeSubnetIds args = None -> privateSubnetIds core = None ->
          publicSubnetIds core = None ->
          computeWorkerSubnets aws (subnetIds core) = inl e ->
          VPCZoneIdentifier (templateBody st) = inl e
          /\ asg_vpcZoneIdentifiers g = inl e
          /\ In e (rejected (snd (createNodeGroupInternal aws name args core start)))
          /\ In e (rejected (snd (createNodeGroupV2Internal aws name args core start)))).
Proof.
  intros X G V.
  pose proof (sync_checks_ok name args X G V) as S.
  destruct (v1_resources aws name args core S)
    as [d [lc [st [R1 [_ [_ [_ [_ [_ [_ [_ [_ [_ [_ [_ [_ [_ Z1]]]]]]]]]]]]]]]]].
  destruct (v2_resources aws name args core S)
    as [d2 [lt [g [R2 [_ [_ [_ [_ [_ [_ [_ [_ [_ [_ [_ [_ [_ Z2]]]]]]]]]]]]]]]]].
  exists d, st, g. rewrite R1, R2. cbn [fst snd registered rejected].
  split; [reflexivity|].
  split; [apply in_or_app; right; right; left; reflexivity|].
  split; [apply in_or_app; right; right; left; reflexivity|].
  rewrite Z1, Z2. unfold resolveWorkerSubnets. split.
  - intros ids N. now rewrite N.
  - intros e N Pr Pu C. rewrite N, Pr, Pu, C.
    cbn [Js.defined rejection].
    split; [reflexivity|]. split; [reflexivity|]. split.
    + apply in_or_app. right. apply in_or_app. right.
      apply in_or_app. left. now left.
    + apply in_or_app. right. apply in_or_app. right. now left.
Qed.

Lemma X14_subnet_lookup_failure_is_a_rejection_witness :
  computeWorkerSubnets Cases.aws_subnet_gone (subnetIds Cases.core_subnet_gone)
  = inl (LookupFailed "no such subnet")
  /\ failed (createNodeGroupV2Internal Cases.aws_subnet_gone "ng" noOptions
               Cases.core_subnet_gone start) = true
  /\ exists g,
       In (NewAutoscalingGroup "ng" g)
          (registered (snd (createNodeGroupV2Internal Cases.aws_subnet_gone "ng"
                              noOptions Cases.core_subnet_gone start)))
       /\ asg_vpcZoneIdentifiers g = inl (LookupFailed "no such subnet").
Proof.
  assert (C : computeWorkerSubnets Cases.aws_subnet_gone
                (subnetIds Cases.core_subnet_gone)
              = inl (LookupFailed "no such subnet")) by reflexivity.
  pose proof (X14_subnet_lookup_failure_is_a_rejection Cases.aws_subnet_gone
                "ng" noOptions Cases.core_subnet_gone
                eq_refl (or_introl eq_refl) eq_refl) as H.
  destruct H as [d [st [g [_ [_ [I [_ N]]]]]]].
  split; [exact C|]. split; [vm_compute; reflexivity|].
  exists g. split; [exact I|].
  exact (proj1 (proj2 (N _ eq_refl eq_refl eq_refl C))).
Defined.

(** ** The root volume and the user data of what is registered *)

(** X15.  The legacy provisioner encrypts the root volume when the
    first defined of [encryptRootBlockDevice], [encryptRootBockDevice]
    and [nodeRootVolumeEncrypted] says so; the template-based one looks
    at [nodeRootVolumeEncrypted] only and ignores the two deprecated
    options.  Both default the volume to 20 GiB of type [gp2]. *)
Theorem X15_root_volume_encryption
        (aws : Aws) (name : string) (args : NodeGroupOptions) (core : CoreData) :
  checkExclusive args = inr tt ->
  (nodeSecurityGroup args = None \/ clusterIngressRule args <> None) ->
  validateRootVolume args = inr tt ->
  exists lc lt,
    In (NewLaunchConfiguration (name ++ "-nodeLaunchConfiguration") lc)
       (registered (snd (createNodeGroupInternal aws name args core start)))
    /\ In (NewLaunchTemplate (name ++ "-launchTemplate") lt)
          (registered (snd (createNodeGroupV2Internal aws name args core start)))
    /\ rbd_encrypted (lc_rootBlockDevice lc)
       = first_defined [encryptRootBlockDevice args; encryptRootBockDevice args;
                        nodeRootVolumeEncrypted args] false
    /\ ebs_encrypted (lt_ebs lt)
       = (if Js.nullish (nodeRootVolumeEncrypted args) false
          then "true" else "false")
    /\ rbd_volumeSize (lc_rootBlockDevice lc)
       = Js.nullish (nodeRootVolumeSize args) (Js.Int 20)
    /\ ebs_volumeSize (lt_ebs lt)
       = Js.nullish (nodeRootVolumeSize args) (Js.Int 20)
    /\ rbd_volumeType (lc_rootBlockDevice lc)
       = Js.nullish (nodeRootVolumeType args) gp2
    /\ ebs_volumeType (lt_ebs lt) = Js.nullish (nodeRootVolumeType args) gp2.
Proof.
  intros X G V.
  pose proof (sync_checks_ok name args X G V) as S.
  destruct (v1_resources aws name args core S)
    as [d [lc [st [R1 [_ [_ [_ [_ [_ [_ [_ [B1 _]]]]]]]]]]]].
  destruct (v2_resources aws name args core S)
    as [d2 [lt [g [R2 [_ [_ [_ [_ [_ [_ [_ [B2 _]]]]]]]]]]]].
  exists lc, lt. rewrite R1, R2, B1, B2. cbn [snd registered].
  split; [apply in_or_app; right; left; reflexivity|].
  split; [apply in_or_app; right; left; reflexivity|].
  unfold rootBlockDevice_of, ebs_of, bool_text.
  cbn [rbd_encrypted ebs_encrypted rbd_volumeSize ebs_volumeSize
       rbd_volumeType ebs_volumeType].
  repeat split; reflexivity.
Qed.

Lemma X15_root_volume_encryption_witness :
  exists lc lt,
    In (NewLaunchConfiguration "ng-nodeLaunchConfiguration" lc)
       (registered (snd (createNodeGroupInternal Sample.aws "ng"
                           Cases.deprecated_encryption Sample.core start)))
    /\ In (NewLaunchTemplate "ng-launchTemplate" lt)
          (registered (snd (createNodeGroupV2Internal Sample.aws "ng"
                              Cases.deprecated_encryption Sample.core start)))
    /\ rbd_encrypted (lc_rootBlockDevice lc) = true
    /\ ebs_encrypted (lt_ebs lt) = "false".
Proof.
  pose proof (X15_root_volume_encryption Sample.aws "ng"
                Cases.deprecated_encryption Sample.core
                eq_refl (or_introl eq_refl) eq_refl) as H.
  destruct H as [lc [lt [I1 [I2 [E1 [E2 _]]]]]].
  exists lc, lt. split; [exact I1|]. split; [exact I2|].
  split; [exact E1|exact E2].
Defined.

(** X16.  A user-data override that conflicts with nothing replaces
    the generated script: it is the user data of the launch
    configuration as it is, and of the launch template in base64. *)
Theorem X16_override_is_the_user_data
        (aws : Aws) (name : string) (args : NodeGroupOptions) (core : CoreData)
        (script : string) :
  nodeUserDataOverride args = Some script -> Js.truthy script = true ->
  checkExclusive args = inr tt ->
  (nodeSecurityGroup args = None \/ clusterIngressRule args <> None) ->
  validateRootVolume args = inr tt ->
  exists lc lt,
    In (NewLaunchConfiguration (name ++ "-nodeLaunchConfiguration") lc)
       (registered (snd (createNodeGroupInternal aws name args core start)))
    /\ In (NewLaunchTemplate (name ++ "-launchTemplate") lt)
          (registered (snd (createNodeGroupV2Internal aws name args core start)))
    /\ lc_userData lc = script
    /\ lt_userData lt = Base64.encode script.
Proof.
  intros O T X G V.
  pose proof (sync_checks_ok name args X G V) as S.
  pose proof (v1_outcome aws name args core) as O1.
  pose proof (v2_outcome aws name args core) as O2.
  cbv zeta in O1, O2. rewrite S in O1, O2.
  destruct O1 as [d [lc [st [_ [R1 [U1 _]]]]]].
  destruct O2 as [d2 [lt [g [_ [R2 [U2 _]]]]]].
  exists lc, lt. rewrite R1, R2.
  split; [apply in_or_app; right; left; reflexivity|].
  split; [apply in_or_app; right; left; reflexivity|].
  rewrite U1, U2. unfold userdata_v2, script_v2. rewrite O. simpl.
  rewrite T. destruct script; [discriminate|]. split; reflexivity.
Qed.

Lemma X16_override_is_the_user_data_witness :
  exists lc lt,
    In (NewLaunchConfiguration "ng-nodeLaunchConfiguration" lc)
       (registered (snd (createNodeGroupInternal Sample.aws "ng"
                           Cases.override_only Sample.core start)))
    /\ In (NewLaunchTemplate "ng-launchTemplate" lt)
          (registered (snd (createNodeGroupV2Internal Sample.aws "ng"
                              Cases.override_only Sample.core start)))
    /\ lc_userData lc = "#!/bin/bash -xe"
    /\ lt_userData lt = "IyEvYmluL2Jhc2ggLXhl".
Proof.
  exact (X16_override_is_the_user_data Sample.aws "ng" Cases.override_only
           Sample.core "#!/bin/bash -xe" eq_refl eq_refl eq_refl
           (or_introl eq_refl) eq_refl).
Defined.

(** ** The kubelet arguments and the two scripts *)





Lemma append_assoc3 (a b c : string) : (a ++ b) ++ c = a ++ (b ++ c).
Proof. induction a; simpl; congruence. Qed.

(** X18.  Without an override, the script of the legacy provisioner is
    the script the template-based provisioner generates (for the same
    heredoc name) followed by the line that signals the stack. *)
Theorem X18_legacy_script_is_template_script_and_signal
        (aws : Aws) (args : NodeGroupOptions) (core : CoreData)
        (stackName : string) :
  Js.truthy_opt (nodeUserDataOverride args) = false ->
  userdata_v1 aws args core stackName
  = script_v2 args core stackName
    ++ "/opt/aws/bin/cfn-signal --exit-code $? --stack " ++ stackName
    ++ " --resource NodeGroup --region " ++ region_name aws ++ Js.nl.
Proof.
  intros O. unfold userdata_v1, script_v2.
  assert (E : match nodeUserDataOverride args with
              | Some (String ch r) => String ch r
              | _ => "#!/bin/bash" ++ Js.nl ++ Js.nl ++ bootstrapLine args core
                     ++ Js.nl ++ stageUserData stackName (userDataArg args)
                     ++ Js.nl
              end
              = "#!/bin/bash" ++ Js.nl ++ Js.nl ++ bootstrapLine args core
                ++ Js.nl ++ stageUserData stackName (userDataArg args) ++ Js.nl).
  { destruct (nodeUserDataOverride args) as [[|ch r]|];
      [reflexivity|discriminate|reflexivity]. }
  rewrite E. rewrite !append_assoc3. reflexivity.
Qed.

Lemma X18_legacy_script_is_template_script_and_signal_witness :
  Js.truthy_opt (nodeUserDataOverride noOptions) = false
  /\ userdata_v1 Sample.aws noOptions Sample.core "ng-0a1b2c3d"
     = script_v2 noOptions Sample.core "ng-0a1b2c3d"
       ++ "/opt/aws/bin/cfn-signal --exit-code $? --stack ng-0a1b2c3d --resource NodeGroup --region us-west-2"
       ++ Js.nl.
Proof.
  split; [reflexivity|].
  rewrite (X18_legacy_script_is_template_script_and_signal Sample.aws noOptions
             Sample.core "ng-0a1b2c3d" eq_refl).
  vm_compute. reflexivity.
Defined.

(** ** Managed node groups *)

(** X19.  A managed call either throws for a missing or a doubled
    role, with nothing registered and nothing rejected, or returns
    after registering exactly one node group under the name given.  The
    third [throw] of the function, for an undefined role, is never
    reached. *)
Theorem X19_managed_call_outcomes
        (name : string) (args : ManagedNodeGroupOptions) (core : CoreData) :
  match fst (createManagedNodeGroupInternal name args core start) with
  | inl e =>
      (e = RoleRequired \/ e = RoleExclusive)
      /\ snd (createManagedNodeGroupInternal name args core start) = start
  | inr n =>
      n = name
      /\ exists a,
          registered (snd (createManagedNodeGroupInternal name args core start))
          = [NewEksNodeGroup name a]
  end
  /\ fst (createManagedNodeGroupInternal name args core start)
     <> inl RoleUndefined.
Proof.
  rewrite managed_outcome.
  destruct (_ && _)%bool;
    [cbn [fst snd]; split; [split; [auto|reflexivity]|discriminate]|].
  destruct (_ && _)%bool;
    [cbn [fst snd]; split; [split; [auto|reflexivity]|discriminate]|].
  cbv zeta. cbn [fst snd registered].
  split; [split; [reflexivity|eexists; reflexivity]|discriminate].
Qed.

Lemma find_present (arn : string) (arns : list string) :
  In arn arns -> find (fun a => String.eqb a arn) arns = Some arn.
Proof.
  induction arns as [|a l IH]; intros I; [destruct I|]. simpl.
  destruct (String.eqb a arn) eqn:E.
  - apply String.eqb_eq in E. now subst.
  - destruct I as [->|I]; [now rewrite String.eqb_refl in E|auto].
Qed.

(** X20.  With exactly one of role and role ARN, and the ARN among the
    ARNs of the cluster's instance roles, the managed call succeeds
    without a rejection and the node group is registered with that
    ARN.  A role whose ARN is the empty string is rejected even when
    an instance role has the same empty ARN. *)
Theorem X20_managed_role_among_instance_roles
        (name : string) (args : ManagedNodeGroupOptions) (core : CoreData)
        (arn : string) :
  (nodeRole args = None /\ nodeRoleArn args = Some arn /\ Js.truthy arn = true)
  \/ (nodeRole args = Some {| role_arn := arn |}
      /\ Js.truthy_opt (nodeRoleArn args) = false) ->
  In arn (map role_arn (instanceRoles core)) ->
  (exists a,
      registered (snd (createManagedNodeGroupInternal name args core start))
      = [NewEksNodeGroup name a]
      /\ ng_nodeRoleArn a = arn)
  /\ (Js.truthy arn = true ->
      rejected (snd (createManagedNodeGroupInternal name args core start)) = []
      /\ failed (createManagedNodeGroupInternal name args core start) = false)
  /\ (Js.truthy arn = false ->
      rejected (snd (createManagedNodeGroupInternal name args core start))
      = [RoleNotInInstanceRoles]).
Proof.
  intros Which Present. rewrite managed_outcome.
  destruct Which as [[R [A T]]|[R A]].
  - rewrite R, A. cbn [Js.defined Js.truthy_opt negb andb]. rewrite T.
    cbv zeta.
    cbn [Js.nullish andb negb fst snd registered rejected failed].
    unfold nodegroupRole. rewrite (find_present arn _ Present), T.
    split; [eexists; split; reflexivity|].
    split; [intros _; split; reflexivity|discriminate].
  - rewrite R, A. cbn [Js.defined negb andb]. cbv zeta.
    cbn [role_arn fst snd registered rejected failed].
    unfold nodegroupRole. rewrite (find_present arn _ Present).
    split; [eexists; split; reflexivity|].
    split; intros T; rewrite T; [split|]; reflexivity.
Qed.

Lemma X20_managed_role_among_instance_roles_witness :
  In "arn:aws:iam::1:role/workers" (map role_arn (instanceRoles Sample.core))
  /\ failed (createManagedNodeGroupInternal "mng" Cases.registered_role
               Sample.core start) = false.
Proof.
  assert (P : In "arn:aws:iam::1:role/workers"
                 (map role_arn (instanceRoles Sample.core)))
    by (left; reflexivity).
  split; [exact P|].
  pose proof (X20_managed_role_among_instance_roles "mng" Cases.registered_role
                Sample.core "arn:aws:iam::1:role/workers"
                (or_introl (conj eq_refl (conj eq_refl eq_refl))) P) as H.
  exact (proj2 (proj1 (proj2 H) eq_refl)).
Defined.

(** X21.  The node group a managed call registers takes each size of
    [scalingConfig] that is given and defaults the others one by one
    (desired 2, minimum 1, maximum 2); its subnets are the ones of the
    options when given and else all the subnets of the cluster,
    unclassified; its cluster name is the one of the options whenever
    one is given, whatever it resolves to, the empty string included,
    and else the name of the cluster. *)
Theorem X21_managed_node_group_arguments
        (name : string) (args : ManagedNodeGroupOptions) (core : CoreData)
        (n : string) (a : EksNodeGroupArgs) :
  In (NewEksNodeGroup n a)
     (registered (snd (createManagedNodeGroupInternal name args core start))) ->
  n = name
  /\ ng_desiredSize a
     = match scalingConfig args with
       | Some {| desiredSize := Some k |} => k
       | _ => Js.Int 2
       end
  /\ ng_minSize a
     = match scalingConfig args with
       | Some {| sc_minSize := Some k |} => k
       | _ => Js.Int 1
       end
  /\ ng_maxSize a
     = match scalingConfig args with
       | Some {| sc_maxSize := Some k |} => k
       | _ => Js.Int 2
       end
  /\ ng_subnetIds a
     = match mng_subnetIds args with
       | Some ids => ids
       | None => subnetIds core
       end
  /\ ng_clusterName a
     = match clusterName args with
       | Some given => given
       | None => cluster_name (cluster core)
       end.
Proof.
  intros I. rewrite managed_outcome in I.
  destruct (_ && _)%bool; [destruct I|].
  destruct (_ && _)%bool; [destruct I|].
  cbv zeta in I. cbn [snd registered] in I.
  destruct I as [I|[]]. injection I as <- <-.
  cbn [ng_desiredSize ng_minSize ng_maxSize ng_subnetIds ng_clusterName].
  unfold config_field, managedSubnetIds.
  split; [reflexivity|].
  destruct (scalingConfig args) as [[[d|] [mi|] [ma|]]|],
    (mng_subnetIds args), (clusterName args) as [given|];
    repeat split; reflexivity.
Qed.

Lemma X21_managed_node_group_arguments_witness :
  (exists a,
    In (NewEksNodeGroup "mng" a)
       (registered (snd (createManagedNodeGroupInternal "mng"
                           Cases.registered_role Sample.core start)))
    /\ ng_desiredSize a = Js.Int 5
    /\ ng_minSize a = Js.Int 1
    /\ ng_maxSize a = Js.Int 9
    /\ ng_subnetIds a = ["subnet-public"; "subnet-private"]
    /\ ng_clusterName a = "prod")
  /\ (exists a,
        In (NewEksNodeGroup "mng" a)
           (registered (snd (createManagedNodeGroupInternal "mng"
                               Cases.empty_cluster_name Sample.core start)))
        /\ ng_clusterName a = EmptyString).
Proof.
  assert (I : exists a,
             In (NewEksNodeGroup "mng" a)
                (registered (snd (createManagedNodeGroupInternal "mng"
                                    Cases.registered_role Sample.core start)))).
  { eexists. vm_compute. left. reflexivity. }
  assert (J : exists a,
             In (NewEksNodeGroup "mng" a)
                (registered (snd (createManagedNodeGroupInternal "mng"
                                    Cases.empty_cluster_name Sample.core start)))).
  { eexists. vm_compute. left. reflexivity. }
  split.
  - destruct I as [a I]. exists a. split; [exact I|].
    pose proof (X21_managed_node_group_arguments "mng" Cases.registered_role
                  Sample.core "mng" a I) as H.
    destruct H as [_ [D [Mi [Ma [S C]]]]]. auto.
  - destruct J as [a J]. exists a. split; [exact J|].
    pose proof (X21_managed_node_group_arguments "mng" Cases.empty_cluster_name
                  Sample.core "mng" a J) as H.
    destruct H as [_ [_ [_ [_ [_ C]]]]]. exact C.
Defined.

(** ** Tags *)

Lemma lookup_app {V : Type} (k : string) (a b : Js.Dict V) :
  Js.lookup k (a ++ b)%list
  = match Js.lookup k a with Some v => Some v | None => Js.lookup k b end.
Proof.
  induction a as [|[k' v] a IH]; simpl; [reflexivity|].
  destruct (String.eqb k k'); [reflexivity|exact IH].
Qed.

Lemma lookup_map_override {V : Type} (k : string) (a b : Js.Dict V) :
  Js.lookup k (map (fun kv => (fst kv, Js.nullish (Js.lookup (fst kv) b) (snd kv))) a)
  = match Js.lookup k a with
    | Some v => Some (Js.nullish (Js.lookup k b) v)
    | None => None
    end.
Proof.
  induction a as [|[k' v] a IH]; simpl; [reflexivity|].
  destruct (String.eqb k k') eqn:E; [|exact IH].
  apply String.eqb_eq in E. now subst.
Qed.

Lemma lookup_filter_absent {V : Type} (k : string) (a b : Js.Dict V) :
  Js.lookup k a = None ->
  Js.lookup k (filter (fun kv => negb (Js.has_key a (fst kv))) b)
  = Js.lookup k b.
Proof.
  intros N. induction b as [|[k' v] b IH]; simpl; [reflexivity|].
  destruct (String.eqb k k') eqn:E.
  - apply String.eqb_eq in E. subst k'.
    unfold Js.has_key at 1. rewrite N. simpl. now rewrite String.eqb_refl.
  - destruct (negb (Js.has_key a k')); simpl; [rewrite E|]; exact IH.
Qed.

(** In [{...a, ...b}] a key has the value [b] gives it, and else the
    value [a] gives it. *)
Lemma lookup_spread {V : Type} (k : string) (a b : Js.Dict V) :
  Js.lookup k (Js.spread a b)
  = match Js.lookup k b with Some v => Some v | None => Js.lookup k a end.
Proof.
  unfold Js.spread. rewrite lookup_app, lookup_map_override.
  destruct (Js.lookup k a) as [v|] eqn:A.
  - destruct (Js.lookup k b); reflexivity.
  - rewrite (lookup_filter_absent k a b A). destruct (Js.lookup k b); reflexivity.
Qed.

(** X22.  In the tags of the stack, a key has the value the cluster's
    tags give it, else the value of [cloudFormationTags], else, for the
    key [Name], the name of the stack resource: the cluster's tags win
    every collision and [Name] can be overridden by either. *)
Theorem X22_stack_tags_precedence
        (aws : Aws) (name : string) (args : NodeGroupOptions) (core : CoreData)
        (n : string) (st : StackArgs) (k : string) :
  In (NewStack n st)
     (registered (snd (createNodeGroupInternal aws name args core start))) ->
  Js.lookup k (stack_tags st)
  = match Js.lookup k (Js.nullish (tags core) []) with
    | Some v => Some v
    | None =>
        match Js.lookup k (Js.nullish (cloudFormationTags args) []) with
        | Some v => Some v
        | None => if String.eqb k "Name" then Some (name ++ "-nodes") else None
        end
    end.
Proof.
  intros I.
  pose proof (v1_outcome aws name args core) as O. cbv zeta in O.
  destruct (sync_checks name args) as [e|[]] eqn:S.
  - destruct O as [_ R]. rewrite R in I.
    destruct (is_volume_error e); [|destruct I].
    apply early_events_early in I. discriminate.
  - destruct (v1_resources aws name args core S)
      as [d [lc [st' [R [_ [_ [_ [_ [_ [_ [_ [_ [_ [_ [_ [T _]]]]]]]]]]]]]]]].
    rewrite R in I. cbn [snd registered] in I.
    apply (in_tail_pair is_early_event) in I;
      [|intros y; apply early_events_early|reflexivity].
    destruct I as [I|I]; [discriminate|].
    injection I as _ <-. rewrite T, !lookup_spread. reflexivity.
Qed.

Lemma X22_stack_tags_precedence_witness :
  exists st,
    In (NewStack "ng-nodes" st)
       (registered (snd (createNodeGroupInternal Sample.aws "ng" Cases.own_group
                                                 Cases.core_tagged start)))
    /\ Js.lookup "env" (stack_tags st) = Some "prod"
    /\ Js.lookup "team" (stack_tags st) = Some "data"
    /\ Js.lookup "Name" (stack_tags st) = Some "ng-nodes".
Proof.
  assert (I : exists st,
             In (NewStack "ng-nodes" st)
                (registered (snd (createNodeGroupInternal Sample.aws "ng"
                                    Cases.own_group Cases.core_tagged start)))).
  { eexists. vm_compute. right. left. reflexivity. }
  destruct I as [st I]. exists st. split; [exact I|].
  split; [|split].
  - rewrite (X22_stack_tags_precedence _ _ _ _ _ st "env" I). reflexivity.
  - rewrite (X22_stack_tags_precedence _ _ _ _ _ st "team" I). reflexivity.
  - rewrite (X22_stack_tags_precedence _ _ _ _ _ st "Name" I). reflexivity.
Defined.

(** X23.  The tags of the autoscaling group.  In the stack template of
    the legacy provisioner a tag of [autoScalingGroupTags] replaces the
    default of the same key ([Name] and the cluster-ownership key).
    The template-based provisioner lists every tag given, in order and
    propagated at launch, and then always the ownership tag and the
    default [Name] tag: nothing is replaced there. *)
Theorem X23_autoscaling_group_tags
        (aws : Aws) (name : string) (args : NodeGroupOptions) (core : CoreData) :
  let cn := cluster_name (cluster core) in
  let given := Js.nullish (autoScalingGroupTags args) [] in
  (forall n st k,
      In (NewStack n st)
         (registered (snd (createNodeGroupInternal aws name args core start))) ->
      Js.lookup k (Tags_of_group (templateBody st))
      = match Js.lookup k given with
        | Some v => Some v
        | None =>
            if String.eqb k "Name" then Some (cn ++ "-worker")
            else if String.eqb k ("kubernetes.io/cluster/" ++ cn)
                 then Some "owned" else None
        end)
  /\ (forall n g,
         In (NewAutoscalingGroup n g)
            (registered (snd (createNodeGroupV2Internal aws name args core start))) ->
         asg_tags g
         = (map (fun kv => {| tag_key := fst kv; tag_value := snd kv;
                              propagateAtLaunch := true |}) given
            ++ [ {| tag_key := "kubernetes.io/cluster/" ++ cn;
                    tag_value := "owned"; propagateAtLaunch := true |};
                 {| tag_key := "Name"; tag_value := cn ++ "-worker";
                    propagateAtLaunch := true |} ])%list
         /\ forallb propagateAtLaunch (asg_tags g) = true
         /\ List.length (asg_tags g) = (List.length given + 2)%nat).
Proof.
  cbv zeta. split.
  - intros n st k I.
    pose proof (v1_outcome aws name args core) as O. cbv zeta in O.
    destruct (sync_checks name args) as [e|[]] eqn:S.
    + destruct O as [_ R]. rewrite R in I.
      destruct (is_volume_error e); [|destruct I].
      apply early_events_early in I. discriminate.
    + destruct (v1_resources aws name args core S)
        as [d [lc [st' [R [_ [_ [_ [_ [_ [_ [_ [_ [_ [_ [_ [_ [T _]]]]]]]]]]]]]]]]].
      rewrite R in I. cbn [snd registered] in I.
      apply (in_tail_pair is_early_event) in I;
        [|intros y; apply early_events_early|reflexivity].
      destruct I as [I|I]; [discriminate|].
      injection I as _ <-. rewrite T. unfold autoScalingGroupTags_of.
      rewrite lookup_spread. reflexivity.
  - intros n g I.
    pose proof (v2_outcome aws name args core) as O. cbv zeta in O.
    destruct (sync_checks name args) as [e|[]] eqn:S.
    + destruct O as [_ R]. rewrite R in I.
      destruct (is_volume_error e); [|destruct I].
      apply early_events_early in I. discriminate.
    + destruct (v2_resources aws name args core S)
        as [d [lt [g' [R [_ [_ [_ [_ [_ [_ [_ [_ [_ [_ [_ [T _]]]]]]]]]]]]]]]].
      rewrite R in I. cbn [snd registered] in I.
      apply (in_tail_pair is_early_event) in I;
        [|intros y; apply early_events_early|reflexivity].
      destruct I as [I|I]; [discriminate|].
      injection I as _ <-. rewrite T. unfold inputTagsToASGTags.
      split; [reflexivity|]. split.
      * rewrite forallb_app. simpl. rewrite andb_true_r.
        apply forallb_forall. intros t In'. apply in_map_iff in In'.
        destruct In' as [kv [<- _]]. reflexivity.
      * rewrite length_app, length_map. reflexivity.
Qed.

Lemma X23_autoscaling_group_tags_witness :
  exists st g,
    In (NewStack "ng-nodes" st)
       (registered (snd (createNodeGroupInternal Sample.aws "ng" Cases.own_group
                                                 Sample.core start)))
    /\ In (NewAutoscalingGroup "ng" g)
          (registered (snd (createNodeGroupV2Internal Sample.aws "ng"
                              Cases.own_group Sample.core start)))
    /\ Js.lookup "Name" (Tags_of_group (templateBody st)) = Some "batch"
    /\ map tag_key (asg_tags g)
       = ["Name"; "team"; "kubernetes.io/cluster/prod"; "Name"].
Proof.
  assert (I1 : exists st,
             In (NewStack "ng-nodes" st)
                (registered (snd (createNodeGroupInternal Sample.aws "ng"
                                    Cases.own_group Sample.core start)))).
  { eexists. vm_compute. right. left. reflexivity. }
  assert (I2 : exists g,
             In (NewAutoscalingGroup "ng" g)
                (registered (snd (createNodeGroupV2Internal Sample.aws "ng"
                                    Cases.own_group Sample.core start)))).
  { eexists. vm_compute. right. left. reflexivity. }
  destruct I1 as [st I1], I2 as [g I2]. exists st, g.
  pose proof (X23_autoscaling_group_tags Sample.aws "ng" Cases.own_group
                Sample.core) as H.
  cbv zeta in H. destruct H as [H1 H2].
  split; [exact I1|]. split; [exact I2|]. split.
  - rewrite (H1 _ st "Name" I1). reflexivity.
  - rewrite (proj1 (H2 _ g I2)). reflexivity.
Defined.

(** ** The AMI *)

(** X24.  The AMI.  An [amiId] that is not empty is used as it is and
    nothing is looked up; otherwise the parameter looked up is the one
    of the version of the options (of the cluster when that is absent
    or empty) and of one of two families only: the GPU family when an
    [amiType] that is not empty is given or, without [amiType], when
    the GPU flag is set, and the standard family otherwise.  The text
    of [amiType] never reaches the parameter name. *)
Theorem X24_ami_resolution
        (aws : Aws) (args : NodeGroupOptions) (core : CoreData) :
  (forall id, resolveAmi aws args core = PlainId id
              <-> amiId args = Some id /\ Js.truthy id = true)
  /\ (Js.truthy_opt (amiId args) = false ->
      exists family ver,
        resolveAmi aws args core
        = ParameterLookup
            ("/aws/service/eks/optimized-ami/" ++ ver ++ "/" ++ family
             ++ "/recommended/image_id")
            (ssm_getParameter aws
               ("/aws/service/eks/optimized-ami/" ++ ver ++ "/" ++ family
                ++ "/recommended/image_id"))
        /\ (family = "amazon-linux-2-gpu" \/ family = "amazon-linux-2")
        /\ (family = "amazon-linux-2-gpu"
            <-> (exists t, amiType args = Some t /\ Js.truthy t = true)
                \/ (amiType args = None /\ gpu args = Some true))
        /\ ver = match version args with
                 | Some (String c r) => String c r
                 | _ => cluster_version (cluster core)
                 end).
Proof.
  split.
  - intros id. unfold resolveAmi.
    destruct (amiId args) as [[|c r]|]; simpl.
    + split; [discriminate|]. intros [[= <-] T]. discriminate T.
    + split; [intros [= <-]; split; reflexivity|].
      intros [[= <-] _]. reflexivity.
    + split; [discriminate|]. intros [E _]. discriminate E.
  - intros A. unfold resolveAmi. rewrite A.
    exists (amiType_of args), (version_of args core).
    split; [reflexivity|]. split; [|split].
    + unfold amiType_of.
      destruct (amiType args) as [t|];
        [destruct (Js.truthy t)|destruct (Js.truthy_bool (gpu args))]; auto.
    + apply amiType_of_gpu.
    + unfold version_of. destruct (version args) as [[|c r]|]; reflexivity.
Qed.

Lemma X24_ami_resolution_witness :
  Js.truthy_opt (amiId Sample.arm64) = false
  /\ exists ver,
       resolveAmi Sample.aws Sample.arm64 Sample.core
       = ParameterLookup
           ("/aws/service/eks/optimized-ami/" ++ ver
            ++ "/amazon-linux-2-gpu/recommended/image_id")
           (inr "ami-0123").
Proof.
  split; [reflexivity|].
  pose proof (proj2 (X24_ami_resolution Sample.aws Sample.arm64 Sample.core)
                eq_refl) as H.
  destruct H as [family [ver [R [_ [G _]]]]].
  exists ver. rewrite R.
  assert (F : family = "amazon-linux-2-gpu").
  { apply G. left. exists "amazon-linux-2-arm64". split; reflexivity. }
  subst family. reflexivity.
Defined.

(** ** The tag list of the stack template *)

Lemma fold_append_acc (t : Tags) (acc : string) :
  fold_left (fun output kv => output ++ asgTagEntry kv) t acc
  = acc ++ fold_left (fun output kv => output ++ asgTagEntry kv) t EmptyString.
Proof.
  revert acc. induction t as [|kv t IH]; intros acc; simpl.
  - induction acc; simpl; congruence.
  - rewrite (IH (acc ++ asgTagEntry kv)), (IH (asgTagEntry kv)).
    apply append_assoc3.
Qed.

(** X25.  [tagsToAsgTags] writes one block of three lines per tag, in
    the order of the keys and with nothing between or around the
    blocks: no tag gives the empty text, and the text of two tag sets
    one after the other is the text of the first followed by the text
    of the second. *)
Theorem X25_tagsToAsgTags_blocks (a b : Tags) :
  tagsToAsgTags [] = EmptyString
  /\ tagsToAsgTags (a ++ b)%list = tagsToAsgTags a ++ tagsToAsgTags b
  /\ tagsToAsgTags a = String.concat EmptyString (map asgTagEntry a)
  /\ forall k v,
       tagsToAsgTags [(k, v)]
       = Js.nl ++ "                          - Key: " ++ k
         ++ Js.nl ++ "                            Value: " ++ v
         ++ Js.nl ++ "                            PropagateAtLaunch: 'true'".
Proof.
  split; [reflexivity|]. split; [|split; [|reflexivity]].
  - unfold tagsToAsgTags. rewrite fold_left_app.
    apply fold_append_acc.
  - unfold tagsToAsgTags. induction a as [|kv t IH]; [reflexivity|].
    cbn [fold_left map]. rewrite fold_append_acc, IH.
    cbn [append].
    destruct (map asgTagEntry t) eqn:M; cbn [String.concat].
    + induction (asgTagEntry kv); simpl; congruence.
    + reflexivity.
Qed.

(** ** The security group of the cluster's nodes *)

(** X26.  When the cluster has a security group for its nodes and tags
    for such groups, a node group that brings another resource object
    for its security group is rejected, inside an [apply] callback:
    the call registers its resources and fails through the rejection.
    The comparison is one of objects, so that another object of the
    same group in the cloud is rejected as well.  The very object of
    the cluster, or a cluster without such tags, passes this check. *)
Theorem X26_node_security_group_tags_exclusive
        (aws : Aws) (name : string) (args : NodeGroupOptions) (core : CoreData)
        (csg asg : SecurityGroup) :
  cluster_nodeSecurityGroup (nodeGroupOptions core) = Some csg ->
  nodeSecurityGroup args = Some asg -> clusterIngressRule args <> None ->
  checkExclusive args = inr tt -> validateRootVolume args = inr tt ->
  (nodeSecurityGroupTags core <> None -> sg_urn csg <> sg_urn asg ->
   (exists d, fst (createNodeGroupInternal aws name args core start) = inr d)
   /\ In NodeSecurityGroupTagsExclusive
         (rejected (snd (createNodeGroupInternal aws name args core start)))
   /\ In NodeSecurityGroupTagsExclusive
         (rejected (snd (createNodeGroupV2Internal aws name args core start)))
   /\ failed (createNodeGroupInternal aws name args core start) = true)
  /\ (nodeSecurityGroupTags core = None \/ csg = asg ->
      checkNodeSecurityGroupTags args core = inr tt).
Proof.
  intros C A R X V.
  pose proof (sync_checks_ok name args X (or_intror R) V) as S.
  split.
  - intros T D.
    assert (N : checkNodeSecurityGroupTags args core
                = inl NodeSecurityGroupTagsExclusive).
    { unfold checkNodeSecurityGroupTags. rewrite C, A.
      destruct (nodeSecurityGroupTags core); [|congruence]. simpl.
      destruct (String.eqb (sg_urn csg) (sg_urn asg)) eqn:E; [|reflexivity].
      apply String.eqb_eq in E. contradiction. }
    destruct (v1_resources aws name args core S) as [d [lc [st [R1 _]]]].
    destruct (v2_resources aws name args core S) as [d2 [lt [g [R2 _]]]].
    rewrite R1, R2, N. cbn [fst snd rejected rejection failed].
    split; [eauto|]. split; [|split].
    + apply in_or_app. right. now left.
    + apply in_or_app. right. now left.
    + destruct (rejection (resolveInstanceProfile args core)); reflexivity.
  - intros Ok. unfold checkNodeSecurityGroupTags. rewrite C, A.
    destruct Ok as [-> | ->]; [reflexivity|].
    rewrite String.eqb_refl, andb_false_r. reflexivity.
Qed.

(** Another object of the cluster's own group: same identifier, and
    rejected. *)
Lemma X26_node_security_group_tags_exclusive_witness :
  (exists csg asg,
      cluster_nodeSecurityGroup (nodeGroupOptions Cases.core_with_node_group)
      = Some csg
      /\ nodeSecurityGroup Cases.imported_group = Some asg
      /\ sg_id csg = sg_id asg)
  /\ failed (createNodeGroupInternal Sample.aws "ng" Cases.imported_group
               Cases.core_with_node_group start) = true
  /\ In NodeSecurityGroupTagsExclusive
        (rejected (snd (createNodeGroupV2Internal Sample.aws "ng"
                          Cases.imported_group
                          Cases.core_with_node_group start))).
Proof.
  assert (R : clusterIngressRule Cases.imported_group <> None) by discriminate.
  assert (T : nodeSecurityGroupTags Cases.core_with_node_group <> None)
    by discriminate.
  assert (D : sg_urn {| sg_id := "sg-default"; sg_urn := "default" |}
              <> sg_urn {| sg_id := "sg-default"; sg_urn := "imported" |})
    by discriminate.
  pose proof (X26_node_security_group_tags_exclusive Sample.aws "ng"
                Cases.imported_group Cases.core_with_node_group _ _
                eq_refl eq_refl R eq_refl eq_refl) as H.
  destruct (proj1 H T D) as [_ [_ [I F]]].
  split; [do 2 eexists; repeat split|]. split; [exact F|exact I].
Defined.
